(** * Balanced energy ratio (floris/tools/energy_ratio.py)

    A shallow embedding of the statistical core of
    [floris/tools/energy_ratio.py]: the speed-bucket weighting and the
    weighted ratio ([energy_ratio]), the direction binning and the
    bootstrap loop ([calculate_balanced_energy_ratio]) and the small
    helpers around them.

    Numbers are IEEE binary64 values (Rocq's primitive floats), integers
    are [Z] (with the int64 wrap-around written out where the code adds),
    numpy arrays are lists, Python exceptions are the [Err] case of a result
    type, the process-wide random generator is an explicit counter over a
    stream of raw draws, and the memory the machine grants to a new array
    is a parameter. *)

From Stdlib Require Import ZArith List Floats Lia Bool QArith Qabs Qpower.
From Stdlib Require Uint63.
From stdpp Require Import base decidable list sorting.

Set Warnings "-inexact-float".
Set Default Proof Using "Type".

(** ** Python values, exceptions and the error monad *)

Module Py.

Inductive exn : Type :=
| IndexError
| ValueError
| TypeError
| OverflowError
| MemoryError.

Inductive result (A : Type) : Type :=
| Ok (a : A)
| Err (e : exn).

Arguments Ok {A} a.
Arguments Err {A} e.

Definition bind {A B : Type} (r : result A) (k : A -> result B) : result B :=
  match r with
  | Ok a => k a
  | Err e => Err e
  end.

Definition is_ok {A : Type} (r : result A) : bool :=
  match r with Ok _ => true | Err _ => false end.

(** A Python number as the code returns it: [len] and [np.min] of ints give
    an int, [np.nan] and the ratios are floats. *)
Inductive pynum : Type :=
| PyInt (z : Z)
| PyFloat (x : float).

(** What a caller may pass where an array is expected. *)
Inductive pyobj : Type :=
| PyNdarray (a : list float)      (* numpy.ndarray of floats *)
| PySeries (values : list float)  (* pandas.Series: has a [.values] ndarray *)
| PyList (l : list float)         (* a plain Python list *)
| PyDict (d : list (float * float)) (* a dict: its [.values] is a bound method *)
| PyMethod                        (* a bound method object *)
| PyNone.

Definition has_values (o : pyobj) : bool :=
  match o with PySeries _ | PyDict _ => true | _ => false end.

Definition is_ndarray (o : pyobj) : bool :=
  match o with PyNdarray _ => true | _ => false end.

(** Monadic fold: a [for] loop whose body may raise. *)
Fixpoint foldM {A S : Type} (f : A -> S -> result S) (l : list A) (s : S)
  : result S :=
  match l with
  | [] => Ok s
  | a :: l' => bind (f a s) (foldM f l')
  end.

Fixpoint mapM {A B : Type} (f : A -> result B) (l : list A) : result (list B) :=
  match l with
  | [] => Ok []
  | a :: l' =>
      bind (f a) (fun b => bind (mapM f l') (fun bs => Ok (b :: bs)))
  end.

End Py.

Export Py.

Notation "'let!' x ':=' e 'in' k" := (Py.bind e (fun x => k))
  (at level 10, x pattern, e at level 200, k at level 200).

(** ** Conversions between integers and binary64 *)

Module Num.

(** int64 -> float64 ([astype(float)], or a Python int meeting a float):
    round to nearest, ties to even; exact below 2^53. *)
Definition float_of_Z (z : Z) : float :=
  SF2Prim (binary_normalize prec emax z 0 false).

(** Truncation toward zero of a finite float; [None] on NaN and infinities. *)
Definition trunc_Z (x : float) : option Z :=
  match Prim2SF x with
  | S754_zero _ => Some 0%Z
  | S754_finite s m e =>
      let a := match e with
               | Z0 => Zpos m
               | Zpos _ => Z.shiftl (Zpos m) e
               | Zneg p => Z.shiftr (Zpos m) (Zpos p)
               end in
      Some (if s then (- a)%Z else a)
  | _ => None
  end.

Definition int64_min : Z := (- 2 ^ 63)%Z.
Definition int64_max : Z := (2 ^ 63 - 1)%Z.

(** [x.astype(int)] for one element: truncation, not rounding.  NaN,
    infinities and values outside int64 give the "integer indefinite"
    value -2^63, as numpy does on x86-64. *)
Definition astype_int (x : float) : Z :=
  match trunc_Z x with
  | Some z => if ((int64_min <=? z) && (z <=? int64_max))%Z then z else int64_min
  | None => int64_min
  end.

(** [x + 1] on an int64: the largest value wraps around to the smallest. *)
Definition int64_succ (x : Z) : Z :=
  if (x =? int64_max)%Z then int64_min else (x + 1)%Z.

(** Nearest integer to [m * 2^e], ties to even. *)
Definition rint_pos (m : positive) (e : Z) : Z :=
  match e with
  | Z0 => Zpos m
  | Zpos _ => Z.shiftl (Zpos m) e
  | Zneg p =>
      let d := Z.shiftl 1 (Zpos p) in
      let q := (Zpos m / d)%Z in
      let r := (Zpos m mod d)%Z in
      match (2 * r ?= d)%Z with
      | Lt => q
      | Gt => (q + 1)%Z
      | Eq => if Z.even q then q else (q + 1)%Z
      end
  end.

(** [np.round(x)] with no decimals: round half to even, as a float. *)
Definition np_round (x : float) : float :=
  match Prim2SF x with
  | S754_finite s m e =>
      if (e <? 0)%Z then
        let f := float_of_Z (rint_pos m e) in
        if s then (- f)%float else f
      else x
  | _ => x
  end.

(** [int(x)] on a float. *)
Definition py_int (x : float) : result Z :=
  match trunc_Z x with
  | Some z => Ok z
  | None => Err (if PrimFloat.is_nan x then ValueError else OverflowError)
  end.

(** The builtins [min(a, b)] and [max(a, b)]: the first argument is kept
    unless the second is strictly smaller (resp. larger). *)
Definition py_min (a b : float) : float := if (b <? a)%float then b else a.
Definition py_max (a b : float) : float := if (a <? b)%float then b else a.

End Num.

Export Num.

(** ** The numpy operations the module uses *)

Module Np.

Definition nan : float := PrimFloat.nan.

(** Insertion into a strictly increasing list, dropping duplicates. *)
Fixpoint insert_unique (x : Z) (l : list Z) : list Z :=
  match l with
  | [] => [x]
  | y :: t =>
      if (x <? y)%Z then x :: l
      else if (x =? y)%Z then l
      else y :: insert_unique x t
  end.

(** [np.unique(a)]: the sorted distinct values. *)
Definition np_unique (a : list Z) : list Z := fold_right insert_unique [] a.

Definition count (k : Z) (a : list Z) : Z := Z.of_nat (count_occ Z.eq_dec a k).

(** [np.unique(a, return_counts=True)]. *)
Definition np_unique_counts (a : list Z) : list Z * list Z :=
  let u := np_unique a in (u, map (fun k => count k a) u).

Definition mem (x : Z) (l : list Z) : bool := existsb (Z.eqb x) l.

(** [np.intersect1d(a, b)]: the sorted distinct values present in both. *)
Definition np_intersect1d (a b : list Z) : list Z :=
  filter (fun x => mem x b) (np_unique a).

(** [np.isin(a, test)]: the boolean mask. *)
Definition np_isin (a test : list Z) : list bool := map (fun x => mem x test) a.

Fixpoint select {A : Type} (arr : list A) (mask : list bool) : list A :=
  match arr, mask with
  | x :: arr', b :: mask' => if b then x :: select arr' mask' else select arr' mask'
  | _, _ => []
  end.

(** [arr[mask]] with a boolean mask: the mask must have the array's length. *)
Definition bool_index {A : Type} (arr : list A) (mask : list bool)
  : result (list A) :=
  if (length arr =? length mask)%nat then Ok (select arr mask)
  else Err IndexError.

(** [np.max(a)] on integers. *)
Definition np_max (a : list Z) : result Z :=
  match a with
  | [] => Err ValueError
  | x :: t => Ok (fold_left Z.max t x)
  end.

(** [np.zeros(n)] for an int64 [n].  A negative length is rejected, and so
    is a length whose [8 * n] bytes do not fit a signed 64-bit size (both
    with [ValueError]); the allocation itself fails with [MemoryError] when
    [n] is beyond [max_alloc], the number of cells the machine grants to one
    array. *)
Definition np_zeros (max_alloc : N) (n : Z) : result (list float) :=
  if (n <? 0)%Z then Err ValueError
  else if (int64_max <? 8 * n)%Z then Err ValueError
  else if (Z.of_N max_alloc <? n)%Z then Err MemoryError
  else Ok (repeat 0%float (Z.to_nat n)).

(** Python index normalisation for an axis of length [n]: negative indices
    count from the end, anything outside [-n, n) raises. *)
Definition py_index (n : nat) (i : Z) : result nat :=
  if ((0 <=? i) && (i <? Z.of_nat n))%Z then Ok (Z.to_nat i)
  else if ((- Z.of_nat n <=? i) && (i <? 0))%Z then Ok (Z.to_nat (Z.of_nat n + i))
  else Err IndexError.

(** [arr[idx]] with an integer index array. *)
Definition np_take {A : Type} (arr : list A) (idx : list Z) : result (list A) :=
  mapM (fun i =>
          let! j := py_index (length arr) i in
          match arr !! j with Some x => Ok x | None => Err IndexError end) idx.

Fixpoint put_loop {A : Type} (arr : list A) (iv : list (Z * A))
  : result (list A) :=
  match iv with
  | [] => Ok arr
  | (i, v) :: iv' =>
      let! j := py_index (length arr) i in
      put_loop (<[j := v]> arr) iv'
  end.

(** [arr[idx] = vals] with an integer index array: element-wise, in order,
    so that a repeated index keeps the last value.  (numpy would broadcast a
    one-element [vals]; the module only assigns arrays of equal length.) *)
Definition np_put {A : Type} (arr : list A) (idx : list Z) (vals : list A)
  : result (list A) :=
  if (length idx =? length vals)%nat then put_loop arr (combine idx vals)
  else Err ValueError.

(** Element-wise binary operation on two arrays of the same shape.
    (Broadcasting of a one-element operand is not needed by the module.) *)
Definition np_zip_with {A B C : Type} (f : A -> B -> C) (a : list A) (b : list B)
  : result (list C) :=
  if (length a =? length b)%nat then Ok (zip_with f a b) else Err ValueError.

(** *** [np.sum]: numpy's pairwise summation

    The inner loop of [np.add.reduce] on a contiguous float64 array
    ([pairwise_sum_DOUBLE]): fewer than 8 terms are added from left to
    right; up to 128 terms are added into 8 accumulators, which are then
    combined as a balanced tree before the remaining terms are added; a
    longer array is split in two at a multiple of 8 near its middle. *)

(** [r[k] += a[i + k]] for [k < 8], for each of [chunks] full chunks of 8;
    returns the accumulators and the terms not yet read. *)
Fixpoint add_chunks (chunks : nat) (r a : list float) : list float * list float :=
  match chunks with
  | O => (r, a)
  | S chunks' => add_chunks chunks' (zip_with PrimFloat.add r (take 8 a)) (drop 8 a)
  end.

(** The block of 8 to 128 terms. *)
Definition pairwise_block (a : list float) : float :=
  let n := length a in
  let '(r, rest) := add_chunks (n / 8 - 1) (take 8 a) (drop 8 a) in
  let r_ k := nth k r 0%float in
  let res := (((r_ 0%nat + r_ 1%nat) + (r_ 2%nat + r_ 3%nat))
              + ((r_ 4%nat + r_ 5%nat) + (r_ 6%nat + r_ 7%nat)))%float in
  (* do non multiple of 8 rest *)
  fold_left PrimFloat.add rest res.

(** [fuel] bounds the depth of the recursion; the length of the array is
    more than enough (lemma [pairwise_sum_fuel]). *)
Fixpoint pairwise_sum (fuel : nat) (a : list float) : float :=
  let n := length a in
  if (n <? 8)%nat then fold_left PrimFloat.add a 0%float
  else if (n <=? 128)%nat then pairwise_block a
  else
    match fuel with
    | O => pairwise_block a
    | S fuel' =>
        (* divide by two but avoid non-multiples of unroll factor *)
        let n2 := (n / 2)%nat in
        let n2 := (n2 - n2 mod 8)%nat in
        (pairwise_sum fuel' (take n2 a) + pairwise_sum fuel' (drop n2 a))%float
    end.

(** [np.sum(a)]: the reduction starts from the identity of the addition and
    adds the pairwise sum of the whole array to it. *)
Definition np_sum (a : list float) : float :=
  (0 + pairwise_sum (length a) a)%float.

End Np.

Export Np.

(** ** floris/tools/energy_ratio.py *)

Module EnergyRatio.

(** [_convert_to_numpy_array]: an object with [.values] gives its values,
    an ndarray is returned as it is, and for anything else the function
    falls off its end, which returns [None]. *)
Definition _convert_to_numpy_array (series : pyobj) : pyobj :=
  match series with
  | PySeries values => PyNdarray values
  | PyDict _ => PyMethod
  | PyNdarray _ => series
  | _ => PyNone
  end.

(** Using a converted input as an array: comparing or indexing [None] or a
    bound method raises [TypeError]. *)
Definition as_ndarray (o : pyobj) : result (list float) :=
  match o with
  | PyNdarray a => Ok a
  | _ => Err TypeError
  end.

Definition maximum : float := 10000%float.
Definition minimum : float := 2000%float.

(** The interval-construction method, selected in the source by the string
    ['simple_percentile']; any other value takes the reflected branch. *)
Inductive method : Type :=
| simple_percentile
| reflected.

(** [_get_confidence_bounds] *)
Definition _get_confidence_bounds (confidence : float) : list float :=
  [(50 + 0.5 * confidence)%float; (50 - 0.5 * confidence)%float].

(** The eight values [energy_ratio] returns. *)
Record er_out : Type := ErOut {
  er_ratio_base : float;
  er_ratio_con : float;
  er_ratio_diff : float;
  er_p_change : float;
  er_counts_base : pynum;
  er_counts_con : pynum;
  er_counts_diff : pynum;
  er_counts_pchange : pynum
}.

Definition er_nan : er_out :=
  ErOut nan nan nan nan (PyFloat nan) (PyFloat nan) (PyFloat nan) (PyFloat nan).

(** The local variables of [energy_ratio] after the weighting arrays are
    built (source lines 96-120): the six arrays masked down to the common
    buckets and the weight of every remaining sample. *)
Record er_locals : Type := ErLocals {
  ref_pow_base : list float;
  test_pow_base : list float;
  ws_base : list Z;
  ref_pow_con : list float;
  test_pow_con : list float;
  ws_con : list Z;
  weight_array_base : list float;
  weight_array_con : list float
}.

Definition fdiv_counts (a b : Z) : float := (float_of_Z a / float_of_Z b)%float.

(** The machine enters through one number: how many float64 cells its
    allocator grants to one new array. *)
Section Machine.

Variable max_alloc : N.

Definition energy_ratio_weights
    (ref_pow_base0 test_pow_base0 : list float) (ws_base0 : list Z)
    (ref_pow_con0 test_pow_con0 : list float) (ws_con0 : list Z)
    (ws_unique : list Z) : result er_locals :=
  (* Mask down to the items in both sides *)
  let base_mask := np_isin ws_base0 ws_unique in
  let con_mask := np_isin ws_con0 ws_unique in
  let! ref_pow_base := bool_index ref_pow_base0 base_mask in
  let! test_pow_base := bool_index test_pow_base0 base_mask in
  let! ws_base := bool_index ws_base0 base_mask in
  let! ref_pow_con := bool_index ref_pow_con0 con_mask in
  let! test_pow_con := bool_index test_pow_con0 con_mask in
  let! ws_con := bool_index ws_con0 con_mask in
  let '(ws_unique_base, counts_base) := np_unique_counts ws_base in
  let '(ws_unique_con, counts_con) := np_unique_counts ws_con in
  let! total_counts := np_zip_with Z.add counts_base counts_con in
  (* Make the weights per wind speed *)
  let! weights_base := np_zip_with fdiv_counts counts_con total_counts in
  let! weights_con := np_zip_with fdiv_counts counts_base total_counts in
  (* Make a weighting array *)
  let! top := np_max ws_unique in
  let! lut_base := np_zeros max_alloc (int64_succ top) in
  let! lut_base := np_put lut_base ws_unique weights_base in
  let! weight_array_base := np_take lut_base ws_base in
  let! lut_con := np_zeros max_alloc (int64_succ top) in
  let! lut_con := np_put lut_con ws_unique weights_con in
  let! weight_array_con := np_take lut_con ws_con in
  Ok (ErLocals ref_pow_base test_pow_base ws_base
               ref_pow_con test_pow_con ws_con
               weight_array_base weight_array_con).

(** The common buckets computed on entry (source lines 89-91). *)
Definition common_buckets (ws_base0 ws_con0 : list Z) : list Z :=
  let ws_unique_base := np_unique ws_base0 in
  let ws_unique_con := np_unique ws_con0 in
  np_intersect1d ws_unique_base ws_unique_con.

(** [energy_ratio] *)
Definition energy_ratio
    (ref_pow_base0 test_pow_base0 : list float) (ws_base0 : list Z)
    (ref_pow_con0 test_pow_con0 : list float) (ws_con0 : list Z)
  : result er_out :=
  (* First derive the weighting functions by wind speed *)
  let ws_unique := common_buckets ws_base0 ws_con0 in
  if (length ws_unique =? 0)%nat then Ok er_nan
  else
    let! v := energy_ratio_weights ref_pow_base0 test_pow_base0 ws_base0
                                   ref_pow_con0 test_pow_con0 ws_con0 ws_unique in
    (* Weighted sums *)
    let! p := np_zip_with PrimFloat.mul (ref_pow_base v) (weight_array_base v) in
    let weight_sum_ref_base := np_sum p in
    let! p := np_zip_with PrimFloat.mul (test_pow_base v) (weight_array_base v) in
    let weight_sum_test_base := np_sum p in
    let! p := np_zip_with PrimFloat.mul (ref_pow_con v) (weight_array_con v) in
    let weight_sum_ref_con := np_sum p in
    let! p := np_zip_with PrimFloat.mul (test_pow_con v) (weight_array_con v) in
    let weight_sum_test_con := np_sum p in
    (* Ratio and diff *)
    let ratio_base := (weight_sum_test_base / weight_sum_ref_base)%float in
    let ratio_con := (weight_sum_test_con / weight_sum_ref_con)%float in
    let ratio_diff := (ratio_con - ratio_base)%float in
    let p_change := (100 * ratio_diff / ratio_base)%float in
    (* Get the counts *)
    let counts_base := Z.of_nat (length (ref_pow_base v)) in
    let counts_con := Z.of_nat (length (ref_pow_con v)) in
    let counts_diff := Z.min counts_base counts_con in
    let counts_pchange := counts_diff in
    Ok (ErOut ratio_base ratio_con ratio_diff p_change
              (PyInt counts_base) (PyInt counts_con)
              (PyInt counts_diff) (PyInt counts_pchange)).

(** *** The bootstrap and the orchestration

    Three collaborators come from outside the repository and are taken as
    parameters: [np.log10], [np.percentile] (applied to one percentile at a
    time) and the raw output of the process-wide random generator, [raw c j]
    being the [j]-th raw draw of the [c]-th call to [np.random.randint]. *)

Section Pipeline.

Variable np_log10 : float -> float.
Variable np_percentile : list float -> float -> result float.
Variable raw : nat -> nat -> Z.

(** [_calculate_bootstrap_iterations] *)
Definition _calculate_bootstrap_iterations (n : Z) : result Z :=
  py_int (np_round
            (py_max (py_min (float_of_Z n * np_log10 (float_of_Z n))%float maximum)
                    minimum)).

(** [_calculate_lower_and_upper_bound]; [lower, upper = ...] unpacks exactly
    two values. *)
Definition _calculate_lower_and_upper_bound
    (bootstrap_array : list float) (percentiles : list float)
    (central_estimate : option float) (m : method) : result (float * float) :=
  match m with
  | simple_percentile =>
      let! ps := mapM (np_percentile bootstrap_array) percentiles in
      match ps with
      | [lower; upper] => Ok (lower, upper)
      | _ => Err ValueError
      end
  | reflected =>
      match central_estimate with
      | None => Err TypeError
      | Some c =>
          let! ps := mapM (np_percentile bootstrap_array) percentiles in
          match map (fun p => (2 * c - p)%float) ps with
          | [lower; upper] => Ok (lower, upper)
          | _ => Err ValueError
          end
      end
  end.

(** [np.random.randint(high, size=size)] as the [calls]-th call: every raw
    draw is reduced into [0, high).  ([high] is a non-empty subset's length
    at both call sites.) *)
Definition randint (calls : nat) (high size : nat) : list Z :=
  map (fun j => (raw calls j mod Z.of_nat high)%Z) (seq 0 size).

Record bs_arrays : Type := BsArrays {
  ratio_base_bs : list float;
  ratio_con_bs : list float;
  diff_bs : list float;
  p_change_bs : list float
}.

(** One pass of [for i_bs in range(n_boostrap)]; the state is the four
    bootstrap arrays and the number of [randint] calls made so far. *)
Definition bootstrap_iteration
    (reference_power_baseline_wd test_power_baseline_wd : list float)
    (wind_speed_array_baseline_wd : list Z)
    (reference_power_controlled_wd test_power_controlled_wd : list float)
    (wind_speed_array_controlled_wd : list Z)
    (i_bs : nat) (s : bs_arrays * nat) : result (bs_arrays * nat) :=
  let '(bs, calls) := s in
  (* random resampling w/ replacement *)
  let ind_bs := randint calls (length reference_power_baseline_wd)
                        (length reference_power_baseline_wd) in
  let! reference_power_binned_baseline := np_take reference_power_baseline_wd ind_bs in
  let! test_power_binned_baseline := np_take test_power_baseline_wd ind_bs in
  let! wind_speed_binned_baseline := np_take wind_speed_array_baseline_wd ind_bs in
  let ind_bs := randint (S calls) (length reference_power_controlled_wd)
                        (length reference_power_controlled_wd) in
  let! reference_power_binned_controlled := np_take reference_power_controlled_wd ind_bs in
  let! test_power_binned_controlled := np_take test_power_controlled_wd ind_bs in
  let! wind_speed_binned_controlled := np_take wind_speed_array_controlled_wd ind_bs in
  (* compute the energy ratio *)
  let! er := energy_ratio reference_power_binned_baseline test_power_binned_baseline
                          wind_speed_binned_baseline
                          reference_power_binned_controlled test_power_binned_controlled
                          wind_speed_binned_controlled in
  Ok (BsArrays (<[i_bs := er_ratio_base er]> (ratio_base_bs bs))
               (<[i_bs := er_ratio_con er]> (ratio_con_bs bs))
               (<[i_bs := er_ratio_diff er]> (diff_bs bs))
               (<[i_bs := er_p_change er]> (p_change_bs bs)),
      S (S calls)).

(** The four bootstrap arrays of one bin: [np.zeros(n_boostrap)] four
    times, then the loop. *)
Definition bootstrap
    (n_boostrap : Z)
    (reference_power_baseline_wd test_power_baseline_wd : list float)
    (wind_speed_array_baseline_wd : list Z)
    (reference_power_controlled_wd test_power_controlled_wd : list float)
    (wind_speed_array_controlled_wd : list Z)
    (calls : nat) : result (bs_arrays * nat) :=
  let! ratio_base_bs := np_zeros max_alloc n_boostrap in
  let! ratio_con_bs := np_zeros max_alloc n_boostrap in
  let! diff_bs := np_zeros max_alloc n_boostrap in
  let! p_change_bs := np_zeros max_alloc n_boostrap in
  foldM (bootstrap_iteration reference_power_baseline_wd test_power_baseline_wd
                             wind_speed_array_baseline_wd
                             reference_power_controlled_wd test_power_controlled_wd
                             wind_speed_array_controlled_wd)
        (seq 0 (Z.to_nat n_boostrap))
        (BsArrays ratio_base_bs ratio_con_bs diff_bs p_change_bs, calls).

(** The sixteen output arrays. *)
Record report : Type := Report {
  ratio_array_base : list float;
  lower_ratio_array_base : list float;
  upper_ratio_array_base : list float;
  counts_ratio_array_base : list float;
  ratio_array_con : list float;
  lower_ratio_array_con : list float;
  upper_ratio_array_con : list float;
  counts_ratio_array_con : list float;
  diff_array : list float;
  lower_diff_array : list float;
  upper_diff_array : list float;
  counts_diff_array : list float;
  p_change_array : list float;
  lower_p_change_array : list float;
  upper_p_change_array : list float;
  counts_p_change_array : list float
}.

Definition arrays_of (r : report) : list (list float) :=
  [ ratio_array_base r; lower_ratio_array_base r; upper_ratio_array_base r;
    counts_ratio_array_base r;
    ratio_array_con r; lower_ratio_array_con r; upper_ratio_array_con r;
    counts_ratio_array_con r;
    diff_array r; lower_diff_array r; upper_diff_array r; counts_diff_array r;
    p_change_array r; lower_p_change_array r; upper_p_change_array r;
    counts_p_change_array r ].

(** [np.zeros(len(wind_direction_bins)) * np.nan]: one cell per bin center
    of a list the caller already holds. *)
Definition nan_array (n : nat) : list float :=
  map (fun z => (z * nan)%float) (repeat 0%float n).

Definition initial_report (n : nat) : report :=
  Report (nan_array n) (nan_array n) (nan_array n) (nan_array n)
         (nan_array n) (nan_array n) (nan_array n) (nan_array n)
         (nan_array n) (nan_array n) (nan_array n) (nan_array n)
         (nan_array n) (nan_array n) (nan_array n) (nan_array n).

(** Storing a Python number in a float array. *)
Definition to_float (v : pynum) : float :=
  match v with
  | PyInt z => float_of_Z z
  | PyFloat x => x
  end.

(** The eight-fold assignment of [energy_ratio]'s result at index [i]. *)
Definition set_point (r : report) (i : nat) (er : er_out) : report :=
  Report (<[i := er_ratio_base er]> (ratio_array_base r))
         (lower_ratio_array_base r)
         (upper_ratio_array_base r)
         (<[i := to_float (er_counts_base er)]> (counts_ratio_array_base r))
         (<[i := er_ratio_con er]> (ratio_array_con r))
         (lower_ratio_array_con r)
         (upper_ratio_array_con r)
         (<[i := to_float (er_counts_con er)]> (counts_ratio_array_con r))
         (<[i := er_ratio_diff er]> (diff_array r))
         (lower_diff_array r)
         (upper_diff_array r)
         (<[i := to_float (er_counts_diff er)]> (counts_diff_array r))
         (<[i := er_p_change er]> (p_change_array r))
         (lower_p_change_array r)
         (upper_p_change_array r)
         (<[i := to_float (er_counts_pchange er)]> (counts_p_change_array r)).

(** The four assignments of the confidence bounds at index [i]. *)
Definition set_bounds (r : report) (i : nat)
    (b_base b_con b_diff b_p : float * float) : report :=
  Report (ratio_array_base r)
         (<[i := fst b_base]> (lower_ratio_array_base r))
         (<[i := snd b_base]> (upper_ratio_array_base r))
         (counts_ratio_array_base r)
         (ratio_array_con r)
         (<[i := fst b_con]> (lower_ratio_array_con r))
         (<[i := snd b_con]> (upper_ratio_array_con r))
         (counts_ratio_array_con r)
         (diff_array r)
         (<[i := fst b_diff]> (lower_diff_array r))
         (<[i := snd b_diff]> (upper_diff_array r))
         (counts_diff_array r)
         (p_change_array r)
         (<[i := fst b_p]> (lower_p_change_array r))
         (<[i := snd b_p]> (upper_p_change_array r))
         (counts_p_change_array r).

(** What the loop over the bins carries from one bin to the next: the
    output arrays, the local [n_boostrap] (it is assigned inside the loop)
    and the number of [randint] calls made so far. *)
Record loop_state : Type := LoopState {
  arrays : report;
  n_boostrap : option Z;
  rng_calls : nat
}.

(** The direction test of one sample:
    [(wd >= bin - radius) & (wd < bin + radius)]. *)
Definition in_bin (wind_direction_bin wind_direction_bin_radius wd : float) : bool :=
  ((wind_direction_bin - wind_direction_bin_radius <=? wd)
   && (wd <? wind_direction_bin + wind_direction_bin_radius))%float.

Definition wind_dir_mask (wind_direction_bin wind_direction_bin_radius : float)
    (wind_direction_array : list float) : list bool :=
  map (in_bin wind_direction_bin wind_direction_bin_radius) wind_direction_array.

Section BinLoop.

(** The eight inputs after [_convert_to_numpy_array]. *)
Variables reference_power_baseline test_power_baseline
          wind_speed_array_baseline wind_direction_array_baseline
          reference_power_controlled test_power_controlled
          wind_speed_array_controlled wind_direction_array_controlled : pyobj.
Variable wind_direction_bin_radius : float.
Variable confidence : float.

(** The six per-bin subsets (source lines 266-278). *)
Record bin_subset : Type := BinSubset {
  reference_power_baseline_wd : list float;
  test_power_baseline_wd : list float;
  wind_speed_array_baseline_wd : list float;
  reference_power_controlled_wd : list float;
  test_power_controlled_wd : list float;
  wind_speed_array_controlled_wd : list float
}.

Definition select_bin (wind_direction_bin : float) : result bin_subset :=
  let! wd := as_ndarray wind_direction_array_baseline in
  let wind_dir_mask_baseline :=
    wind_dir_mask wind_direction_bin wind_direction_bin_radius wd in
  let! wd := as_ndarray wind_direction_array_controlled in
  let wind_dir_mask_controlled :=
    wind_dir_mask wind_direction_bin wind_direction_bin_radius wd in
  let! a := as_ndarray reference_power_baseline in
  let! reference_power_baseline_wd := bool_index a wind_dir_mask_baseline in
  let! a := as_ndarray test_power_baseline in
  let! test_power_baseline_wd := bool_index a wind_dir_mask_baseline in
  let! a := as_ndarray wind_speed_array_baseline in
  let! wind_speed_array_baseline_wd := bool_index a wind_dir_mask_baseline in
  let! a := as_ndarray reference_power_controlled in
  let! reference_power_controlled_wd := bool_index a wind_dir_mask_controlled in
  let! a := as_ndarray test_power_controlled in
  let! test_power_controlled_wd := bool_index a wind_dir_mask_controlled in
  let! a := as_ndarray wind_speed_array_controlled in
  let! wind_speed_array_controlled_wd := bool_index a wind_dir_mask_controlled in
  Ok (BinSubset reference_power_baseline_wd test_power_baseline_wd
                wind_speed_array_baseline_wd
                reference_power_controlled_wd test_power_controlled_wd
                wind_speed_array_controlled_wd).

(** The [continue] test (source line 280). *)
Definition skipped (sel : bin_subset) : bool :=
  (length (reference_power_baseline_wd sel) =? 0)%nat
  || (length (reference_power_controlled_wd sel) =? 0)%nat.

(** The rest of the loop body for a bin that is not skipped (source lines
    283-331). *)
Definition process_selected (i : nat) (sel : bin_subset) (st : loop_state)
  : result loop_state :=
  (* Convert wind speed to integers *)
  let wind_speed_array_baseline_wd :=
    map astype_int (wind_speed_array_baseline_wd sel) in
  let wind_speed_array_controlled_wd :=
    map astype_int (wind_speed_array_controlled_wd sel) in
  (* compute the energy ratio *)
  let! er := energy_ratio (reference_power_baseline_wd sel) (test_power_baseline_wd sel)
                          wind_speed_array_baseline_wd
                          (reference_power_controlled_wd sel)
                          (test_power_controlled_wd sel)
                          wind_speed_array_controlled_wd in
  let r := set_point (arrays st) i er in
  (* determine the number of bootstrap iterations if not given *)
  let! n :=
    match n_boostrap st with
    | None => _calculate_bootstrap_iterations
                (Z.of_nat (length (reference_power_baseline_wd sel)))
    | Some n => Ok n
    end in
  let! (bs, calls) :=
    bootstrap n (reference_power_baseline_wd sel) (test_power_baseline_wd sel)
              wind_speed_array_baseline_wd
              (reference_power_controlled_wd sel) (test_power_controlled_wd sel)
              wind_speed_array_controlled_wd (rng_calls st) in
  (* Get the confidence bounds *)
  let percentiles := _get_confidence_bounds confidence in
  let! b_base := _calculate_lower_and_upper_bound
                   (ratio_base_bs bs) percentiles
                   (ratio_array_base r !! i) simple_percentile in
  let! b_con := _calculate_lower_and_upper_bound
                  (ratio_con_bs bs) percentiles
                  (ratio_array_con r !! i) simple_percentile in
  let! b_diff := _calculate_lower_and_upper_bound
                   (diff_bs bs) percentiles
                   (diff_array r !! i) simple_percentile in
  let! b_p := _calculate_lower_and_upper_bound
                (p_change_bs bs) percentiles
                (p_change_array r !! i) simple_percentile in
  Ok (LoopState (set_bounds r i b_base b_con b_diff b_p) (Some n) calls).

(** The body of [for i, wind_direction_bin in enumerate(wind_direction_bins)]. *)
Definition process_bin (b : nat * float) (st : loop_state) : result loop_state :=
  let '(i, wind_direction_bin) := b in
  let! sel := select_bin wind_direction_bin in
  if skipped sel then Ok st (* continue *)
  else process_selected i sel st.

Definition run_bins (bins : list (nat * float)) (st : loop_state)
  : result loop_state :=
  foldM process_bin bins st.

End BinLoop.

Definition enumerate {A : Type} (l : list A) : list (nat * A) :=
  combine (seq 0 (length l)) l.

(** [wind_direction_bins[i]] *)
Definition bin_at (wind_direction_bins : list float) (i : nat) : result float :=
  match wind_direction_bins !! i with
  | Some c => Ok c
  | None => Err IndexError
  end.

(** The binning radius (source lines 236-242), with the default overlap. *)
Definition bin_radius (wind_direction_bins : list float)
    (wind_direction_bin_p_overlap : option float) : result float :=
  let wind_direction_bin_p_overlap :=
    match wind_direction_bin_p_overlap with
    | None => 0%float
    | Some p => p
    end in
  let! b1 := bin_at wind_direction_bins 1 in
  let! b0 := bin_at wind_direction_bins 0 in
  Ok ((1.0 + wind_direction_bin_p_overlap / 100) * (b1 - b0) / 2.0)%float.

(** [calculate_balanced_energy_ratio]; [rng] is the number of [randint]
    calls made before the call, and the result pairs the sixteen arrays
    with that number after it. *)
Definition calculate_balanced_energy_ratio
    (reference_power_baseline test_power_baseline
     wind_speed_array_baseline wind_direction_array_baseline
     reference_power_controlled test_power_controlled
     wind_speed_array_controlled wind_direction_array_controlled : pyobj)
    (wind_direction_bins : list float)
    (confidence : float)
    (n_boostrap0 : option Z)
    (wind_direction_bin_p_overlap : option float)
    (rng : nat) : result (report * nat) :=
  (* Ensure that input arrays are np.ndarray *)
  let reference_power_baseline := _convert_to_numpy_array reference_power_baseline in
  let test_power_baseline := _convert_to_numpy_array test_power_baseline in
  let wind_speed_array_baseline := _convert_to_numpy_array wind_speed_array_baseline in
  let wind_direction_array_baseline :=
    _convert_to_numpy_array wind_direction_array_baseline in
  let reference_power_controlled := _convert_to_numpy_array reference_power_controlled in
  let test_power_controlled := _convert_to_numpy_array test_power_controlled in
  let wind_speed_array_controlled := _convert_to_numpy_array wind_speed_array_controlled in
  let wind_direction_array_controlled :=
    _convert_to_numpy_array wind_direction_array_controlled in
  (* Compute binning radius *)
  let! wind_direction_bin_radius :=
    bin_radius wind_direction_bins wind_direction_bin_p_overlap in
  let! st :=
    run_bins reference_power_baseline test_power_baseline
             wind_speed_array_baseline wind_direction_array_baseline
             reference_power_controlled test_power_controlled
             wind_speed_array_controlled wind_direction_array_controlled
             wind_direction_bin_radius confidence
             (enumerate wind_direction_bins)
             (LoopState (initial_report (length wind_direction_bins)) n_boostrap0 rng) in
  Ok (arrays st, rng_calls st).

End Pipeline.

End Machine.

End EnergyRatio.

(** ** Reference instances of the external collaborators

    Concrete stand-ins used to run the embedding: numpy's default (linear)
    percentile, a base-10 logarithm that is exact on powers of ten, a
    deterministic raw random stream and a machine with room for arrays of
    one gibibyte. *)

Module Ref.

Fixpoint insert_sorted (x : float) (l : list float) : list float :=
  match l with
  | [] => [x]
  | y :: t => if (x <=? y)%float then x :: l else y :: insert_sorted x t
  end.

Definition sort_floats (a : list float) : list float :=
  fold_right insert_sorted [] a.

(** numpy's [_lerp]. *)
Definition lerp (a b t : float) : float :=
  let diff_b_a := (b - a)%float in
  if (0.5 <=? t)%float then (b - diff_b_a * (1 - t))%float
  else (a + diff_b_a * t)%float.

(** [np.percentile(a, q)] for one [q], linear interpolation between the
    two closest ranks; a percentile outside [0, 100] is rejected, an empty
    array has no last element, and a NaN in the data gives NaN. *)
Definition np_percentile (a : list float) (q : float) : result float :=
  let quantile := (q / 100)%float in
  if negb ((0 <=? quantile) && (quantile <=? 1))%float then Err ValueError
  else
    match a with
    | [] => Err IndexError
    | x0 :: _ =>
        if existsb PrimFloat.is_nan a then Ok nan
        else
          let arr := sort_floats a in
          let n := length a in
          let virtual_index := (float_of_Z (Z.of_nat n - 1) * quantile)%float in
          let previous_index :=
            match trunc_Z virtual_index with
            | Some z => Z.to_nat z
            | None => 0%nat
            end in
          if (n - 1 <=? previous_index)%nat then Ok (List.last arr x0)
          else
            let gamma :=
              (virtual_index - float_of_Z (Z.of_nat previous_index))%float in
            Ok (lerp (nth previous_index arr x0) (nth (S previous_index) arr x0) gamma)
    end.

Fixpoint ilog10 (fuel : nat) (z : Z) : Z :=
  match fuel with
  | O => 0
  | S fuel' => if (z <? 10)%Z then 0%Z else (1 + ilog10 fuel' (z / 10))%Z
  end.

(** The number of decimal digits of the integer part, less one: the base-10
    logarithm on the powers of ten, its floor elsewhere above 1. *)
Definition np_log10 (x : float) : float :=
  match trunc_Z x with
  | Some z => float_of_Z (ilog10 400 z)
  | None => x
  end.

(** A machine that grants one array up to 2^27 cells (1 GiB). *)
Definition max_alloc : N := 134217728%N.

(** A linear congruential raw stream. *)
Definition raw (c j : nat) : Z :=
  ((1103515245 * (Z.of_nat c * 65537 + Z.of_nat j) + 12345) mod 2147483648)%Z.

End Ref.


(** ** The statements of the specification *)

Module Spec.

Import EnergyRatio.

(** [count[k]]: the number of samples of bucket [k]. *)
Definition bucket_count (k : Z) (ws : list Z) : Z :=
  Z.of_nat (length (filter (fun x => x = k) ws)).

(** The weight of a baseline sample of bucket [k]:
    [count_controlled[k] / (count_baseline[k] + count_controlled[k])]. *)
Definition weight_for_baseline (ws_base ws_con : list Z) (k : Z) : float :=
  (float_of_Z (bucket_count k ws_con)
   / float_of_Z (bucket_count k ws_base + bucket_count k ws_con))%float.

(** The weight of a controlled sample of bucket [k]:
    [count_baseline[k] / (count_baseline[k] + count_controlled[k])]. *)
Definition weight_for_controlled (ws_base ws_con : list Z) (k : Z) : float :=
  (float_of_Z (bucket_count k ws_base)
   / float_of_Z (bucket_count k ws_base + bucket_count k ws_con))%float.

(** Every remaining sample carries the weight of its bucket, the counts
    being those of the samples restricted to the common buckets. *)
Definition weights_as_specified (v : er_locals) : Prop :=
  (forall (j : nat) (k : Z),
      ws_base v !! j = Some k ->
      weight_array_base v !! j
      = Some (weight_for_baseline (ws_base v) (ws_con v) k)) /\
  (forall (j : nat) (k : Z),
      ws_con v !! j = Some k ->
      weight_array_con v !! j
      = Some (weight_for_controlled (ws_base v) (ws_con v) k)).

(** The rows of [arr] at the positions where the key satisfies [P], in
    their order. *)
Definition rows_where {K A : Type} (P : K -> Prop) `{!forall k, Decision (P k)}
    (keys : list K) (arr : list A) : list A :=
  (filter (fun p => P p.1) (zip keys arr)).*2.

(** An array of [n] float64 cells can be made: [n] is not negative, its
    [8 * n] bytes fit a signed 64-bit size, and the machine grants them. *)
Definition allocatable (max_alloc : N) (n : Z) : Prop :=
  (0 <= n)%Z /\ (8 * n <= int64_max)%Z /\ (n <= Z.of_N max_alloc)%Z.

(** The ratio of the weighted sums of test power and reference power, every
    sample carrying the weight [w] of its bucket. *)
Definition weighted_ratio (w : Z -> float) (test_pow ref_pow : list float)
    (ws : list Z) : float :=
  (np_sum (zip_with PrimFloat.mul test_pow (map w ws))
   / np_sum (zip_with PrimFloat.mul ref_pow (map w ws)))%float.

(** [clamp(x, lo, hi)]: [x] brought into [lo, hi]. *)
Definition clamp (x lo hi : float) : float :=
  if (x <? lo)%float then lo
  else if (hi <? x)%float then hi
  else x.

(** The number a finite binary64 value stands for. *)
Definition exact_value (x : float) : option Q :=
  match Prim2SF x with
  | S754_zero _ => Some 0%Q
  | S754_finite s m e =>
      Some (inject_Z (if s then Zneg m else Zpos m) * Qpower 2 e)%Q
  | _ => None
  end.

(** [z = round(q)]: [z] is an integer nearest to [q], and the even one when
    [q] lies half-way between two integers. *)
Definition rounds_to (q : Q) (z : Z) : Prop :=
  (Qabs (inject_Z z - q) <= 1 # 2)%Q /\
  ((Qabs (inject_Z z - q) == 1 # 2)%Q -> Z.even z = true).

(** [k = round(clamp(n * log10(n), 2000, 10000))] *)
Definition bootstrap_iterations_formula (np_log10 : float -> float) (n k : Z)
  : Prop :=
  exists q : Q,
    exact_value (clamp (float_of_Z n * np_log10 (float_of_Z n))%float 2000 10000)
    = Some q /\
    rounds_to q k.

(** [center - radius <= d < center + radius] *)
Definition in_interval (center radius d : float) : Prop :=
  (center - radius <=? d)%float = true /\ (d <? center + radius)%float = true.

#[global] Instance in_interval_dec (center radius d : float)
  : Decision (in_interval center radius d) := and_dec _ _.


(** An input that is neither an ndarray nor an object with [.values]. *)
Definition unconvertible (o : pyobj) : Prop :=
  is_ndarray o = false /\ has_values o = false.

(** The same call with [None] in place of every unconvertible input. *)
Definition none_if_unconvertible (o : pyobj) : pyobj :=
  if is_ndarray o || has_values o then o else PyNone.

(** The [n] consecutive integers from [start] on. *)
Fixpoint zrange (start : Z) (n : nat) : list Z :=
  match n with
  | O => []
  | S n' => start :: zrange (start + 1) n'
  end.

(** Strictly increasing: what [np.unique] and [np.intersect1d] return. *)
Definition sorted (l : list Z) : Prop := StronglySorted Z.lt l.

(** The value of every one of the sixteen arrays at index [i]. *)
Definition values_at (i : nat) (r : report) : list (option float) :=
  map (fun a : list float => a !! i) (arrays_of r).

End Spec.

Export Spec.

(** ** Notions used by the further properties *)

Module Notions.

Import EnergyRatio.

(** A pandas Series seen as the array of its values; other objects as they
    are. *)
Definition values_view (o : pyobj) : pyobj :=
  match o with
  | PySeries values => PyNdarray values
  | _ => o
  end.

(** The value of the eight point and count arrays at index [i]. *)
Definition point_values_at (i : nat) (r : report) : list (option float) :=
  map (fun a : list float => a !! i)
      [ ratio_array_base r; counts_ratio_array_base r;
        ratio_array_con r; counts_ratio_array_con r;
        diff_array r; counts_diff_array r;
        p_change_array r; counts_p_change_array r ].

(** Whether the loop body goes past its [continue] for a bin center. *)
Definition bin_runs (x1 x2 x3 x4 x5 x6 x7 x8 : pyobj) (r : float) (b : nat * float)
  : bool :=
  match select_bin x1 x2 x3 x4 x5 x6 x7 x8 r b.2 with
  | Ok sel => negb (skipped sel)
  | Err _ => false
  end.

(** The rows of [a] at the positions [idx]. *)
Definition rows {A : Type} (d : A) (a : list A) (idx : list nat) : list A :=
  map (fun i => nth i a d) idx.

(** The number of samples of [ws] whose bucket also occurs in [other]. *)
Definition shared_count (ws other : list Z) : Z :=
  Z.of_nat (length (filter (fun k => k ∈ other) ws)).

(** The lengths of the four bootstrap arrays. *)
Definition bs_lengths (bs : bs_arrays) : list nat :=
  [ length (ratio_base_bs bs); length (ratio_con_bs bs);
    length (diff_bs bs); length (p_change_bs bs) ].

End Notions.

Export Notions.

(** * Properties *)

Import EnergyRatio.

(** ** The error monad *)

Lemma bind_Ok_inv {A B : Type} (r : result A) (k : A -> result B) (b : B) :
  bind r k = Ok b -> exists a, r = Ok a /\ k a = Ok b.
Proof.
  destruct r as [a|e]; simpl; intros H; [eauto | discriminate].
Qed.

Lemma Ok_inj {A : Type} (a b : A) : Ok a = Ok b -> a = b.
Proof.
  intros H. change (match Ok a with Ok x => x | Err _ => a end = b).
  rewrite H. reflexivity.
Qed.

(** Inversion of one monadic step in a hypothesis. *)
Ltac bind_inv H :=
  let a := fresh "v" in
  let E := fresh "E" in
  apply bind_Ok_inv in H; destruct H as (a & E & H).

Lemma mapM_Ok {A B : Type} (f : A -> result B) (g : A -> B) (l : list A) :
  (forall x, x ∈ l -> f x = Ok (g x)) -> mapM f l = Ok (map g l).
Proof.
  induction l as [|x l IH]; intros H; simpl; [reflexivity|].
  rewrite (H x) by left. simpl.
  rewrite IH; [reflexivity|].
  intros y Hy. apply H. by right.
Qed.


(** ** Sorted distinct values, intersection and masks *)

Lemma elem_of_insert_unique (x y : Z) (l : list Z) :
  y ∈ insert_unique x l <-> y = x \/ y ∈ l.
Proof.
  induction l as [|z l IH]; simpl.
  - rewrite list_elem_of_singleton, elem_of_nil. tauto.
  - destruct (Z.ltb_spec x z) as [Hlt|Hge].
    + rewrite !elem_of_cons. tauto.
    + destruct (Z.eqb_spec x z) as [->|Hne].
      * rewrite !elem_of_cons. tauto.
      * rewrite !elem_of_cons, IH. tauto.
Qed.

Lemma elem_of_np_unique (y : Z) (a : list Z) : y ∈ np_unique a <-> y ∈ a.
Proof.
  induction a as [|x a IH]; simpl; [reflexivity|].
  rewrite elem_of_insert_unique, elem_of_cons, IH. reflexivity.
Qed.

Lemma insert_unique_sorted (x : Z) (l : list Z) :
  sorted l -> sorted (insert_unique x l).
Proof.
  unfold sorted. induction l as [|z l IH]; simpl; intros Hs.
  - repeat constructor.
  - apply StronglySorted_cons in Hs as [Hz Hl].
    destruct (Z.ltb_spec x z) as [Hlt|Hge].
    + apply StronglySorted_cons. split.
      * constructor; [exact Hlt|].
        eapply Forall_impl; [exact Hz|]. simpl. intros; lia.
      * apply StronglySorted_cons. auto.
    + destruct (Z.eqb_spec x z) as [->|Hne].
      * apply StronglySorted_cons. auto.
      * apply StronglySorted_cons. split; [|auto].
        apply Forall_forall. intros y Hy.
        apply elem_of_insert_unique in Hy as [->|Hy]; [lia|].
        rewrite Forall_forall in Hz. auto.
Qed.

Lemma np_unique_sorted (a : list Z) : sorted (np_unique a).
Proof.
  induction a as [|x a IH]; simpl.
  - constructor.
  - by apply insert_unique_sorted.
Qed.

Lemma mem_elem_of (x : Z) (l : list Z) : mem x l = true <-> x ∈ l.
Proof.
  unfold mem. rewrite existsb_exists. split.
  - intros (y & Hy & Heq). apply Z.eqb_eq in Heq as ->.
    by apply list_elem_of_In.
  - intros H. exists x. split; [by apply list_elem_of_In | apply Z.eqb_refl].
Qed.

Lemma elem_of_np_intersect1d (x : Z) (a b : list Z) :
  x ∈ np_intersect1d a b <-> x ∈ a /\ x ∈ b.
Proof.
  unfold np_intersect1d.
  rewrite list_elem_of_filter, elem_of_np_unique, Is_true_true, mem_elem_of.
  tauto.
Qed.

Lemma sorted_filter (P : Z -> Prop) `{!forall x, Decision (P x)} (l : list Z) :
  sorted l -> sorted (filter P l).
Proof.
  unfold sorted. induction l as [|x l IH]; intros Hs; [constructor|].
  apply StronglySorted_cons in Hs as [Hx Hl].
  rewrite filter_cons. destruct (decide (P x)); [|auto].
  apply StronglySorted_cons. split; [|auto].
  rewrite Forall_forall in Hx. apply Forall_forall.
  intros y Hy. apply list_elem_of_filter in Hy as [_ Hy]. auto.
Qed.

Lemma np_intersect1d_sorted (a b : list Z) : sorted (np_intersect1d a b).
Proof. apply sorted_filter, np_unique_sorted. Qed.

Lemma elem_of_common_buckets (x : Z) (a b : list Z) :
  x ∈ common_buckets a b <-> x ∈ a /\ x ∈ b.
Proof.
  unfold common_buckets.
  by rewrite elem_of_np_intersect1d, !elem_of_np_unique.
Qed.

Lemma common_buckets_sorted (a b : list Z) : sorted (common_buckets a b).
Proof. apply np_intersect1d_sorted. Qed.

(** Two strictly increasing lists with the same elements are the same list. *)
Lemma sorted_ext (l1 l2 : list Z) :
  sorted l1 -> sorted l2 -> (forall x, x ∈ l1 <-> x ∈ l2) -> l1 = l2.
Proof.
  unfold sorted. revert l2.
  induction l1 as [|x l1 IH]; intros l2 H1 H2 Hext.
  - destruct l2 as [|y l2]; [reflexivity|].
    exfalso. eapply not_elem_of_nil, Hext. left.
  - destruct l2 as [|y l2].
    { exfalso. eapply not_elem_of_nil, Hext. left. }
    apply StronglySorted_cons in H1 as [Hx H1].
    apply StronglySorted_cons in H2 as [Hy H2].
    rewrite Forall_forall in Hx, Hy.
    assert (x = y) as ->.
    { assert (x ∈ y :: l2) as Hxy by (apply Hext; left).
      assert (y ∈ x :: l1) as Hyx by (apply Hext; left).
      apply elem_of_cons in Hxy as [?|Hxy]; [done|].
      apply elem_of_cons in Hyx as [?|Hyx]; [done|].
      apply Hy in Hxy. apply Hx in Hyx. lia. }
    f_equal. apply IH; [done..|].
    intros z. split; intros Hz.
    + assert (z ∈ y :: l2) as Hz' by (apply Hext; by right).
      apply elem_of_cons in Hz' as [->|?]; [|done].
      apply Hx in Hz. lia.
    + assert (z ∈ y :: l1) as Hz' by (apply Hext; by right).
      apply elem_of_cons in Hz' as [->|?]; [|done].
      apply Hy in Hz. lia.
Qed.

Lemma sorted_NoDup (l : list Z) : sorted l -> NoDup l.
Proof.
  unfold sorted. induction l as [|x l IH]; intros Hs; [constructor|].
  apply StronglySorted_cons in Hs as [Hx Hl].
  constructor; [|auto].
  intros Hin. rewrite Forall_forall in Hx. apply Hx in Hin. lia.
Qed.

(** ** Masks, look-up tables and counts *)

Lemma bool_index_ok {A : Type} (a : list A) (mask : list bool) :
  length a = length mask -> bool_index a mask = Ok (select a mask).
Proof.
  intros H. unfold bool_index. rewrite H, Nat.eqb_refl. reflexivity.
Qed.

Lemma bool_index_Ok_inv {A : Type} (a : list A) (mask : list bool) (l : list A) :
  bool_index a mask = Ok l -> length a = length mask /\ l = select a mask.
Proof.
  unfold bool_index. destruct (Nat.eqb_spec (length a) (length mask)); [|discriminate].
  intros [= <-]. auto.
Qed.

Lemma np_isin_length (a u : list Z) : length (np_isin a u) = length a.
Proof. unfold np_isin. apply length_map. Qed.

Lemma elem_of_select_isin (x : Z) (ws u : list Z) :
  x ∈ select ws (np_isin ws u) <-> x ∈ ws /\ x ∈ u.
Proof.
  induction ws as [|y ws IH]; simpl.
  - rewrite elem_of_nil. tauto.
  - destruct (mem y u) eqn:E.
    + apply mem_elem_of in E. rewrite !elem_of_cons, IH.
      split; [intros [->|[? ?]]; auto | intros [[->|?] ?]; auto].
    + rewrite elem_of_cons, IH.
      split; [tauto|]. intros [[->|?] Hu]; [|tauto].
      apply mem_elem_of in Hu. congruence.
Qed.

Lemma count_cons (k x : Z) (l : list Z) :
  count k (x :: l) = ((if Z.eq_dec x k then 1 else 0) + count k l)%Z.
Proof.
  unfold count. simpl. destruct (Z.eq_dec x k); lia.
Qed.

Lemma count_select_isin (k : Z) (ws u : list Z) :
  k ∈ u -> count k (select ws (np_isin ws u)) = count k ws.
Proof.
  intros Hk. induction ws as [|y ws IH]; simpl; [reflexivity|].
  destruct (mem y u) eqn:E.
  - rewrite !count_cons, IH. reflexivity.
  - rewrite count_cons, IH. destruct (Z.eq_dec y k) as [->|]; [|lia].
    apply mem_elem_of in Hk. congruence.
Qed.

Lemma select_same_length {A B : Type} (a : list A) (b : list B) (mask : list bool) :
  length a = length b -> length (select a mask) = length (select b mask).
Proof.
  revert b mask. induction a as [|x a IH]; intros [|y b] mask H; try discriminate.
  - reflexivity.
  - destruct mask as [|[] mask]; simpl; auto.
Qed.

Lemma np_unique_restricted (ws u : list Z) :
  sorted u -> (forall x, x ∈ u -> x ∈ ws) ->
  np_unique (select ws (np_isin ws u)) = u.
Proof.
  intros Hs Hsub. apply sorted_ext; [apply np_unique_sorted | exact Hs |].
  intros x. rewrite elem_of_np_unique, elem_of_select_isin.
  split; [tauto | auto].
Qed.

Lemma np_zip_with_map {A B C : Type} (op : A -> B -> C)
    (f : Z -> A) (g : Z -> B) (u : list Z) :
  np_zip_with op (map f u) (map g u) = Ok (map (fun k => op (f k) (g k)) u).
Proof.
  unfold np_zip_with. rewrite !length_map, Nat.eqb_refl. f_equal.
  induction u as [|k u IH]; simpl; [reflexivity|]. by rewrite IH.
Qed.

Lemma fold_left_max_ge (l : list Z) (x : Z) :
  (x <= fold_left Z.max l x)%Z /\
  (forall y, y ∈ l -> y <= fold_left Z.max l x)%Z /\
  (fold_left Z.max l x = x \/ fold_left Z.max l x ∈ l).
Proof.
  revert x. induction l as [|z l IH]; intros x; simpl.
  - split; [lia|]. split; [|auto]. intros y Hy. by apply elem_of_nil in Hy.
  - destruct (IH (Z.max x z)) as (H1 & H2 & H3).
    split; [lia|]. split.
    + intros y Hy. apply elem_of_cons in Hy as [->|Hy]; [lia | auto].
    + destruct H3 as [H3|H3].
      * rewrite H3. destruct (Z.max_spec x z) as [[_ ->]|[_ ->]]; [right; left | auto].
      * right. by right.
Qed.

Lemma np_max_spec (u : list Z) :
  u <> [] ->
  exists top, np_max u = Ok top /\ top ∈ u /\ (forall y, y ∈ u -> y <= top)%Z.
Proof.
  destruct u as [|x u]; [done|]. intros _. simpl.
  destruct (fold_left_max_ge u x) as (H1 & H2 & H3).
  eexists. split; [reflexivity|]. split.
  - destruct H3 as [->|H3]; [left | by right].
  - intros y Hy. apply elem_of_cons in Hy as [->|Hy]; auto.
Qed.

Lemma py_index_nonneg (n : nat) (k : Z) :
  (0 <= k < Z.of_nat n)%Z -> py_index n k = Ok (Z.to_nat k).
Proof.
  intros H. unfold py_index.
  destruct (Z.leb_spec 0 k); [|lia].
  destruct (Z.ltb_spec k (Z.of_nat n)); [|lia]. reflexivity.
Qed.

(** Writing [h k] at every index [k] of a duplicate-free, in-range index
    list leaves a table that maps [k] to [h k]. *)
Lemma put_loop_map {A : Type} (h : Z -> A) (u : list Z) (arr : list A) :
  NoDup u -> (forall k, k ∈ u -> 0 <= k < Z.of_nat (length arr))%Z ->
  exists arr',
    put_loop arr (combine u (map h u)) = Ok arr' /\
    length arr' = length arr /\
    (forall k, k ∈ u -> arr' !! Z.to_nat k = Some (h k)).
Proof.
  intros Hnd Hr.
  enough (exists arr',
    put_loop arr (combine u (map h u)) = Ok arr' /\
    length arr' = length arr /\
    (forall k, k ∈ u -> arr' !! Z.to_nat k = Some (h k)) /\
    (forall j, (forall k, k ∈ u -> Z.to_nat k <> j) -> arr' !! j = arr !! j))
    as (arr' & ? & ? & ? & _) by eauto.
  revert arr Hr. induction Hnd as [|k u Hk Hnd IH]; intros arr Hr; simpl.
  - exists arr. repeat split; auto. intros k Hk. by apply elem_of_nil in Hk.
  - assert (0 <= k < Z.of_nat (length arr))%Z as Hkr by (apply Hr; left).
    rewrite py_index_nonneg by exact Hkr. simpl.
    destruct (IH (<[Z.to_nat k := h k]> arr)) as (arr' & E & Hlen & Hin & Hout).
    { intros k' Hk'. rewrite length_insert. apply Hr. by right. }
    exists arr'. split; [exact E|]. split; [by rewrite Hlen, length_insert|]. split.
    + intros k' Hk'. apply elem_of_cons in Hk' as [->|Hk']; [|auto].
      rewrite Hout.
      * apply list_lookup_insert_eq. lia.
      * intros k' Hk' Heq.
        assert (0 <= k')%Z by (apply Hr; by right).
        assert (k' = k) as -> by lia. done.
    + intros j Hj. rewrite Hout.
      * apply list_lookup_insert_ne. apply Hj. left.
      * intros k' Hk'. apply Hj. by right.
Qed.

Lemma np_put_map {A : Type} (h : Z -> A) (u : list Z) (arr : list A) :
  NoDup u -> (forall k, k ∈ u -> 0 <= k < Z.of_nat (length arr))%Z ->
  exists arr',
    np_put arr u (map h u) = Ok arr' /\
    length arr' = length arr /\
    (forall k, k ∈ u -> arr' !! Z.to_nat k = Some (h k)).
Proof.
  intros Hnd Hr. unfold np_put. rewrite length_map, Nat.eqb_refl.
  by apply put_loop_map.
Qed.

Lemma np_take_table {A : Type} (h : Z -> A) (u ws : list Z) (lut : list A) :
  (forall k, k ∈ u -> 0 <= k < Z.of_nat (length lut))%Z ->
  (forall k, k ∈ u -> lut !! Z.to_nat k = Some (h k)) ->
  (forall k, k ∈ ws -> k ∈ u) ->
  np_take lut ws = Ok (map h ws).
Proof.
  intros Hr Hlut Hsub. unfold np_take. apply mapM_Ok.
  intros k Hk. apply Hsub in Hk.
  rewrite py_index_nonneg by auto. simpl. by rewrite Hlut.
Qed.

(** ** The summation *)

Lemma pairwise_sum_unfold (fuel : nat) (a : list float) :
  pairwise_sum fuel a
  = if (length a <? 8)%nat then fold_left PrimFloat.add a 0%float
    else if (length a <=? 128)%nat then pairwise_block a
    else
      match fuel with
      | O => pairwise_block a
      | S fuel' =>
          (pairwise_sum fuel' (take (length a / 2 - (length a / 2) mod 8) a)
           + pairwise_sum fuel' (drop (length a / 2 - (length a / 2) mod 8) a))%float
      end.
Proof. destruct fuel; reflexivity. Qed.

(** The recursion of [pairwise_sum] never runs out of fuel when it starts
    with the length of the array: any larger amount gives the same sum. *)
Lemma pairwise_sum_fuel (f1 f2 : nat) (a : list float) :
  (length a <= f1)%nat -> (length a <= f2)%nat ->
  pairwise_sum f1 a = pairwise_sum f2 a.
Proof.
  revert f2 a. induction f1 as [|f1 IH]; intros f2 a H1 H2.
  - rewrite (pairwise_sum_unfold 0 a), (pairwise_sum_unfold f2 a).
    assert (length a = 0)%nat as -> by lia. reflexivity.
  - rewrite (pairwise_sum_unfold (S f1) a), (pairwise_sum_unfold f2 a).
    destruct (Nat.ltb_spec (length a) 8) as [|H8]; [reflexivity|].
    destruct (Nat.leb_spec (length a) 128) as [|H128]; [reflexivity|].
    destruct f2 as [|f2]; [lia|].
    set (n2 := (length a / 2 - (length a / 2) mod 8)%nat).
    assert (1 <= n2 < length a)%nat as Hn2.
    { unfold n2.
      pose proof (Nat.mod_upper_bound (length a / 2) 8 ltac:(lia)).
      pose proof (Nat.div_mod (length a) 2 ltac:(lia)).
      pose proof (Nat.mod_upper_bound (length a) 2 ltac:(lia)).
      lia. }
    f_equal; apply IH; rewrite ?length_take, ?length_drop; lia.
Qed.

(** Ten times 0.1 sum to 1 in eight accumulators, and to
    0.9999999999999999 when added from left to right. *)
Example np_sum_pairwise :
  np_sum (repeat 0.1%float 10) = 1%float /\
  fold_left PrimFloat.add (repeat 0.1%float 10) 0%float = 0.9999999999999999%float.
Proof. split; vm_compute; reflexivity. Qed.

(** ** The weighting of [energy_ratio] *)

Lemma count_bucket_count (k : Z) (l : list Z) : count k l = bucket_count k l.
Proof.
  unfold count, bucket_count. f_equal.
  induction l as [|x l IH]; [reflexivity|].
  cbn [count_occ]. rewrite filter_cons.
  destruct (Z.eq_dec x k) as [E|E].
  - rewrite decide_True by exact E. cbn [length]. by rewrite IH.
  - rewrite decide_False by exact E. exact IH.
Qed.

Lemma int64_succ_small (x : Z) : (x < int64_max)%Z -> int64_succ x = (x + 1)%Z.
Proof.
  intros H. unfold int64_succ.
  destruct (Z.eqb_spec x int64_max) as [E|_]; [lia | reflexivity].
Qed.

Lemma np_zeros_allocatable (max_alloc : N) (n : Z) :
  allocatable max_alloc n ->
  np_zeros max_alloc n = Ok (repeat 0%float (Z.to_nat n)).
Proof.
  intros (H0 & H1 & H2). unfold np_zeros.
  destruct (Z.ltb_spec n 0); [lia|].
  destruct (Z.ltb_spec int64_max (8 * n)); [lia|].
  destruct (Z.ltb_spec (Z.of_N max_alloc) n); [lia|].
  reflexivity.
Qed.

Lemma np_zeros_0 (max_alloc : N) : np_zeros max_alloc 0 = Ok [].
Proof.
  unfold np_zeros. cbn. destruct (Z.ltb_spec (Z.of_N max_alloc) 0); [lia | reflexivity].
Qed.

Lemma np_zeros_cases (max_alloc : N) (n : Z) :
  np_zeros max_alloc n = Ok (repeat 0%float (Z.to_nat n)) /\ (0 <= n)%Z \/
  exists e, np_zeros max_alloc n = Err e.
Proof.
  unfold np_zeros.
  destruct (Z.ltb_spec n 0); [right; eauto|].
  destruct (int64_max <? 8 * n)%Z; [right; eauto|].
  destruct (Z.of_N max_alloc <? n)%Z; [right; eauto|].
  left. by split.
Qed.

Lemma np_zeros_negative (max_alloc : N) (n : Z) :
  (n < 0)%Z -> np_zeros max_alloc n = Err ValueError.
Proof.
  intros H. unfold np_zeros. destruct (Z.ltb_spec n 0); [reflexivity | lia].
Qed.

Lemma allocatable_succ_lt (max_alloc : N) (k : Z) :
  allocatable max_alloc (k + 1) -> (k < int64_max)%Z.
Proof.
  intros (H0 & H & _). change int64_max with 9223372036854775807%Z in *. lia.
Qed.


Lemma select_isin_filter (ws u other : list Z) :
  (forall k, k ∈ ws -> (k ∈ u <-> k ∈ other)) ->
  select ws (np_isin ws u) = filter (fun k => k ∈ other) ws.
Proof.
  induction ws as [|x ws IH]; intros H; [reflexivity|].
  cbn [np_isin map select]. rewrite filter_cons.
  assert (select ws (np_isin ws u) = filter (fun k => k ∈ other) ws) as IH'.
  { apply IH. intros k Hk. apply H. by right. }
  destruct (mem x u) eqn:E.
  - apply mem_elem_of in E. apply (H x) in E; [|left].
    rewrite decide_True by exact E. by rewrite <- IH'.
  - rewrite decide_False; [exact IH'|].
    intros Hx. apply (H x) in Hx; [|left]. apply mem_elem_of in Hx. congruence.
Qed.

Lemma select_isin_rows_where {A : Type} (ws u other : list Z) (arr : list A) :
  (forall k, k ∈ ws -> (k ∈ u <-> k ∈ other)) ->
  length arr = length ws ->
  select arr (np_isin ws u) = rows_where (fun k => k ∈ other) ws arr.
Proof.
  unfold rows_where.
  revert arr. induction ws as [|x ws IH]; intros [|y arr] H Hl; try discriminate.
  - reflexivity.
  - cbn [np_isin map select zip_with]. rewrite filter_cons. cbn [fst].
    injection Hl as Hl.
    assert (select arr (np_isin ws u)
            = (filter (fun p : Z * A => p.1 ∈ other) (zip ws arr)).*2) as IH'.
    { apply IH; [|exact Hl]. intros k Hk. apply H. by right. }
    destruct (mem x u) eqn:E.
    + apply mem_elem_of in E. apply (H x) in E; [|left].
      rewrite decide_True by exact E. cbn. by rewrite <- IH'.
    + rewrite decide_False; [exact IH'|].
      intros Hx. apply (H x) in Hx; [|left]. apply mem_elem_of in Hx. congruence.
Qed.

Section Weights.

Variable max_alloc : N.
Variables ref_pow_base0 test_pow_base0 ref_pow_con0 test_pow_con0 : list float.
Variables ws_base0 ws_con0 : list Z.

Let ws_unique := common_buckets ws_base0 ws_con0.
Let base_mask := np_isin ws_base0 ws_unique.
Let con_mask := np_isin ws_con0 ws_unique.
Let wb := select ws_base0 base_mask.
Let wc := select ws_con0 con_mask.

Hypothesis len_ref_base : length ref_pow_base0 = length ws_base0.
Hypothesis len_test_base : length test_pow_base0 = length ws_base0.
Hypothesis len_ref_con : length ref_pow_con0 = length ws_con0.
Hypothesis len_test_con : length test_pow_con0 = length ws_con0.
Hypothesis nonempty : ws_unique <> [].
Hypothesis fits :
  forall k, k ∈ ws_base0 -> k ∈ ws_con0 ->
            (0 <= k)%Z /\ allocatable max_alloc (k + 1).

Lemma energy_ratio_weights_eq :
  energy_ratio_weights max_alloc ref_pow_base0 test_pow_base0 ws_base0
                       ref_pow_con0 test_pow_con0 ws_con0 ws_unique
  = Ok (ErLocals (select ref_pow_base0 base_mask) (select test_pow_base0 base_mask) wb
                 (select ref_pow_con0 con_mask) (select test_pow_con0 con_mask) wc
                 (map (weight_for_baseline wb wc) wb)
                 (map (weight_for_controlled wb wc) wc)).
Proof using All.
  unfold energy_ratio_weights.
  fold base_mask con_mask.
  rewrite !bool_index_ok
    by (unfold base_mask, con_mask; rewrite np_isin_length; congruence).
  cbn [bind]. fold wb wc. unfold np_unique_counts.
  assert (np_unique wb = ws_unique) as ->.
  { apply np_unique_restricted; [apply common_buckets_sorted|].
    intros x Hx. by apply elem_of_common_buckets in Hx as [? ?]. }
  assert (np_unique wc = ws_unique) as ->.
  { apply np_unique_restricted; [apply common_buckets_sorted|].
    intros x Hx. by apply elem_of_common_buckets in Hx as [? ?]. }
  rewrite np_zip_with_map. cbn [bind].
  rewrite !np_zip_with_map. cbn [bind].
  rewrite (map_ext (fun k => fdiv_counts (count k wc) (count k wb + count k wc))
                   (weight_for_baseline wb wc))
    by (intros k; unfold weight_for_baseline, fdiv_counts;
        by rewrite !count_bucket_count).
  rewrite (map_ext (fun k => fdiv_counts (count k wb) (count k wb + count k wc))
                   (weight_for_controlled wb wc))
    by (intros k; unfold weight_for_controlled, fdiv_counts;
        by rewrite !count_bucket_count).
  destruct (np_max_spec ws_unique nonempty) as (top & -> & Htop & Hmax).
  cbn [bind].
  assert (forall k, k ∈ ws_unique -> (0 <= k)%Z /\ allocatable max_alloc (k + 1))
    as Hfit.
  { intros k Hk. apply elem_of_common_buckets in Hk as [? ?]. auto. }
  destruct (Hfit top Htop) as [Htop0 Halloc].
  rewrite (int64_succ_small top (allocatable_succ_lt _ _ Halloc)).
  rewrite (np_zeros_allocatable _ _ Halloc).
  cbn [bind].
  assert (forall k, k ∈ ws_unique ->
            0 <= k < Z.of_nat (length (repeat 0%float (Z.to_nat (top + 1)))))%Z
    as Hrange.
  { intros k Hk. rewrite repeat_length. specialize (Hmax k Hk).
    destruct (Hfit k Hk) as [? _]. lia. }
  pose proof (sorted_NoDup _ (common_buckets_sorted ws_base0 ws_con0)) as Hnd.
  fold ws_unique in Hnd.
  destruct (np_put_map (weight_for_baseline wb wc)
              ws_unique _ Hnd Hrange) as (lb & -> & Hlb & Hgb).
  cbn [bind].
  rewrite (np_take_table (weight_for_baseline wb wc)
             ws_unique wb lb); [| by rewrite Hlb | exact Hgb |].
  2:{ intros k Hk. apply elem_of_select_isin in Hk. tauto. }
  cbn [bind].
  destruct (np_put_map (weight_for_controlled wb wc)
              ws_unique _ Hnd Hrange) as (lc & -> & Hlc & Hgc).
  cbn [bind].
  rewrite (np_take_table (weight_for_controlled wb wc)
             ws_unique wc lc); [| by rewrite Hlc | exact Hgc |].
  2:{ intros k Hk. apply elem_of_select_isin in Hk. tauto. }
  reflexivity.
Qed.

(** The whole of [energy_ratio] under the same conditions. *)
Lemma energy_ratio_eq :
  energy_ratio max_alloc ref_pow_base0 test_pow_base0 ws_base0
               ref_pow_con0 test_pow_con0 ws_con0
  = Ok (let ratio_base :=
          weighted_ratio (weight_for_baseline wb wc)
                         (select test_pow_base0 base_mask)
                         (select ref_pow_base0 base_mask) wb in
        let ratio_con :=
          weighted_ratio (weight_for_controlled wb wc)
                         (select test_pow_con0 con_mask)
                         (select ref_pow_con0 con_mask) wc in
        let ratio_diff := (ratio_con - ratio_base)%float in
        let counts_base := Z.of_nat (length (select ref_pow_base0 base_mask)) in
        let counts_con := Z.of_nat (length (select ref_pow_con0 con_mask)) in
        ErOut ratio_base ratio_con ratio_diff (100 * ratio_diff / ratio_base)%float
              (PyInt counts_base) (PyInt counts_con)
              (PyInt (Z.min counts_base counts_con))
              (PyInt (Z.min counts_base counts_con))).
Proof using All.
  unfold energy_ratio. fold ws_unique.
  destruct (length ws_unique =? 0)%nat eqn:E.
  { apply Nat.eqb_eq, length_zero_iff_nil in E. contradiction. }
  rewrite energy_ratio_weights_eq.
  cbn [bind ref_pow_base test_pow_base ref_pow_con test_pow_con
       weight_array_base weight_array_con].
  unfold np_zip_with. rewrite !length_map. fold base_mask con_mask. fold wb wc.
  unfold wb, wc.
  rewrite (select_same_length ref_pow_base0 ws_base0) by exact len_ref_base.
  rewrite (select_same_length test_pow_base0 ws_base0) by exact len_test_base.
  rewrite (select_same_length ref_pow_con0 ws_con0) by exact len_ref_con.
  rewrite (select_same_length test_pow_con0 ws_con0) by exact len_test_con.
  rewrite !Nat.eqb_refl. cbn [bind].
  rewrite <- (select_same_length ref_pow_base0 ws_base0) by exact len_ref_base.
  rewrite <- (select_same_length ref_pow_con0 ws_con0) by exact len_ref_con.
  reflexivity.
Qed.

End Weights.

(** Membership in an explicit list, by cases. *)
Ltac elem_cases H :=
  repeat (apply elem_of_cons in H as [?|H]);
  try (by apply elem_of_nil in H); subst.

Lemma float_neq (x y : float) : Prim2SF x <> Prim2SF y -> x <> y.
Proof. intros H ->. by apply H. Qed.

(** C1 (as amended): for every call to [energy_ratio] whose arrays have
    the length of their regime's bucket array, whose baseline and controlled
    buckets have a non-empty intersection, and whose common buckets [k] are
    all non-negative and small enough for a look-up table of [k + 1] cells
    to be made, the weighting arrays are built without error; the samples
    kept are those whose bucket occurs in both regimes; a kept baseline
    sample of bucket [k] carries
    [count_controlled[k] / (count_baseline[k] + count_controlled[k])] and a
    controlled one
    [count_baseline[k] / (count_baseline[k] + count_controlled[k])], the
    counts being taken over the kept samples; and the two ratios returned
    are the ratios of the sums of test and reference power so weighted. *)
Theorem energy_ratio_weights_spec
    (max_alloc : N)
    (ref_pow_base0 test_pow_base0 : list float) (ws_base0 : list Z)
    (ref_pow_con0 test_pow_con0 : list float) (ws_con0 : list Z) :
  length ref_pow_base0 = length ws_base0 ->
  length test_pow_base0 = length ws_base0 ->
  length ref_pow_con0 = length ws_con0 ->
  length test_pow_con0 = length ws_con0 ->
  common_buckets ws_base0 ws_con0 <> [] ->
  (forall k, k ∈ ws_base0 -> k ∈ ws_con0 ->
             (0 <= k)%Z /\ allocatable max_alloc (k + 1)) ->
  exists v,
    energy_ratio_weights max_alloc ref_pow_base0 test_pow_base0 ws_base0
                         ref_pow_con0 test_pow_con0 ws_con0
                         (common_buckets ws_base0 ws_con0) = Ok v /\
    ws_base v = filter (fun k => k ∈ ws_con0) ws_base0 /\
    ws_con v = filter (fun k => k ∈ ws_base0) ws_con0 /\
    ref_pow_base v = rows_where (fun k => k ∈ ws_con0) ws_base0 ref_pow_base0 /\
    test_pow_base v = rows_where (fun k => k ∈ ws_con0) ws_base0 test_pow_base0 /\
    ref_pow_con v = rows_where (fun k => k ∈ ws_base0) ws_con0 ref_pow_con0 /\
    test_pow_con v = rows_where (fun k => k ∈ ws_base0) ws_con0 test_pow_con0 /\
    weights_as_specified v /\
    exists er,
      energy_ratio max_alloc ref_pow_base0 test_pow_base0 ws_base0
                   ref_pow_con0 test_pow_con0 ws_con0 = Ok er /\
      er_ratio_base er
      = weighted_ratio (weight_for_baseline (ws_base v) (ws_con v))
                       (test_pow_base v) (ref_pow_base v) (ws_base v) /\
      er_ratio_con er
      = weighted_ratio (weight_for_controlled (ws_base v) (ws_con v))
                       (test_pow_con v) (ref_pow_con v) (ws_con v).
Proof.
  intros H1 H2 H3 H4 Hne Hfit.
  assert (forall k, k ∈ ws_base0 ->
            (k ∈ common_buckets ws_base0 ws_con0 <-> k ∈ ws_con0)) as Hb.
  { intros k Hk. rewrite elem_of_common_buckets. tauto. }
  assert (forall k, k ∈ ws_con0 ->
            (k ∈ common_buckets ws_base0 ws_con0 <-> k ∈ ws_base0)) as Hc.
  { intros k Hk. rewrite elem_of_common_buckets. tauto. }
  eexists. split; [by apply energy_ratio_weights_eq|].
  cbn [ws_base ws_con ref_pow_base test_pow_base ref_pow_con test_pow_con
       weight_array_base weight_array_con].
  split; [by apply select_isin_filter|].
  split; [by apply select_isin_filter|].
  split; [by apply select_isin_rows_where|].
  split; [by apply select_isin_rows_where|].
  split; [by apply select_isin_rows_where|].
  split; [by apply select_isin_rows_where|].
  split.
  { split; intros j k Hj;
      cbn [ws_base ws_con weight_array_base weight_array_con] in *;
      by rewrite list_lookup_fmap, Hj. }
  eexists. split; [by apply energy_ratio_eq|].
  split; reflexivity.
Qed.

Lemma energy_ratio_weights_spec_witness :
  exists v,
    energy_ratio_weights Ref.max_alloc
                         [100; 100; 100; 90]%float [50; 50; 40; 45]%float [8; 8; 9; 7]%Z
                         [100; 100]%float [55; 44]%float [8; 9]%Z
                         (common_buckets [8; 8; 9; 7]%Z [8; 9]%Z) = Ok v /\
    ws_base v = [8; 8; 9]%Z /\
    ws_con v = [8; 9]%Z /\
    ref_pow_base v = [100; 100; 100]%float /\
    test_pow_base v = [50; 50; 40]%float /\
    ref_pow_con v = [100; 100]%float /\
    test_pow_con v = [55; 44]%float /\
    weights_as_specified v /\
    exists er,
      energy_ratio Ref.max_alloc
                   [100; 100; 100; 90]%float [50; 50; 40; 45]%float [8; 8; 9; 7]%Z
                   [100; 100]%float [55; 44]%float [8; 9]%Z = Ok er /\
      er_ratio_base er
      = weighted_ratio (weight_for_baseline (ws_base v) (ws_con v))
                       (test_pow_base v) (ref_pow_base v) (ws_base v) /\
      er_ratio_con er
      = weighted_ratio (weight_for_controlled (ws_base v) (ws_con v))
                       (test_pow_con v) (ref_pow_con v) (ws_con v).
Proof.
  apply (energy_ratio_weights_spec Ref.max_alloc
           [100; 100; 100; 90]%float [50; 50; 40; 45]%float [8; 8; 9; 7]%Z
           [100; 100]%float [55; 44]%float [8; 9]%Z); try reflexivity.
  - vm_compute. discriminate.
  - intros k Hk _. unfold allocatable. elem_cases Hk; vm_compute; intuition discriminate.
Defined.

(** With a negative common bucket the look-up table is indexed from its
    end: for buckets [-1] and [0] the table has one cell, both weights are
    written to it, and the baseline sample of bucket [-1] carries the weight
    of bucket [0] (2/3) in place of its own (1/2). *)
Lemma energy_ratio_weights_negative_bucket :
  common_buckets [-1; 0]%Z [-1; 0; 0]%Z <> [] /\
  ~ exists v,
      energy_ratio_weights Ref.max_alloc
                           [100; 100]%float [50; 50]%float [-1; 0]%Z
                           [100; 100; 100]%float [55; 55; 55]%float [-1; 0; 0]%Z
                           (common_buckets [-1; 0]%Z [-1; 0; 0]%Z) = Ok v /\
      weights_as_specified v.
Proof.
  split; [vm_compute; discriminate|].
  intros (v & Hv & Hw & _).
  vm_compute in Hv. apply Ok_inj in Hv. subst v.
  specialize (Hw 0%nat (-1)%Z eq_refl).
  apply (f_equal (fun o => match o with Some x => Prim2SF x | None => S754_nan end)) in Hw.
  vm_compute in Hw. discriminate.
Qed.

(** C3: when the baseline and the controlled arrays share no bucket (an
    empty array shares none), [energy_ratio] raises nothing and returns NaN
    for all eight outputs: the two ratios, the difference, the percent
    change and the four counts. *)
Theorem energy_ratio_disjoint_nan
    (max_alloc : N)
    (ref_pow_base0 test_pow_base0 : list float) (ws_base0 : list Z)
    (ref_pow_con0 test_pow_con0 : list float) (ws_con0 : list Z) :
  (forall k, k ∈ ws_base0 -> k ∈ ws_con0 -> False) ->
  energy_ratio max_alloc ref_pow_base0 test_pow_base0 ws_base0
               ref_pow_con0 test_pow_con0 ws_con0
  = Ok (ErOut nan nan nan nan
              (PyFloat nan) (PyFloat nan) (PyFloat nan) (PyFloat nan)).
Proof.
  intros Hd. unfold energy_ratio.
  destruct (common_buckets ws_base0 ws_con0) as [|k u] eqn:E; [reflexivity|].
  exfalso.
  assert (k ∈ common_buckets ws_base0 ws_con0) as Hk by (rewrite E; left).
  apply elem_of_common_buckets in Hk as [? ?]. eauto.
Qed.

Lemma energy_ratio_disjoint_nan_witness :
  energy_ratio Ref.max_alloc [100; 100]%float [50; 50]%float [8; 9]%Z
               [100]%float [55]%float [7]%Z
  = Ok (ErOut nan nan nan nan
              (PyFloat nan) (PyFloat nan) (PyFloat nan) (PyFloat nan)) /\
  energy_ratio Ref.max_alloc [100; 100]%float [50; 50]%float [8; 9]%Z [] [] []
  = Ok (ErOut nan nan nan nan
              (PyFloat nan) (PyFloat nan) (PyFloat nan) (PyFloat nan)).
Proof.
  split; apply energy_ratio_disjoint_nan; intros k H1 H2; elem_cases H2.
  elem_cases H1; lia.
Defined.

(** ** The helpers *)

(** C4: for every confidence value [c] and every bootstrap array, the
    percentiles requested are [50 + c/2] and [50 - c/2] in that order (the
    halving is written [0.5 * c]; 97.5 and 2.5 for [c = 95]), and under
    ['simple_percentile'] the value of the first, higher percentile is
    returned as [lower] and the value of the second as [upper]. *)
Theorem confidence_bounds_order
    (np_percentile : list float -> float -> result float)
    (confidence : float) (bootstrap_array : list float)
    (central_estimate : option float) :
  _get_confidence_bounds confidence
  = [(50 + 0.5 * confidence)%float; (50 - 0.5 * confidence)%float] /\
  _get_confidence_bounds 95 = [97.5%float; 2.5%float] /\
  _calculate_lower_and_upper_bound np_percentile bootstrap_array
      (_get_confidence_bounds confidence) central_estimate simple_percentile
  = (let! first := np_percentile bootstrap_array (50 + 0.5 * confidence)%float in
     let! second := np_percentile bootstrap_array (50 - 0.5 * confidence)%float in
     let lower := first in
     let upper := second in
     Ok (lower, upper)).
Proof.
  split; [reflexivity|]. split; [vm_compute; reflexivity|].
  unfold _calculate_lower_and_upper_bound, _get_confidence_bounds. cbn [mapM].
  destruct (np_percentile bootstrap_array (50 + 0.5 * confidence)%float);
    cbn [bind]; [|reflexivity].
  destruct (np_percentile bootstrap_array (50 - 0.5 * confidence)%float);
    reflexivity.
Qed.

Lemma ltb_above_not_below (x : float) :
  (10000 <? x)%float = true -> (x <? 2000)%float = false.
Proof.
  rewrite !ltb_spec. unfold SFltb, SFcompare.
  replace (Prim2SF 10000) with (S754_finite false 5497558138880000 (-39))
    by (vm_compute; reflexivity).
  replace (Prim2SF 2000) with (S754_finite false 8796093022208000 (-42))
    by (vm_compute; reflexivity).
  destruct (Prim2SF x) as [s|s| |s m e];
    try destruct s; try discriminate; try reflexivity.
  destruct (Z.compare_spec (-39) e) as [<-|H|H]; try discriminate.
  all: intros _.
  - reflexivity.
  - destruct (Z.compare_spec e (-42)) as [->|H'|H']; try lia; reflexivity.
Qed.

(** The nested [max(min(x, maximum), minimum)] of the source is the clamp. *)
Lemma max_min_clamp (x : float) :
  py_max (py_min x maximum) minimum = clamp x 2000 10000.
Proof.
  unfold py_max, py_min, clamp, maximum, minimum.
  destruct (10000 <? x)%float eqn:Hhi.
  - rewrite (ltb_above_not_below x Hhi).
    replace (10000 <? 2000)%float with false by (vm_compute; reflexivity).
    reflexivity.
  - destruct (x <? 2000)%float; reflexivity.
Qed.

(** *** The range of the default iteration count *)

Lemma digits2_pos_size (p : positive) : digits2_pos p = Pos.size p.
Proof. induction p as [p IH|p IH|]; simpl; congruence. Qed.

Lemma digits2_pos_53 (m : positive) :
  digits2_pos m = 53%positive ->
  (4503599627370496 <= Zpos m < 9007199254740992)%Z.
Proof.
  rewrite digits2_pos_size. intros H.
  pose proof (Pos.size_gt m) as Hgt. pose proof (Pos.size_le m) as Hle.
  rewrite H in Hgt, Hle.
  assert ((2 ^ 53)%positive = 9007199254740992%positive) as E
    by (vm_compute; reflexivity).
  rewrite E in Hgt, Hle. clear H E.
  apply Pos2Z.pos_lt_pos in Hgt. apply Pos2Z.pos_le_pos in Hle.
  rewrite Pos2Z.inj_xO in Hle.
  split.
  - apply Z.mul_le_mono_pos_l with (p := 2%Z); [reflexivity|exact Hle].
  - exact Hgt.
Qed.

Lemma in_zrange (z start : Z) (n : nat) :
  (start <= z < start + Z.of_nat n)%Z -> In z (zrange start n).
Proof.
  revert start. induction n as [|n IH]; intros start H; simpl.
  - lia.
  - destruct (Z.eq_dec start z) as [->|Hne]; [by left|].
    right. apply IH. lia.
Qed.

(** Below 2^63 the conversion is the primitive one. *)
Lemma float_of_Z_uint63 (z : Z) :
  (0 <= z < 9223372036854775808)%Z ->
  float_of_Z z = PrimFloat.of_uint63 (Uint63.of_Z z).
Proof.
  intros Hz. unfold float_of_Z.
  rewrite <- (SF2Prim_Prim2SF (PrimFloat.of_uint63 (Uint63.of_Z z))).
  rewrite of_uint63_spec, Uint63.of_Z_spec.
  do 2 f_equal. symmetry. apply Z.mod_small.
  change Uint63.wB with 9223372036854775808%Z. exact Hz.
Qed.

(** The integers of the clamp range survive the trip through binary64
    (checked on each of them). *)
Lemma py_int_float_of_Z (z : Z) :
  (2000 <= z <= 10000)%Z -> py_int (float_of_Z z) = Ok z.
Proof.
  intros Hz. rewrite float_of_Z_uint63 by lia.
  assert (forallb (fun i => match py_int (PrimFloat.of_uint63 (Uint63.of_Z i)) with
                            | Ok k => (k =? i)%Z
                            | Err _ => false
                            end) (zrange 2000 (Z.to_nat 8001)) = true) as Hall
    by (vm_compute; reflexivity).
  rewrite forallb_forall in Hall.
  specialize (Hall z (in_zrange z 2000 (Z.to_nat 8001) ltac:(lia))).
  destruct (py_int (PrimFloat.of_uint63 (Uint63.of_Z z))) as [k|e].
  - f_equal. by apply Z.eqb_eq.
  - discriminate Hall.
Qed.

Lemma rint_pos_range (m : positive) (e : Z) :
  (4503599627370496 <= Zpos m < 9007199254740992)%Z ->
  (e = -42 /\ 8796093022208000 <= Zpos m \/ e = -41 \/ e = -40 \/
   e = -39 /\ Zpos m <= 5497558138880000)%Z ->
  (2000 <= rint_pos m e <= 10000)%Z.
Proof.
  intros Hm He.
  destruct He as [[-> Hlo]|[->|[->|[-> Hhi]]]]; unfold rint_pos;
    match goal with |- context [Z.shiftl 1 ?p] =>
      let d := eval vm_compute in (Z.shiftl 1 p) in
      change (Z.shiftl 1 p) with d;
      pose proof (Z.div_mod (Zpos m) d ltac:(lia)) as Hdm;
      pose proof (Z.mod_pos_bound (Zpos m) d ltac:(lia)) as Hr
    end;
    match goal with |- context [(?a ?= ?b)%Z] =>
      destruct (Z.compare_spec a b) end;
    try destruct (Z.even _); lia.
Qed.

Lemma compare_cont_Z (p q : positive) :
  Pos.compare_cont Eq p q = (Zpos p ?= Zpos q)%Z.
Proof. reflexivity. Qed.

(** What the two failed comparisons and the canonical form say about a
    float that the clamp leaves alone. *)
Lemma unclamped_shape (zm dg e : Z) :
  match match (e ?= -42)%Z with
        | Eq => (zm ?= 8796093022208000)%Z
        | Lt => Lt
        | Gt => Gt
        end
  with Lt => true | _ => false end = false ->
  match match (-39 ?= e)%Z with
        | Eq => (5497558138880000 ?= zm)%Z
        | Lt => Lt
        | Gt => Gt
        end
  with Lt => true | _ => false end = false ->
  Z.max (dg + e - 53) (3 - 1024 - 53) = e ->
  dg = 53%Z /\
  (e = -42 /\ 8796093022208000 <= zm \/ e = -41 \/ e = -40 \/
   e = -39 /\ zm <= 5497558138880000)%Z.
Proof.
  destruct (Z.compare_spec e (-42)) as [->|?|?]; [|discriminate|].
  - destruct (Z.compare_spec zm 8796093022208000); [|discriminate|];
      intros _ _ ?; split; lia.
  - destruct (Z.compare_spec (-39) e) as [<-|?|?]; [|discriminate|].
    + destruct (Z.compare_spec 5497558138880000 zm); [|discriminate|];
        intros _ _ ?; split; lia.
    + intros _ _ ?; split; lia.
Qed.

Lemma clamped_round_range (x : float) (k : Z) :
  py_int (np_round (clamp x 2000 10000)) = Ok k -> (2000 <= k <= 10000)%Z.
Proof.
  unfold clamp.
  destruct (x <? 2000)%float eqn:Hlo.
  { intros H. vm_compute in H. apply Ok_inj in H. lia. }
  destruct (10000 <? x)%float eqn:Hhi.
  { intros H. vm_compute in H. apply Ok_inj in H. lia. }
  rewrite ltb_spec in Hlo, Hhi. unfold SFltb, SFcompare in Hlo, Hhi.
  replace (Prim2SF 10000) with (S754_finite false 5497558138880000 (-39)) in Hhi
    by (vm_compute; reflexivity).
  replace (Prim2SF 2000) with (S754_finite false 8796093022208000 (-42)) in Hlo
    by (vm_compute; reflexivity).
  pose proof (Prim2SF_valid x) as Hv.
  destruct (Prim2SF x) as [s|s| |s m e] eqn:Hx.
  - discriminate Hlo.
  - destruct s; discriminate.
  - unfold np_round, py_int, trunc_Z. rewrite !Hx. discriminate.
  - destruct s; [discriminate|].
    cbn [valid_binary] in Hv. unfold bounded, canonical_mantissa, fexp, emin in Hv.
    apply andb_true_iff in Hv as [Hc _]. apply Z.eqb_eq in Hc.
    change prec with 53%Z in Hc. change emax with 1024%Z in Hc.
    rewrite compare_cont_Z in Hlo, Hhi.
    destruct (unclamped_shape _ _ _ Hlo Hhi Hc) as [Hd He].
    assert (digits2_pos m = 53%positive) as Hd' by (injection Hd; auto).
    apply digits2_pos_53 in Hd'.
    pose proof (rint_pos_range m e Hd' He) as Hr.
    assert (np_round x = float_of_Z (rint_pos m e)) as ->.
    { unfold np_round. rewrite Hx.
      destruct (Z.ltb_spec e 0); [reflexivity | clear - He H; lia]. }
    rewrite py_int_float_of_Z by exact Hr.
    intros H. apply Ok_inj in H. clear - H Hr. lia.
Qed.

Lemma is_nan_SF (x : float) :
  PrimFloat.is_nan x = match Prim2SF x with S754_nan => true | _ => false end.
Proof.
  unfold PrimFloat.is_nan. rewrite FloatAxioms.eqb_spec. unfold SFeqb, SFcompare.
  destruct (Prim2SF x) as [s|s| |s m e]; try (destruct s); try reflexivity.
  all: rewrite Z.compare_refl.
  all: change (Pos.compare_cont Eq m m) with (Pos.compare m m).
  all: by rewrite Pos.compare_refl.
Qed.

Lemma clamped_round_total (x : float) :
  match py_int (np_round (clamp x 2000 10000)) with
  | Ok k => PrimFloat.is_nan x = false /\ (2000 <= k <= 10000)%Z
  | Err e => PrimFloat.is_nan x = true /\ e = ValueError
  end.
Proof.
  rewrite is_nan_SF. unfold clamp.
  destruct (x <? 2000)%float eqn:Hlo.
  { replace (py_int (np_round 2000)) with (Ok 2000%Z) by (vm_compute; reflexivity).
    rewrite FloatAxioms.ltb_spec in Hlo.
    destruct (Prim2SF x); try discriminate; split; (reflexivity || lia). }
  destruct (10000 <? x)%float eqn:Hhi.
  { replace (py_int (np_round 10000)) with (Ok 10000%Z) by (vm_compute; reflexivity).
    rewrite FloatAxioms.ltb_spec in Hhi. unfold SFltb, SFcompare in Hhi.
    replace (Prim2SF 10000) with (S754_finite false 5497558138880000 (-39)) in Hhi
      by (vm_compute; reflexivity).
    destruct (Prim2SF x); try discriminate; split; (reflexivity || lia). }
  rewrite FloatAxioms.ltb_spec in Hlo, Hhi. unfold SFltb, SFcompare in Hlo, Hhi.
  replace (Prim2SF 10000) with (S754_finite false 5497558138880000 (-39)) in Hhi
    by (vm_compute; reflexivity).
  replace (Prim2SF 2000) with (S754_finite false 8796093022208000 (-42)) in Hlo
    by (vm_compute; reflexivity).
  pose proof (Prim2SF_valid x) as Hv.
  destruct (Prim2SF x) as [s|s| |s m e] eqn:Hx.
  - discriminate Hlo.
  - destruct s; discriminate.
  - unfold np_round, py_int, trunc_Z. rewrite !Hx.
    rewrite is_nan_SF, Hx. by split.
  - destruct s; [discriminate|].
    cbn [valid_binary] in Hv. unfold bounded, canonical_mantissa, fexp, emin in Hv.
    apply andb_true_iff in Hv as [Hc _]. apply Z.eqb_eq in Hc.
    change prec with 53%Z in Hc. change emax with 1024%Z in Hc.
    rewrite compare_cont_Z in Hlo, Hhi.
    destruct (unclamped_shape _ _ _ Hlo Hhi Hc) as [Hd He].
    assert (digits2_pos m = 53%positive) as Hd' by (injection Hd; auto).
    apply digits2_pos_53 in Hd'.
    pose proof (rint_pos_range m e Hd' He) as Hr.
    assert (np_round x = float_of_Z (rint_pos m e)) as ->.
    { unfold np_round. rewrite Hx.
      destruct (Z.ltb_spec e 0); [reflexivity | clear - He H; lia]. }
    rewrite py_int_float_of_Z by exact Hr. by split.
Qed.

(** *** Rounding *)

Lemma rounds_to_scaled (m z : Z) (D : positive) :
  (2 * Z.abs (z * Zpos D - m) <= Zpos D)%Z ->
  ((2 * Z.abs (z * Zpos D - m) = Zpos D)%Z -> Z.even z = true) ->
  rounds_to (m # D) z.
Proof.
  intros Hle Heq. unfold rounds_to.
  assert (Qabs (inject_Z z - (m # D)) == (Z.abs (z * Zpos D - m) # D))%Q as E.
  { unfold Qabs, Qminus, Qplus, Qopp, inject_Z, Qeq. cbn [Qnum Qden].
    rewrite Pos.mul_1_l. f_equal. f_equal. lia. }
  split.
  - rewrite E. unfold Qle. cbn [Qnum Qden]. lia.
  - intros H. rewrite E in H. unfold Qeq in H. cbn [Qnum Qden] in H.
    apply Heq. lia.
Qed.

Lemma rounds_to_Qeq (q q' : Q) (z : Z) : (q == q')%Q -> rounds_to q z -> rounds_to q' z.
Proof.
  intros E [H1 H2]. unfold rounds_to. rewrite <- E. by split.
Qed.

(** The exact value of a mantissa with a negative exponent. *)
Lemma scaled_value (m : Z) (p : positive) :
  (inject_Z m * Qpower 2 (Zneg p) == m # (2 ^ p)%positive)%Q.
Proof.
  cbn [Qpower]. change 2%Q with (2 # 1)%Q.
  rewrite Qpower_decomp_positive.
  assert ((1 ^ p)%positive = 1%positive) as ->
    by (apply Pos2Z.inj; rewrite Pos2Z.inj_pow; apply Z.pow_1_l; lia).
  rewrite <- Pos2Z.inj_pow.
  unfold Qinv, Qmult, inject_Z, Qeq. cbn [Qnum Qden]. rewrite Pos.mul_1_l. lia.
Qed.

(** What [np.round] computes on a mantissa and a negative exponent is the
    rounding of the exact value. *)
Lemma rint_pos_rounds (m p : positive) :
  rounds_to (inject_Z (Zpos m) * Qpower 2 (Zneg p)) (rint_pos m (Zneg p)).
Proof.
  apply (rounds_to_Qeq (Zpos m # (2 ^ p)%positive)); [symmetry; apply scaled_value|].
  unfold rint_pos. rewrite Z.shiftl_1_l, <- Pos2Z.inj_pow.
  set (d := Zpos (2 ^ p)).
  pose proof (Z.div_mod (Zpos m) d ltac:(done)) as Hdm.
  pose proof (Z.mod_pos_bound (Zpos m) d ltac:(done)) as Hr.
  set (q := (Zpos m / d)%Z) in *. set (r := (Zpos m mod d)%Z) in *.
  destruct (Z.compare_spec (2 * r) d) as [He|Hl|Hg].
  - destruct (Z.even q) eqn:Ev.
    + apply rounds_to_scaled; [fold d; lia | intros _; exact Ev].
    + apply rounds_to_scaled; [fold d; lia|]. intros _.
      rewrite Z.even_add, Ev. reflexivity.
  - apply rounds_to_scaled; fold d; lia.
  - apply rounds_to_scaled; fold d; lia.
Qed.

Lemma clamped_round_rounds (x : float) (k : Z) :
  py_int (np_round (clamp x 2000 10000)) = Ok k ->
  exists q : Q, exact_value (clamp x 2000 10000) = Some q /\ rounds_to q k.
Proof.
  unfold clamp.
  destruct (x <? 2000)%float eqn:Hlo.
  { intros H. vm_compute in H. apply Ok_inj in H. subst k.
    eexists. split; [vm_compute; reflexivity|].
    split; [vm_compute; discriminate | intros _; reflexivity]. }
  destruct (10000 <? x)%float eqn:Hhi.
  { intros H. vm_compute in H. apply Ok_inj in H. subst k.
    eexists. split; [vm_compute; reflexivity|].
    split; [vm_compute; discriminate | intros _; reflexivity]. }
  rewrite FloatAxioms.ltb_spec in Hlo, Hhi. unfold SFltb, SFcompare in Hlo, Hhi.
  replace (Prim2SF 10000) with (S754_finite false 5497558138880000 (-39)) in Hhi
    by (vm_compute; reflexivity).
  replace (Prim2SF 2000) with (S754_finite false 8796093022208000 (-42)) in Hlo
    by (vm_compute; reflexivity).
  pose proof (Prim2SF_valid x) as Hv.
  unfold exact_value.
  destruct (Prim2SF x) as [s|s| |s m e] eqn:Hx.
  - discriminate Hlo.
  - destruct s; discriminate.
  - unfold np_round, py_int, trunc_Z. rewrite !Hx. discriminate.
  - destruct s; [discriminate|].
    cbn [valid_binary] in Hv. unfold bounded, canonical_mantissa, fexp, emin in Hv.
    apply andb_true_iff in Hv as [Hc _]. apply Z.eqb_eq in Hc.
    change prec with 53%Z in Hc. change emax with 1024%Z in Hc.
    rewrite compare_cont_Z in Hlo, Hhi.
    destruct (unclamped_shape _ _ _ Hlo Hhi Hc) as [Hd He].
    assert (digits2_pos m = 53%positive) as Hd' by (injection Hd; auto).
    apply digits2_pos_53 in Hd'.
    pose proof (rint_pos_range m e Hd' He) as Hr.
    assert (np_round x = float_of_Z (rint_pos m e)) as ->.
    { unfold np_round. rewrite Hx.
      destruct (Z.ltb_spec e 0); [reflexivity | clear - He H; lia]. }
    rewrite py_int_float_of_Z by exact Hr.
    intros H. apply Ok_inj in H. subst k.
    eexists. split; [reflexivity|].
    destruct e as [|pe|pe]; [clear - He; lia | clear - He; lia |].
    apply rint_pos_rounds.
Qed.

(** C7: for every baseline-subset size [n] whose [n * log10(n)] is a
    number (not NaN), the default iteration count is returned and is
    [round(clamp(n * log10(n), 2000, 10000))]: an integer nearest to the
    exact value of the clamped product, the even one when two are equally
    near; it lies in [2000, 10000].  Whenever a count is returned it is this
    one.  With a base-10 logarithm that is exact on 10, 100, 10^4 and 10^7
    the counts for these sizes are 2000, 2000, 10000 and 10000: all within
    [2000, 10000] and non-decreasing. *)
Theorem bootstrap_iterations_default (np_log10 : float -> float) :
  np_log10 10%float = 1%float ->
  np_log10 100%float = 2%float ->
  np_log10 10000%float = 4%float ->
  np_log10 10000000%float = 7%float ->
  (forall n : Z,
      PrimFloat.is_nan (float_of_Z n * np_log10 (float_of_Z n))%float = false ->
      exists k : Z,
        _calculate_bootstrap_iterations np_log10 n = Ok k /\
        bootstrap_iterations_formula np_log10 n k /\
        (2000 <= k <= 10000)%Z) /\
  (forall n k : Z,
      _calculate_bootstrap_iterations np_log10 n = Ok k ->
      bootstrap_iterations_formula np_log10 n k /\
      (2000 <= k <= 10000)%Z) /\
  exists k1 k2 k3 k4 : Z,
    _calculate_bootstrap_iterations np_log10 10 = Ok k1 /\
    _calculate_bootstrap_iterations np_log10 100 = Ok k2 /\
    _calculate_bootstrap_iterations np_log10 10000 = Ok k3 /\
    _calculate_bootstrap_iterations np_log10 10000000 = Ok k4 /\
    (k1, k2, k3, k4) = (2000, 2000, 10000, 10000)%Z /\
    Forall (fun k => 2000 <= k <= 10000)%Z [k1; k2; k3; k4] /\
    (k1 <= k2 <= k3 /\ k3 <= k4)%Z.
Proof.
  intros H1 H2 H4 H7.
  assert (forall n k : Z,
            _calculate_bootstrap_iterations np_log10 n = Ok k ->
            bootstrap_iterations_formula np_log10 n k /\
            (2000 <= k <= 10000)%Z) as Hret.
  { intros n k. unfold _calculate_bootstrap_iterations, bootstrap_iterations_formula.
    rewrite max_min_clamp. intros H. split.
    - by apply clamped_round_rounds.
    - by eapply clamped_round_range. }
  split; [|split; [exact Hret|]].
  - intros n Hn.
    pose proof (clamped_round_total
                  (float_of_Z n * np_log10 (float_of_Z n))%float) as Ht.
    destruct (py_int _) as [k|e] eqn:E.
    + exists k.
      assert (_calculate_bootstrap_iterations np_log10 n = Ok k) as Hk.
      { unfold _calculate_bootstrap_iterations. by rewrite max_min_clamp. }
      split; [exact Hk|]. by apply Hret.
    + destruct Ht as [Ht _]. congruence.
  - exists 2000%Z, 2000%Z, 10000%Z, 10000%Z.
    unfold _calculate_bootstrap_iterations.
    replace (float_of_Z 10) with 10%float by (vm_compute; reflexivity).
    replace (float_of_Z 100) with 100%float by (vm_compute; reflexivity).
    replace (float_of_Z 10000) with 10000%float by (vm_compute; reflexivity).
    replace (float_of_Z 10000000) with 10000000%float by (vm_compute; reflexivity).
    rewrite H1, H2, H4, H7.
    repeat split; try (vm_compute; reflexivity); try lia.
    repeat constructor; lia.
Qed.

(** Rounding, not truncation, and to the even integer at a tie: with a
    logarithm standing in for the product ([n = 1]), 2322.6 gives 2323,
    2000.5 gives 2000 and 2001.5 gives 2002. *)
Example bootstrap_iterations_rounding :
  _calculate_bootstrap_iterations (fun _ => 2322.6%float) 1 = Ok 2323%Z /\
  _calculate_bootstrap_iterations (fun _ => 2322.4%float) 1 = Ok 2322%Z /\
  _calculate_bootstrap_iterations (fun _ => 2000.5%float) 1 = Ok 2000%Z /\
  _calculate_bootstrap_iterations (fun _ => 2001.5%float) 1 = Ok 2002%Z.
Proof. repeat split; vm_compute; reflexivity. Qed.

Lemma bootstrap_iterations_default_witness :
  (forall n : Z,
      PrimFloat.is_nan (float_of_Z n * Ref.np_log10 (float_of_Z n))%float = false ->
      exists k : Z,
        _calculate_bootstrap_iterations Ref.np_log10 n = Ok k /\
        bootstrap_iterations_formula Ref.np_log10 n k /\
        (2000 <= k <= 10000)%Z) /\
  (forall n k : Z,
      _calculate_bootstrap_iterations Ref.np_log10 n = Ok k ->
      bootstrap_iterations_formula Ref.np_log10 n k /\
      (2000 <= k <= 10000)%Z) /\
  exists k1 k2 k3 k4 : Z,
    _calculate_bootstrap_iterations Ref.np_log10 10 = Ok k1 /\
    _calculate_bootstrap_iterations Ref.np_log10 100 = Ok k2 /\
    _calculate_bootstrap_iterations Ref.np_log10 10000 = Ok k3 /\
    _calculate_bootstrap_iterations Ref.np_log10 10000000 = Ok k4 /\
    (k1, k2, k3, k4) = (2000, 2000, 10000, 10000)%Z /\
    Forall (fun k => 2000 <= k <= 10000)%Z [k1; k2; k3; k4] /\
    (k1 <= k2 <= k3 /\ k3 <= k4)%Z.
Proof.
  apply (bootstrap_iterations_default Ref.np_log10); vm_compute; reflexivity.
Defined.

(** ** The orchestration *)

Lemma select_elem_of {A : Type} (x : A) (a : list A) (mask : list bool) :
  x ∈ select a mask <-> exists j, a !! j = Some x /\ mask !! j = Some true.
Proof.
  revert mask. induction a as [|y a IH]; intros mask.
  - simpl. split; [intros H; by apply elem_of_nil in H | intros (j & H & _); done].
  - destruct mask as [|b mask]; simpl.
    { split; [intros H; by apply elem_of_nil in H | intros (j & _ & H); done]. }
    destruct b.
    + rewrite elem_of_cons, IH. split.
      * intros [->|(j & ? & ?)]; [by exists 0%nat | by exists (S j)].
      * intros ([|j] & Hj & Hm); simpl in *; [left; congruence | right; eauto].
    + rewrite IH. split.
      * intros (j & ? & ?). by exists (S j).
      * intros ([|j] & Hj & Hm); simpl in *; [discriminate | eauto].
Qed.

Lemma wind_dir_mask_lookup (c r : float) (wd : list float) (j : nat) :
  wind_dir_mask c r wd !! j = Some true
  <-> exists d, wd !! j = Some d /\ in_interval c r d.
Proof.
  unfold wind_dir_mask, in_interval, in_bin. rewrite list_lookup_fmap.
  destruct (wd !! j) as [d|]; simpl.
  - split.
    + intros H. exists d. split; [reflexivity|].
      apply andb_true_iff. congruence.
    + intros (d' & Hd & H). apply andb_true_iff in H.
      assert (d = d') as -> by congruence. by rewrite H.
  - split; [discriminate | intros (d & ? & _); discriminate].
Qed.

Lemma wind_dir_mask_length (c r : float) (wd : list float) :
  length (wind_dir_mask c r wd) = length wd.
Proof. apply length_map. Qed.

Section Selection.

Variables rpb tpb wsb wdb rpc tpc wsc wdc : list float.
Hypothesis len_rpb : length rpb = length wdb.
Hypothesis len_tpb : length tpb = length wdb.
Hypothesis len_wsb : length wsb = length wdb.
Hypothesis len_rpc : length rpc = length wdc.
Hypothesis len_tpc : length tpc = length wdc.
Hypothesis len_wsc : length wsc = length wdc.

(** On well-formed arrays the selection of a bin raises nothing and keeps,
    in each regime, the rows picked by that regime's direction mask. *)
Lemma select_bin_eq (r c : float) :
  select_bin (PyNdarray rpb) (PyNdarray tpb) (PyNdarray wsb) (PyNdarray wdb)
             (PyNdarray rpc) (PyNdarray tpc) (PyNdarray wsc) (PyNdarray wdc) r c
  = Ok (BinSubset (select rpb (wind_dir_mask c r wdb))
                  (select tpb (wind_dir_mask c r wdb))
                  (select wsb (wind_dir_mask c r wdb))
                  (select rpc (wind_dir_mask c r wdc))
                  (select tpc (wind_dir_mask c r wdc))
                  (select wsc (wind_dir_mask c r wdc))).
Proof using All.
  unfold select_bin. cbn [as_ndarray bind].
  rewrite !bool_index_ok by (rewrite wind_dir_mask_length; congruence).
  reflexivity.
Qed.

End Selection.

Lemma bool_index_cases {A : Type} (a : list A) (mask : list bool) :
  bool_index a mask = Ok (select a mask) \/ bool_index a mask = Err IndexError.
Proof. unfold bool_index. destruct (length a =? length mask)%nat; auto. Qed.

(** The selection of a bin either succeeds, and then all eight inputs are
    arrays, or raises [TypeError] (an input is [None]) or [IndexError] (a
    mask does not fit). *)
Lemma select_bin_cases (x1 x2 x3 x4 x5 x6 x7 x8 : pyobj) (r c : float) :
  (exists sel, select_bin x1 x2 x3 x4 x5 x6 x7 x8 r c = Ok sel /\
               Forall (fun x => is_ndarray x = true) [x1; x2; x3; x4; x5; x6; x7; x8]) \/
  select_bin x1 x2 x3 x4 x5 x6 x7 x8 r c = Err TypeError \/
  select_bin x1 x2 x3 x4 x5 x6 x7 x8 r c = Err IndexError.
Proof.
  unfold select_bin.
  destruct x4; cbn [as_ndarray bind]; auto.
  destruct x8; cbn [as_ndarray bind]; auto.
  destruct x1; cbn [as_ndarray bind]; auto.
  match goal with |- context [bool_index ?a ?m] =>
    destruct (bool_index_cases a m) as [-> | ->]; cbn [bind]; auto end.
  destruct x2; cbn [as_ndarray bind]; auto.
  match goal with |- context [bool_index ?a ?m] =>
    destruct (bool_index_cases a m) as [-> | ->]; cbn [bind]; auto end.
  destruct x3; cbn [as_ndarray bind]; auto.
  match goal with |- context [bool_index ?a ?m] =>
    destruct (bool_index_cases a m) as [-> | ->]; cbn [bind]; auto end.
  destruct x5; cbn [as_ndarray bind]; auto.
  match goal with |- context [bool_index ?a ?m] =>
    destruct (bool_index_cases a m) as [-> | ->]; cbn [bind]; auto end.
  destruct x6; cbn [as_ndarray bind]; auto.
  match goal with |- context [bool_index ?a ?m] =>
    destruct (bool_index_cases a m) as [-> | ->]; cbn [bind]; auto end.
  destruct x7; cbn [as_ndarray bind]; auto.
  match goal with |- context [bool_index ?a ?m] =>
    destruct (bool_index_cases a m) as [-> | ->]; cbn [bind]; auto end.
  left. eexists. split; [reflexivity|]. repeat constructor.
Qed.

Lemma convert_unconvertible (o : pyobj) :
  unconvertible o -> _convert_to_numpy_array o = PyNone.
Proof. intros [H1 H2]. destruct o; simpl in *; congruence. Qed.

Lemma convert_none_if_unconvertible (o : pyobj) :
  _convert_to_numpy_array (none_if_unconvertible o) = _convert_to_numpy_array o.
Proof. destruct o; reflexivity. Qed.

Section Orchestration.

Variable max_alloc : N.
Variable np_log10 : float -> float.
Variable np_percentile : list float -> float -> result float.
Variable raw : nat -> nat -> Z.


(** C9: with fewer than two bin centers the radius computation reads
    [wind_direction_bins[1]], which does not exist: the call ends in an
    [IndexError], whatever the other arguments are, before any bin is
    looked at. *)
Theorem fewer_than_two_bins_index_error
    (reference_power_baseline test_power_baseline
     wind_speed_array_baseline wind_direction_array_baseline
     reference_power_controlled test_power_controlled
     wind_speed_array_controlled wind_direction_array_controlled : pyobj)
    (wind_direction_bins : list float)
    (confidence : float) (n_boostrap0 : option Z)
    (wind_direction_bin_p_overlap : option float) (rng : nat) :
  (length wind_direction_bins < 2)%nat ->
  bin_radius wind_direction_bins wind_direction_bin_p_overlap = Err IndexError /\
  calculate_balanced_energy_ratio max_alloc np_log10 np_percentile raw
      reference_power_baseline test_power_baseline
      wind_speed_array_baseline wind_direction_array_baseline
      reference_power_controlled test_power_controlled
      wind_speed_array_controlled wind_direction_array_controlled
      wind_direction_bins confidence n_boostrap0 wind_direction_bin_p_overlap rng
  = Err IndexError.
Proof.
  intros Hlen. unfold calculate_balanced_energy_ratio.
  assert (bin_radius wind_direction_bins wind_direction_bin_p_overlap
          = Err IndexError) as ->; [|by split].
  destruct wind_direction_bins as [|b0 [|b1 rest]];
    [reflexivity | reflexivity | simpl in Hlen; lia].
Qed.

(** C10: an input that is neither an ndarray nor an object with
    [.values] (a plain list of floats, say) is turned into [None] by
    [_convert_to_numpy_array]; [calculate_balanced_energy_ratio] then runs
    as if [None] had been passed in its place, never reads the input as a
    sequence of floats and never returns a report: the call ends in the
    [IndexError] or [TypeError] of whichever operation fails first. *)
Theorem unconvertible_input_becomes_none
    (a1 a2 a3 a4 a5 a6 a7 a8 : pyobj) (o : pyobj)
    (wind_direction_bins : list float)
    (confidence : float) (n_boostrap0 : option Z)
    (wind_direction_bin_p_overlap : option float) (rng : nat) :
  unconvertible o ->
  o ∈ [a1; a2; a3; a4; a5; a6; a7; a8] ->
  _convert_to_numpy_array o = PyNone /\
  calculate_balanced_energy_ratio max_alloc np_log10 np_percentile raw
      a1 a2 a3 a4 a5 a6 a7 a8
      wind_direction_bins confidence n_boostrap0 wind_direction_bin_p_overlap rng
  = calculate_balanced_energy_ratio max_alloc np_log10 np_percentile raw
      (none_if_unconvertible a1) (none_if_unconvertible a2)
      (none_if_unconvertible a3) (none_if_unconvertible a4)
      (none_if_unconvertible a5) (none_if_unconvertible a6)
      (none_if_unconvertible a7) (none_if_unconvertible a8)
      wind_direction_bins confidence n_boostrap0 wind_direction_bin_p_overlap rng /\
  exists e,
    calculate_balanced_energy_ratio max_alloc np_log10 np_percentile raw
      a1 a2 a3 a4 a5 a6 a7 a8
      wind_direction_bins confidence n_boostrap0 wind_direction_bin_p_overlap rng
    = Err e /\ (e = IndexError \/ e = TypeError).
Proof.
  intros Hun Hin. split; [by apply convert_unconvertible|]. split.
  { unfold calculate_balanced_energy_ratio.
    by rewrite !convert_none_if_unconvertible. }
  unfold calculate_balanced_energy_ratio.
  destruct wind_direction_bins as [|b0 [|b1 rest]].
  1,2: exists IndexError; destruct wind_direction_bin_p_overlap; cbn; auto.
  assert (exists r, bin_radius (b0 :: b1 :: rest) wind_direction_bin_p_overlap = Ok r)
    as [r ->] by (destruct wind_direction_bin_p_overlap; cbn; eauto).
  cbn [bind]. unfold run_bins, enumerate. cbn [length seq combine foldM].
  unfold process_bin at 1.
  destruct (select_bin_cases
              (_convert_to_numpy_array a1) (_convert_to_numpy_array a2)
              (_convert_to_numpy_array a3) (_convert_to_numpy_array a4)
              (_convert_to_numpy_array a5) (_convert_to_numpy_array a6)
              (_convert_to_numpy_array a7) (_convert_to_numpy_array a8) r b0)
    as [(sel & _ & Hall)|[->| ->]]; [|cbn; eauto..].
  exfalso. rewrite Forall_forall in Hall.
  assert (is_ndarray (_convert_to_numpy_array o) = true) as Hnd.
  { apply Hall. elem_cases Hin; apply list_elem_of_In; simpl; tauto. }
  rewrite (convert_unconvertible o Hun) in Hnd. discriminate.
Qed.

End Orchestration.


(** In the bin of center 272 and radius 1 of this input, the baseline sample
    of direction 273 is left out (the interval is open above) and the
    controlled sample of direction 271 is kept (it is closed below). *)
Example direction_binning_rows :
  rows_where (in_interval 272 1) [270; 273]%float [100; 100]%float = [] /\
  rows_where (in_interval 272 1) [271]%float [55]%float = [55]%float /\
  rows_where (in_interval 270 1) [270; 273]%float [8; 9]%float = [8]%float.
Proof. repeat split; vm_compute; reflexivity. Qed.

Lemma fewer_than_two_bins_index_error_witness :
  bin_radius [270]%float None = Err IndexError /\
  calculate_balanced_energy_ratio Ref.max_alloc Ref.np_log10 Ref.np_percentile Ref.raw
      (PyNdarray (repeat 100%float 10)) (PyNdarray (repeat 50%float 10))
      (PyNdarray (repeat 8%float 10)) (PyNdarray (repeat 270%float 10))
      (PyNdarray (repeat 100%float 10)) (PyNdarray (repeat 55%float 10))
      (PyNdarray (repeat 8%float 10)) (PyNdarray (repeat 270%float 10))
      [270]%float 95%float None None 0%nat
  = Err IndexError.
Proof.
  apply fewer_than_two_bins_index_error. simpl. lia.
Defined.

Lemma unconvertible_input_becomes_none_witness :
  let o := PyList [270; 270]%float in
  _convert_to_numpy_array o = PyNone /\
  calculate_balanced_energy_ratio Ref.max_alloc Ref.np_log10 Ref.np_percentile Ref.raw
      (PyNdarray [100; 100]%float) (PyNdarray [50; 50]%float)
      (PyNdarray [8; 8]%float) o
      (PyNdarray [100; 100]%float) (PyNdarray [55; 55]%float)
      (PyNdarray [8; 8]%float) (PyNdarray [270; 270]%float)
      [270; 272]%float 95%float None None 0%nat
  = calculate_balanced_energy_ratio Ref.max_alloc Ref.np_log10 Ref.np_percentile Ref.raw
      (none_if_unconvertible (PyNdarray [100; 100]%float))
      (none_if_unconvertible (PyNdarray [50; 50]%float))
      (none_if_unconvertible (PyNdarray [8; 8]%float))
      (none_if_unconvertible o)
      (none_if_unconvertible (PyNdarray [100; 100]%float))
      (none_if_unconvertible (PyNdarray [55; 55]%float))
      (none_if_unconvertible (PyNdarray [8; 8]%float))
      (none_if_unconvertible (PyNdarray [270; 270]%float))
      [270; 272]%float 95%float None None 0%nat /\
  exists e,
    calculate_balanced_energy_ratio Ref.max_alloc Ref.np_log10 Ref.np_percentile Ref.raw
      (PyNdarray [100; 100]%float) (PyNdarray [50; 50]%float)
      (PyNdarray [8; 8]%float) o
      (PyNdarray [100; 100]%float) (PyNdarray [55; 55]%float)
      (PyNdarray [8; 8]%float) (PyNdarray [270; 270]%float)
      [270; 272]%float 95%float None None 0%nat
    = Err e /\ (e = IndexError \/ e = TypeError).
Proof.
  apply unconvertible_input_becomes_none.
  - split; reflexivity.
  - do 3 right. left.
Defined.

(** ** The loop over the bins *)

Lemma repeat_replicate {A : Type} (x : A) (n : nat) : repeat x n = replicate n x.
Proof. induction n as [|n IH]; simpl; [reflexivity | by rewrite IH]. Qed.

Lemma select_nil {A : Type} (a : list A) (mask : list bool) :
  (forall j, mask !! j <> Some true) -> select a mask = [].
Proof.
  intros H. destruct (select a mask) as [|x l] eqn:E; [reflexivity|].
  assert (x ∈ select a mask) as Hx by (rewrite E; left).
  apply select_elem_of in Hx as (j & _ & Hj). by apply H in Hj.
Qed.

Section BinLoopFacts.

Variable max_alloc : N.
Variable np_log10 : float -> float.
Variable np_percentile : list float -> float -> result float.
Variable raw : nat -> nat -> Z.
Variables x1 x2 x3 x4 x5 x6 x7 x8 : pyobj.
Variable r confidence : float.

Local Abbreviation P := (process_bin max_alloc np_log10 np_percentile raw
                                    x1 x2 x3 x4 x5 x6 x7 x8 r confidence).
Local Abbreviation select_at := (select_bin x1 x2 x3 x4 x5 x6 x7 x8 r).

(** A skipped bin leaves the whole loop state as it is: nothing is
    computed, drawn or raised. *)
Lemma process_bin_skip (i : nat) (c : float) (sel : bin_subset) (st : loop_state) :
  select_at c = Ok sel -> skipped sel = true -> P (i, c) st = Ok st.
Proof.
  intros Hsel Hsk. unfold process_bin. rewrite Hsel. cbn [bind]. by rewrite Hsk.
Qed.

Lemma process_bin_selected (i : nat) (c : float) (sel : bin_subset) (st : loop_state) :
  select_at c = Ok sel -> skipped sel = false ->
  P (i, c) st = process_selected max_alloc np_log10 np_percentile raw confidence i sel st.
Proof.
  intros Hsel Hsk. unfold process_bin. rewrite Hsel. cbn [bind]. by rewrite Hsk.
Qed.

Lemma run_skipped (l : list (nat * float)) (st : loop_state) :
  (forall b, b ∈ l -> exists sel, select_at b.2 = Ok sel /\ skipped sel = true) ->
  foldM P l st = Ok st.
Proof.
  induction l as [|[i c] l IH]; intros H; [reflexivity|].
  cbn [foldM]. destruct (H (i, c)) as (sel & Hsel & Hsk); [left|].
  rewrite (process_bin_skip i c sel st Hsel Hsk). cbn [bind].
  apply IH. intros b Hb. apply H. by right.
Qed.

Lemma bootstrap_iteration_calls
    (a1 a2 : list float) (a3 : list Z) (a4 a5 : list float) (a6 : list Z)
    (i_bs : nat) (s s' : bs_arrays * nat) :
  bootstrap_iteration max_alloc raw a1 a2 a3 a4 a5 a6 i_bs s = Ok s' ->
  s'.2 = S (S s.2).
Proof.
  destruct s as [bs calls]. unfold bootstrap_iteration. intros H.
  do 7 bind_inv H. apply Ok_inj in H. by subst s'.
Qed.

Lemma bootstrap_loop_calls
    (a1 a2 : list float) (a3 : list Z) (a4 a5 : list float) (a6 : list Z)
    (l : list nat) (s s' : bs_arrays * nat) :
  foldM (bootstrap_iteration max_alloc raw a1 a2 a3 a4 a5 a6) l s = Ok s' ->
  s'.2 = (s.2 + 2 * length l)%nat.
Proof.
  revert s. induction l as [|i l IH]; intros s H; cbn [foldM] in H.
  - apply Ok_inj in H. subst s'. simpl. lia.
  - bind_inv H. apply bootstrap_iteration_calls in E. apply IH in H.
    rewrite H, E. simpl. lia.
Qed.

(** Every pass of the bootstrap loop makes two [randint] calls: [n]
    iterations move the generator by [2 n] calls. *)
Lemma bootstrap_calls
    (n : Z) (a1 a2 : list float) (a3 : list Z) (a4 a5 : list float) (a6 : list Z)
    (calls : nat) (s' : bs_arrays * nat) :
  bootstrap max_alloc raw n a1 a2 a3 a4 a5 a6 calls = Ok s' ->
  s'.2 = (calls + 2 * Z.to_nat n)%nat.
Proof.
  unfold bootstrap. intros H. do 4 bind_inv H.
  apply bootstrap_loop_calls in H. by rewrite H, length_seq.
Qed.

(** What a bin that is not skipped does to the loop state. *)
Lemma process_selected_inv (i : nat) (sel : bin_subset) (st st' : loop_state) :
  process_selected max_alloc np_log10 np_percentile raw confidence i sel st = Ok st' ->
  exists er n b_base b_con b_diff b_p,
    match n_boostrap st with
    | None => _calculate_bootstrap_iterations np_log10
                (Z.of_nat (length (reference_power_baseline_wd sel)))
    | Some n => Ok n
    end = Ok n /\
    st' = LoopState (set_bounds (set_point (arrays st) i er) i b_base b_con b_diff b_p)
                    (Some n) (rng_calls st + 2 * Z.to_nat n).
Proof.
  unfold process_selected. intros H.
  bind_inv H. rename v into er.
  bind_inv H. rename v into n.
  bind_inv H. destruct v as [bs calls].
  apply bootstrap_calls in E1. cbn [snd] in E1. subst calls.
  do 4 bind_inv H. apply Ok_inj in H.
  exists er, n. eauto 10.
Qed.

Lemma process_bin_values (i j : nat) (c : float) (st st' : loop_state) :
  P (j, c) st = Ok st' -> i <> j ->
  values_at i (arrays st') = values_at i (arrays st).
Proof.
  unfold process_bin. intros H Hij. bind_inv H. rename v into sel.
  destruct (skipped sel).
  - apply Ok_inj in H. by subst st'.
  - apply process_selected_inv in H
      as (er & n & b1 & b2 & b3 & b4 & _ & ->).
    unfold values_at, arrays_of, set_bounds, set_point. cbn.
    by rewrite !list_lookup_insert_ne by done.
Qed.



Lemma run_values (i : nat) (l : list (nat * float)) (st st' : loop_state) :
  (forall b, b ∈ l -> b.1 = i ->
             exists sel, select_at b.2 = Ok sel /\ skipped sel = true) ->
  foldM P l st = Ok st' ->
  values_at i (arrays st') = values_at i (arrays st).
Proof.
  revert st. induction l as [|[j c] l IH]; intros st Hsk H; cbn [foldM] in H.
  - apply Ok_inj in H. by subst st'.
  - bind_inv H. rename v into st1.
    assert (values_at i (arrays st1) = values_at i (arrays st)) as <-.
    { destruct (decide (i = j)) as [->|Hij].
      - destruct (Hsk (j, c)) as (sel & Hsel & Hs); [left | reflexivity |].
        rewrite (process_bin_skip j c sel st Hsel Hs) in E.
        apply Ok_inj in E. by subst st1.
      - by eapply process_bin_values. }
    apply IH; [|exact H]. intros b Hb. apply Hsk. by right.
Qed.


End BinLoopFacts.

Lemma enumerate_from_lookup {A : Type} (l : list A) (s j : nat) (c : A) :
  (j, c) ∈ combine (seq s (length l)) l ->
  exists k, j = (s + k)%nat /\ l !! k = Some c.
Proof.
  revert s. induction l as [|x l IH]; intros s H; simpl in H.
  - by apply elem_of_nil in H.
  - apply elem_of_cons in H as [H|H].
    + exists 0%nat. split; [|simpl]; congruence || (injection H; intros; lia).
    + apply IH in H as (k & -> & Hk). exists (S k). split; [lia | exact Hk].
Qed.

Lemma enumerate_lookup {A : Type} (l : list A) (j : nat) (c : A) :
  (j, c) ∈ enumerate l -> l !! j = Some c.
Proof.
  intros H. apply enumerate_from_lookup in H as (k & -> & Hk). exact Hk.
Qed.

Lemma initial_report_values (n i : nat) :
  (i < n)%nat ->
  Forall (fun o => o = Some nan) (values_at i (initial_report n)).
Proof.
  intros Hi.
  assert (nan_array n !! i = Some nan) as H.
  { unfold nan_array. rewrite list_lookup_fmap, repeat_replicate.
    rewrite lookup_replicate_2 by exact Hi. reflexivity. }
  unfold values_at, arrays_of, initial_report. cbn. rewrite H.
  repeat constructor.
Qed.

Section Loop.

Variable max_alloc : N.
Variable np_log10 : float -> float.
Variable np_percentile : list float -> float -> result float.
Variable raw : nat -> nat -> Z.

(** C8: on well-formed arrays and with at least two bin centers (so that
    the radius [r] exists), a bin whose interval holds no baseline
    direction, or no controlled direction, is passed over: its turn in the
    loop leaves the arrays, [n_boostrap] and the random generator as they
    were and raises nothing, and whenever the call returns, all sixteen
    arrays hold NaN at that bin's index. *)
Theorem empty_bin_stays_nan
    (rpb tpb wsb wdb rpc tpc wsc wdc : list float)
    (wind_direction_bins : list float)
    (confidence : float) (n_boostrap0 : option Z)
    (wind_direction_bin_p_overlap : option float) (rng : nat)
    (i : nat) (c r : float) :
  length rpb = length wdb -> length tpb = length wdb -> length wsb = length wdb ->
  length rpc = length wdc -> length tpc = length wdc -> length wsc = length wdc ->
  bin_radius wind_direction_bins wind_direction_bin_p_overlap = Ok r ->
  wind_direction_bins !! i = Some c ->
  (forall d, d ∈ wdb -> ~ in_interval c r d) \/
  (forall d, d ∈ wdc -> ~ in_interval c r d) ->
  (forall st : loop_state,
      process_bin max_alloc np_log10 np_percentile raw
                  (PyNdarray rpb) (PyNdarray tpb) (PyNdarray wsb) (PyNdarray wdb)
                  (PyNdarray rpc) (PyNdarray tpc) (PyNdarray wsc) (PyNdarray wdc)
                  r confidence (i, c) st = Ok st) /\
  (forall (rep : report) (rng' : nat),
      calculate_balanced_energy_ratio max_alloc np_log10 np_percentile raw
          (PyNdarray rpb) (PyNdarray tpb) (PyNdarray wsb) (PyNdarray wdb)
          (PyNdarray rpc) (PyNdarray tpc) (PyNdarray wsc) (PyNdarray wdc)
          wind_direction_bins confidence n_boostrap0
          wind_direction_bin_p_overlap rng = Ok (rep, rng') ->
      Forall (fun a : list float => a !! i = Some nan) (arrays_of rep)).
Proof.
  intros L1 L2 L3 L4 L5 L6 Hr Hi Hempty.
  pose proof (select_bin_eq rpb tpb wsb wdb rpc tpc wsc wdc L1 L2 L3 L4 L5 L6 r c)
    as Hsel.
  assert (skipped (BinSubset (select rpb (wind_dir_mask c r wdb))
                             (select tpb (wind_dir_mask c r wdb))
                             (select wsb (wind_dir_mask c r wdb))
                             (select rpc (wind_dir_mask c r wdc))
                             (select tpc (wind_dir_mask c r wdc))
                             (select wsc (wind_dir_mask c r wdc))) = true) as Hsk.
  { unfold skipped. cbn. apply orb_true_iff.
    destruct Hempty as [He|He]; [left | right].
    all: rewrite select_nil; [reflexivity|].
    all: intros j Hj; apply wind_dir_mask_lookup in Hj as (d & Hd & Hin).
    all: apply (He d); [|exact Hin]; by eapply list_elem_of_lookup_2. }
  split.
  - intros st. by eapply process_bin_skip.
  - intros rep rng' H. unfold calculate_balanced_energy_ratio in H.
    cbn [_convert_to_numpy_array] in H. rewrite Hr in H. cbn [bind] in H.
    bind_inv H. rename v into st. apply Ok_inj in H.
    assert (rep = arrays st) as -> by congruence.
    unfold run_bins in E.
    eapply run_values with (i := i) in E.
    + cbn [arrays] in E.
      assert (Forall (fun o => o = Some nan) (values_at i (arrays st))) as HF.
      { rewrite E. apply initial_report_values. by eapply lookup_lt_Some. }
      unfold values_at in HF. apply Forall_fmap in HF. exact HF.
    + intros [j c'] Hb Hj. cbn in Hj. subst j.
      apply enumerate_lookup in Hb. rewrite Hi in Hb.
      assert (c' = c) as -> by congruence. cbn. eauto.
Qed.


End Loop.

(** ** Resampling constant data *)

Lemma np_take_repeat {A : Type} (c : A) (n : nat) (idx : list Z) :
  (forall i, i ∈ idx -> 0 <= i < Z.of_nat n)%Z ->
  np_take (repeat c n) idx = Ok (repeat c (length idx)).
Proof.
  intros Hr. unfold np_take.
  rewrite (mapM_Ok _ (fun _ => c)).
  - f_equal. clear Hr. induction idx as [|i idx IH]; simpl; [reflexivity|].
    by rewrite IH.
  - intros i Hi. rewrite repeat_length. rewrite py_index_nonneg by auto.
    cbn [bind]. rewrite repeat_replicate, lookup_replicate_2; [reflexivity|].
    specialize (Hr i Hi). lia.
Qed.

Lemma fill_step {A : Type} (v : A) (s k : nat) (l : list A) :
  length l = (s + S k)%nat ->
  take (S s) (<[s := v]> l) ++ repeat v k = take s l ++ repeat v (S k).
Proof.
  intros Hl.
  rewrite (take_S_r _ s v) by (apply list_lookup_insert_eq; lia).
  rewrite take_insert_ge by lia. rewrite <- app_assoc. reflexivity.
Qed.

Section ConstantData.

Variable max_alloc : N.
Variable raw : nat -> nat -> Z.

Lemma randint_length (calls high size : nat) :
  length (randint raw calls high size) = size.
Proof. unfold randint. by rewrite length_map, length_seq. Qed.

Lemma randint_range (calls high size : nat) (i : Z) :
  (0 < high)%nat -> i ∈ randint raw calls high size ->
  (0 <= i < Z.of_nat high)%Z.
Proof.
  intros Hh Hi. unfold randint in Hi.
  apply list_elem_of_fmap in Hi as (j & -> & _).
  apply Z.mod_pos_bound. lia.
Qed.

Variables c1 c2 c4 c5 : float.
Variables k3 k6 : Z.
Variables nb nc : nat.
Variable er : er_out.

Hypothesis nb_pos : (0 < nb)%nat.
Hypothesis nc_pos : (0 < nc)%nat.
Hypothesis constant_ratio :
  energy_ratio max_alloc (repeat c1 nb) (repeat c2 nb) (repeat k3 nb)
               (repeat c4 nc) (repeat c5 nc) (repeat k6 nc) = Ok er.

Local Abbreviation step :=
  (bootstrap_iteration max_alloc raw (repeat c1 nb) (repeat c2 nb) (repeat k3 nb)
                           (repeat c4 nc) (repeat c5 nc) (repeat k6 nc)).

(** Resampling rows that are all alike gives the same rows back, whatever
    is drawn: every pass records the statistics of the data itself. *)
Lemma bootstrap_iteration_constant (i_bs : nat) (bs : bs_arrays) (calls : nat) :
  step i_bs (bs, calls)
  = Ok (BsArrays (<[i_bs := er_ratio_base er]> (ratio_base_bs bs))
                 (<[i_bs := er_ratio_con er]> (ratio_con_bs bs))
                 (<[i_bs := er_ratio_diff er]> (diff_bs bs))
                 (<[i_bs := er_p_change er]> (p_change_bs bs)),
        S (S calls)).
Proof using All.
  unfold bootstrap_iteration. rewrite !repeat_length.
  rewrite !np_take_repeat by (intros i Hi; by eapply randint_range).
  cbn [bind]. rewrite !randint_length, constant_ratio. reflexivity.
Qed.

Lemma bootstrap_loop_constant (k s : nat) (l1 l2 l3 l4 : list float) (calls : nat) :
  length l1 = (s + k)%nat -> length l2 = (s + k)%nat ->
  length l3 = (s + k)%nat -> length l4 = (s + k)%nat ->
  foldM step (seq s k) (BsArrays l1 l2 l3 l4, calls)
  = Ok (BsArrays (take s l1 ++ repeat (er_ratio_base er) k)
                 (take s l2 ++ repeat (er_ratio_con er) k)
                 (take s l3 ++ repeat (er_ratio_diff er) k)
                 (take s l4 ++ repeat (er_p_change er) k),
        (calls + 2 * k)%nat).
Proof using All.
  revert s l1 l2 l3 l4 calls.
  induction k as [|k IH]; intros s l1 l2 l3 l4 calls H1 H2 H3 H4.
  - cbn [seq foldM repeat]. rewrite !app_nil_r, !firstn_all2 by lia.
    do 2 f_equal. lia.
  - cbn [seq foldM]. rewrite bootstrap_iteration_constant. cbn [bind].
    cbn [ratio_base_bs ratio_con_bs diff_bs p_change_bs].
    rewrite IH by (rewrite length_insert; lia).
    rewrite !fill_step by assumption.
    do 2 f_equal. lia.
Qed.

Lemma bootstrap_constant (n : Z) (calls : nat) :
  allocatable max_alloc n ->
  bootstrap max_alloc raw n (repeat c1 nb) (repeat c2 nb) (repeat k3 nb)
            (repeat c4 nc) (repeat c5 nc) (repeat k6 nc) calls
  = Ok (BsArrays (repeat (er_ratio_base er) (Z.to_nat n))
                 (repeat (er_ratio_con er) (Z.to_nat n))
                 (repeat (er_ratio_diff er) (Z.to_nat n))
                 (repeat (er_p_change er) (Z.to_nat n)),
        (calls + 2 * Z.to_nat n)%nat).
Proof using All.
  intros Hn. unfold bootstrap.
  rewrite (np_zeros_allocatable _ _ Hn). cbn [bind].
  destruct Hn as [Hn _].
  rewrite bootstrap_loop_constant by (rewrite repeat_length; lia).
  reflexivity.
Qed.

End ConstantData.

(** ** The end-to-end example *)

(** In binary64 the difference [0.55 - 0.5] is not the double nearest to
    0.05, and the percent change is not 10. *)
Lemma example_diff_not_exact :
  (0.55 - 0.5)%float = 0.050000000000000044%float /\
  (0.55 - 0.5)%float <> 0.05%float /\
  (100 * (0.55 - 0.5) / 0.5)%float <> 10%float.
Proof.
  split; [vm_compute; reflexivity|].
  split; apply float_neq; vm_compute; discriminate.
Qed.

Section Example.

Variable max_alloc : N.
Variable np_log10 : float -> float.
Variable np_percentile : list float -> float -> result float.
Variable raw : nat -> nat -> Z.

Hypothesis room : (2000 <= max_alloc)%N.
Hypothesis log10_10 : np_log10 10%float = 1%float.
Hypothesis percentile_constant :
  forall v q : float,
    v ∈ [0.5; 0.55; 0.050000000000000044; 10.000000000000009]%float ->
    q ∈ _get_confidence_bounds 95 ->
    np_percentile (repeat v 2000) q = Ok v.

Lemma example_ratio :
  energy_ratio max_alloc (repeat 100%float 10) (repeat 50%float 10) (repeat 8%Z 10)
               (repeat 100%float 10) (repeat 55%float 10) (repeat 8%Z 10)
  = Ok (ErOut 0.5 0.55 0.050000000000000044 10.000000000000009
              (PyInt 10) (PyInt 10) (PyInt 10) (PyInt 10)).
Proof using room.
  rewrite energy_ratio_eq; try reflexivity.
  - vm_compute. discriminate.
  - intros k Hk _. elem_cases Hk.
    all: unfold allocatable; change int64_max with 9223372036854775807%Z; lia.
Qed.

Lemma example_bounds (v : float) (central_estimate : option float) :
  v ∈ [0.5; 0.55; 0.050000000000000044; 10.000000000000009]%float ->
  _calculate_lower_and_upper_bound np_percentile (repeat v 2000)
      (_get_confidence_bounds 95) central_estimate simple_percentile
  = Ok (v, v).
Proof using percentile_constant.
  intros Hv. unfold _calculate_lower_and_upper_bound.
  assert (forall q, q ∈ _get_confidence_bounds 95 ->
                    np_percentile (repeat v 2000) q = Ok v) as Hq by auto.
  unfold _get_confidence_bounds in *. cbn [mapM].
  rewrite !Hq by (rewrite !elem_of_cons; auto). reflexivity.
Qed.

Lemma example_iterations :
  _calculate_bootstrap_iterations np_log10 10 = Ok 2000%Z.
Proof using log10_10.
  unfold _calculate_bootstrap_iterations.
  replace (float_of_Z 10) with 10%float by (vm_compute; reflexivity).
  rewrite log10_10. vm_compute. reflexivity.
Qed.

(** C2 (as amended): the ten baseline samples (reference power 100, test
    power 50, wind speed 8, direction 270), the ten controlled samples
    (the same with test power 55), confidence 95 and the two bin centers
    [270, 272], the second being needed for the radius.  At index 0 the
    call returns [ratio_base = 0.5], [ratio_con = 0.55],
    [diff = 0.55 - 0.5] (0.050000000000000044 in binary64),
    [pct_change = 100 * diff / 0.5] (10.000000000000009), all four counts
    10, and lower and upper bounds equal to the point estimates; the
    second bin is empty and stays NaN; 2000 bootstrap iterations are
    drawn.  The base-10 logarithm is assumed exact at 10, the percentile of
    2000 copies of one of these values is assumed to be that value, and the
    machine is assumed to grant arrays of 2000 cells. *)
Theorem end_to_end_example (rng : nat) :
  calculate_balanced_energy_ratio max_alloc np_log10 np_percentile raw
      (PyNdarray (repeat 100%float 10)) (PyNdarray (repeat 50%float 10))
      (PyNdarray (repeat 8%float 10)) (PyNdarray (repeat 270%float 10))
      (PyNdarray (repeat 100%float 10)) (PyNdarray (repeat 55%float 10))
      (PyNdarray (repeat 8%float 10)) (PyNdarray (repeat 270%float 10))
      [270; 272]%float 95%float None None rng
  = Ok (Report [0.5; nan]%float [0.5; nan]%float [0.5; nan]%float [10; nan]%float
               [0.55; nan]%float [0.55; nan]%float [0.55; nan]%float [10; nan]%float
               [0.050000000000000044; nan]%float [0.050000000000000044; nan]%float
               [0.050000000000000044; nan]%float [10; nan]%float
               [10.000000000000009; nan]%float [10.000000000000009; nan]%float
               [10.000000000000009; nan]%float [10; nan]%float,
        (rng + 4000)%nat).
Proof using All.
  unfold calculate_balanced_energy_ratio. cbn [_convert_to_numpy_array].
  replace (bin_radius [270; 272]%float None) with (Ok 1%float)
    by (vm_compute; reflexivity).
  cbn [bind]. unfold run_bins, enumerate. cbn [length seq combine foldM].
  rewrite (process_bin_selected _ _ _ _ _ _ _ _ _ _ _ _ _ _ 0%nat 270%float
             (BinSubset (repeat 100%float 10) (repeat 50%float 10) (repeat 8%float 10)
                        (repeat 100%float 10) (repeat 55%float 10) (repeat 8%float 10)))
    by (vm_compute; reflexivity).
  unfold process_selected.
  cbn [reference_power_baseline_wd test_power_baseline_wd
       wind_speed_array_baseline_wd reference_power_controlled_wd
       test_power_controlled_wd wind_speed_array_controlled_wd
       n_boostrap rng_calls arrays].
  replace (map astype_int (repeat 8%float 10)) with (repeat 8%Z 10)
    by (vm_compute; reflexivity).
  rewrite example_ratio. cbn [bind].
  replace (Z.of_nat (length (repeat 100%float 10))) with 10%Z by reflexivity.
  rewrite example_iterations. cbn [bind].
  assert (allocatable max_alloc 2000) as Hroom
    by (unfold allocatable; change int64_max with 9223372036854775807%Z; lia).
  rewrite (bootstrap_constant max_alloc raw _ _ _ _ _ _ 10 10 _ ltac:(lia) ltac:(lia)
             example_ratio 2000 rng Hroom).
  cbn [bind ratio_base_bs ratio_con_bs diff_bs p_change_bs
       er_ratio_base er_ratio_con er_ratio_diff er_p_change].
  change (Z.to_nat 2000) with 2000%nat.
  rewrite !example_bounds by (rewrite !elem_of_cons; auto).
  cbn [bind].
  rewrite (process_bin_skip _ _ _ _ _ _ _ _ _ _ _ _ _ _ 1%nat 272%float
             (BinSubset [] [] [] [] [] []))
    by (vm_compute; reflexivity).
  cbn [bind arrays rng_calls]. reflexivity.
Qed.

End Example.

Lemma end_to_end_example_witness :
  calculate_balanced_energy_ratio Ref.max_alloc Ref.np_log10 Ref.np_percentile Ref.raw
      (PyNdarray (repeat 100%float 10)) (PyNdarray (repeat 50%float 10))
      (PyNdarray (repeat 8%float 10)) (PyNdarray (repeat 270%float 10))
      (PyNdarray (repeat 100%float 10)) (PyNdarray (repeat 55%float 10))
      (PyNdarray (repeat 8%float 10)) (PyNdarray (repeat 270%float 10))
      [270; 272]%float 95%float None None 0%nat
  = Ok (Report [0.5; nan]%float [0.5; nan]%float [0.5; nan]%float [10; nan]%float
               [0.55; nan]%float [0.55; nan]%float [0.55; nan]%float [10; nan]%float
               [0.050000000000000044; nan]%float [0.050000000000000044; nan]%float
               [0.050000000000000044; nan]%float [10; nan]%float
               [10.000000000000009; nan]%float [10.000000000000009; nan]%float
               [10.000000000000009; nan]%float [10; nan]%float,
        (0 + 4000)%nat).
Proof.
  apply (end_to_end_example Ref.max_alloc Ref.np_log10 Ref.np_percentile Ref.raw).
  - vm_compute. discriminate.
  - vm_compute. reflexivity.
  - intros v q Hv Hq. unfold _get_confidence_bounds in Hq.
    elem_cases Hv; elem_cases Hq; vm_compute; reflexivity.
Defined.

(** The example as the specification words it, with the single bin center
    270: the radius computation reads a second center and the call ends in
    an [IndexError], so none of the expected values is returned. *)
Lemma end_to_end_single_bin_raises :
  calculate_balanced_energy_ratio Ref.max_alloc Ref.np_log10 Ref.np_percentile Ref.raw
      (PyNdarray (repeat 100%float 10)) (PyNdarray (repeat 50%float 10))
      (PyNdarray (repeat 8%float 10)) (PyNdarray (repeat 270%float 10))
      (PyNdarray (repeat 100%float 10)) (PyNdarray (repeat 55%float 10))
      (PyNdarray (repeat 8%float 10)) (PyNdarray (repeat 270%float 10))
      [270]%float 95%float None None 0%nat
  = Err IndexError.
Proof. vm_compute. reflexivity. Qed.

Lemma empty_bin_stays_nan_witness :
  (forall st : loop_state,
      process_bin Ref.max_alloc Ref.np_log10 Ref.np_percentile Ref.raw
                  (PyNdarray [100; 100; 100]%float) (PyNdarray [50; 50; 40]%float)
                  (PyNdarray [8.2; 8.9; 9.5]%float) (PyNdarray [270; 271; 269]%float)
                  (PyNdarray [100; 100]%float) (PyNdarray [55; 44]%float)
                  (PyNdarray [8.5; 9.1]%float) (PyNdarray [270; 270.5]%float)
                  1 95 (2%nat, 400%float) st = Ok st) /\
  (forall (rep : report) (rng' : nat),
      calculate_balanced_energy_ratio Ref.max_alloc Ref.np_log10 Ref.np_percentile Ref.raw
          (PyNdarray [100; 100; 100]%float) (PyNdarray [50; 50; 40]%float)
          (PyNdarray [8.2; 8.9; 9.5]%float) (PyNdarray [270; 271; 269]%float)
          (PyNdarray [100; 100]%float) (PyNdarray [55; 44]%float)
          (PyNdarray [8.5; 9.1]%float) (PyNdarray [270; 270.5]%float)
          [270; 272; 400]%float 95%float (Some 5%Z) None 0%nat = Ok (rep, rng') ->
      Forall (fun a : list float => a !! 2%nat = Some nan) (arrays_of rep)).
Proof.
  apply (empty_bin_stays_nan Ref.max_alloc Ref.np_log10 Ref.np_percentile Ref.raw);
    try reflexivity.
  left. intros d Hd [H1 H2]. elem_cases Hd; vm_compute in H2; discriminate.
Defined.

(** The same call does return: the far bin is NaN in all sixteen arrays,
    the second bin is empty as well, and only the first carries values. *)
Example empty_bin_run :
  exists rep,
    calculate_balanced_energy_ratio Ref.max_alloc Ref.np_log10 Ref.np_percentile Ref.raw
        (PyNdarray [100; 100; 100]%float) (PyNdarray [50; 50; 40]%float)
        (PyNdarray [8.2; 8.9; 9.5]%float) (PyNdarray [270; 271; 269]%float)
        (PyNdarray [100; 100]%float) (PyNdarray [55; 44]%float)
        (PyNdarray [8.5; 9.1]%float) (PyNdarray [270; 270.5]%float)
        [270; 272; 400]%float 95%float (Some 5%Z) None 0%nat = Ok (rep, 10%nat) /\
    ratio_array_base rep = [0.45; nan; nan]%float /\
    counts_ratio_array_base rep = [2; nan; nan]%float.
Proof. eexists. split; [vm_compute; reflexivity|]. split; reflexivity. Qed.


(** * Further properties *)

(** ** The helpers, continued *)

(** X1: with any method other than ['simple_percentile'] the bounds are the
    percentile values reflected about the central estimate,
    [lower = 2 * c - first] and [upper = 2 * c - second]; without a central
    estimate (the default [None]) the call ends in a [TypeError], whatever
    the percentiles are. *)
Theorem reflected_bounds
    (np_percentile : list float -> float -> result float)
    (bootstrap_array : list float) (percentiles : list float) (p1 p2 c : float) :
  _calculate_lower_and_upper_bound np_percentile bootstrap_array
      percentiles None reflected = Err TypeError /\
  _calculate_lower_and_upper_bound np_percentile bootstrap_array
      [p1; p2] (Some c) reflected
  = (let! first := np_percentile bootstrap_array p1 in
     let! second := np_percentile bootstrap_array p2 in
     Ok ((2 * c - first)%float, (2 * c - second)%float)).
Proof.
  split; [reflexivity|].
  unfold _calculate_lower_and_upper_bound. cbn [mapM].
  destruct (np_percentile bootstrap_array p1); cbn [bind]; [|reflexivity].
  destruct (np_percentile bootstrap_array p2); reflexivity.
Qed.

Lemma convert_values_view (o : pyobj) :
  _convert_to_numpy_array (values_view o) = _convert_to_numpy_array o.
Proof. destruct o; reflexivity. Qed.

(** A call returns only if all eight inputs are arrays once converted:
    otherwise the first bin ends it, or the radius before that. *)
Lemma call_needs_arrays
    (max_alloc : N)
    (np_log10 : float -> float)
    (np_percentile : list float -> float -> result float)
    (raw : nat -> nat -> Z)
    (a1 a2 a3 a4 a5 a6 a7 a8 o : pyobj)
    (wind_direction_bins : list float)
    (confidence : float) (n_boostrap0 : option Z)
    (wind_direction_bin_p_overlap : option float) (rng : nat) :
  o ∈ [a1; a2; a3; a4; a5; a6; a7; a8] ->
  is_ndarray (_convert_to_numpy_array o) = false ->
  exists e,
    calculate_balanced_energy_ratio max_alloc np_log10 np_percentile raw
      a1 a2 a3 a4 a5 a6 a7 a8
      wind_direction_bins confidence n_boostrap0 wind_direction_bin_p_overlap rng
    = Err e /\ (e = IndexError \/ e = TypeError).
Proof.
  intros Hin Hno. unfold calculate_balanced_energy_ratio.
  destruct wind_direction_bins as [|b0 [|b1 rest]].
  1,2: exists IndexError; destruct wind_direction_bin_p_overlap; cbn; auto.
  assert (exists r, bin_radius (b0 :: b1 :: rest) wind_direction_bin_p_overlap = Ok r)
    as [r ->] by (destruct wind_direction_bin_p_overlap; cbn; eauto).
  cbn [bind]. unfold run_bins, enumerate. cbn [length seq combine foldM].
  unfold process_bin at 1.
  destruct (select_bin_cases
              (_convert_to_numpy_array a1) (_convert_to_numpy_array a2)
              (_convert_to_numpy_array a3) (_convert_to_numpy_array a4)
              (_convert_to_numpy_array a5) (_convert_to_numpy_array a6)
              (_convert_to_numpy_array a7) (_convert_to_numpy_array a8) r b0)
    as [(sel & _ & Hall)|[->| ->]]; [|cbn; eauto..].
  exfalso. rewrite Forall_forall in Hall.
  assert (is_ndarray (_convert_to_numpy_array o) = true) as Hnd.
  { apply Hall. elem_cases Hin; apply list_elem_of_In; simpl; tauto. }
  congruence.
Qed.

(** X2: a pandas Series and the array of its values are interchangeable in
    every one of the eight array arguments of
    [calculate_balanced_energy_ratio]: the call gives the same result,
    errors included, whichever of the two is passed.  An object whose
    [.values] is not an array is taken all the same: for a dict the
    conversion returns the bound method [dict.values], not [None], and the
    call ends in the [IndexError] or [TypeError] of the first operation that
    fails. *)
Theorem series_as_values
    (max_alloc : N)
    (np_log10 : float -> float)
    (np_percentile : list float -> float -> result float)
    (raw : nat -> nat -> Z)
    (a1 a2 a3 a4 a5 a6 a7 a8 : pyobj)
    (wind_direction_bins : list float)
    (confidence : float) (n_boostrap0 : option Z)
    (wind_direction_bin_p_overlap : option float) (rng : nat) :
  calculate_balanced_energy_ratio max_alloc np_log10 np_percentile raw
      a1 a2 a3 a4 a5 a6 a7 a8
      wind_direction_bins confidence n_boostrap0 wind_direction_bin_p_overlap rng
  = calculate_balanced_energy_ratio max_alloc np_log10 np_percentile raw
      (values_view a1) (values_view a2) (values_view a3) (values_view a4)
      (values_view a5) (values_view a6) (values_view a7) (values_view a8)
      wind_direction_bins confidence n_boostrap0 wind_direction_bin_p_overlap rng /\
  forall d : list (float * float),
    _convert_to_numpy_array (PyDict d) = PyMethod /\
    (PyDict d ∈ [a1; a2; a3; a4; a5; a6; a7; a8] ->
     exists e,
       calculate_balanced_energy_ratio max_alloc np_log10 np_percentile raw
         a1 a2 a3 a4 a5 a6 a7 a8
         wind_direction_bins confidence n_boostrap0 wind_direction_bin_p_overlap rng
       = Err e /\ (e = IndexError \/ e = TypeError)).
Proof.
  split.
  - unfold calculate_balanced_energy_ratio. by rewrite !convert_values_view.
  - intros d. split; [reflexivity|]. intros Hin.
    by apply (call_needs_arrays _ _ _ _ _ _ _ _ _ _ _ _ (PyDict d)).
Qed.

Lemma series_as_values_witness :
  calculate_balanced_energy_ratio Ref.max_alloc Ref.np_log10 Ref.np_percentile Ref.raw
      (PySeries [100; 100]%float) (PyNdarray [50; 50]%float)
      (PySeries [8; 8]%float) (PyNdarray [270; 270]%float)
      (PyDict [(0, 100); (1, 100)]%float) (PyNdarray [55; 55]%float)
      (PyNdarray [8; 8]%float) (PySeries [270; 270]%float)
      [270; 272]%float 95%float None None 0%nat
  = calculate_balanced_energy_ratio Ref.max_alloc Ref.np_log10 Ref.np_percentile Ref.raw
      (PyNdarray [100; 100]%float) (PyNdarray [50; 50]%float)
      (PyNdarray [8; 8]%float) (PyNdarray [270; 270]%float)
      (PyDict [(0, 100); (1, 100)]%float) (PyNdarray [55; 55]%float)
      (PyNdarray [8; 8]%float) (PyNdarray [270; 270]%float)
      [270; 272]%float 95%float None None 0%nat /\
  forall d : list (float * float),
    _convert_to_numpy_array (PyDict d) = PyMethod /\
    (PyDict d ∈ [PySeries [100; 100]%float; PyNdarray [50; 50]%float;
                 PySeries [8; 8]%float; PyNdarray [270; 270]%float;
                 PyDict [(0, 100); (1, 100)]%float; PyNdarray [55; 55]%float;
                 PyNdarray [8; 8]%float; PySeries [270; 270]%float] ->
     exists e,
       calculate_balanced_energy_ratio Ref.max_alloc Ref.np_log10 Ref.np_percentile
         Ref.raw
         (PySeries [100; 100]%float) (PyNdarray [50; 50]%float)
         (PySeries [8; 8]%float) (PyNdarray [270; 270]%float)
         (PyDict [(0, 100); (1, 100)]%float) (PyNdarray [55; 55]%float)
         (PyNdarray [8; 8]%float) (PySeries [270; 270]%float)
         [270; 272]%float 95%float None None 0%nat
       = Err e /\ (e = IndexError \/ e = TypeError)).
Proof.
  apply (series_as_values Ref.max_alloc Ref.np_log10 Ref.np_percentile Ref.raw).
Defined.

(** With Series in place of arrays the end-to-end data give the report of
    the arrays; with a dict as controlled reference power the same call ends
    in [TypeError], at the first subscript of the bound method. *)
Example series_and_dict_calls :
  calculate_balanced_energy_ratio Ref.max_alloc Ref.np_log10 Ref.np_percentile Ref.raw
      (PySeries [100; 100]%float) (PySeries [50; 50]%float)
      (PySeries [8; 8]%float) (PySeries [270; 270]%float)
      (PySeries [100; 100]%float) (PySeries [55; 55]%float)
      (PySeries [8; 8]%float) (PySeries [270; 270]%float)
      [270; 272]%float 95%float (Some 3%Z) None 0%nat
  = Ok (Report [0.5; nan]%float [0.5; nan]%float [0.5; nan]%float [2; nan]%float
               [0.55; nan]%float [0.55; nan]%float [0.55; nan]%float [2; nan]%float
               [0.050000000000000044; nan]%float [0.050000000000000044; nan]%float
               [0.050000000000000044; nan]%float [2; nan]%float
               [10.000000000000009; nan]%float [10.000000000000009; nan]%float
               [10.000000000000009; nan]%float [2; nan]%float,
        6%nat) /\
  calculate_balanced_energy_ratio Ref.max_alloc Ref.np_log10 Ref.np_percentile Ref.raw
      (PySeries [100; 100]%float) (PySeries [50; 50]%float)
      (PySeries [8; 8]%float) (PySeries [270; 270]%float)
      (PyDict [(0, 100); (1, 100)]%float) (PySeries [55; 55]%float)
      (PySeries [8; 8]%float) (PySeries [270; 270]%float)
      [270; 272]%float 95%float (Some 3%Z) None 0%nat
  = Err TypeError.
Proof. split; vm_compute; reflexivity. Qed.

(** *** When the default iteration count exists *)

(** X3: for every size [n] and every base-10 logarithm,
    [_calculate_bootstrap_iterations] raises exactly when [n * log10(n)] is
    NaN, and then a [ValueError] (this is what happens for [n = 0], where
    the product is [0 * -inf]); otherwise it returns a count within
    [2000, 10000]. *)
Theorem bootstrap_iterations_total (np_log10 : float -> float) (n : Z) :
  match _calculate_bootstrap_iterations np_log10 n with
  | Ok k =>
      PrimFloat.is_nan (float_of_Z n * np_log10 (float_of_Z n))%float = false /\
      (2000 <= k <= 10000)%Z
  | Err e =>
      PrimFloat.is_nan (float_of_Z n * np_log10 (float_of_Z n))%float = true /\
      e = ValueError
  end.
Proof.
  unfold _calculate_bootstrap_iterations. rewrite max_min_clamp.
  apply clamped_round_total.
Qed.

(** ** [energy_ratio], continued *)

Lemma energy_ratio_no_common
    (max_alloc : N) (rb tb : list float) (wb : list Z) (rc tc : list float) (wc : list Z) :
  common_buckets wb wc = [] -> energy_ratio max_alloc rb tb wb rc tc wc = Ok er_nan.
Proof. intros H. unfold energy_ratio. by rewrite H. Qed.

Lemma select_isin_length (ws u other : list Z) :
  (forall k, k ∈ ws -> (k ∈ u <-> k ∈ other)) ->
  length (select ws (np_isin ws u)) = length (filter (fun k => k ∈ other) ws).
Proof.
  induction ws as [|x ws IH]; intros H; [reflexivity|].
  cbn [np_isin map select]. rewrite filter_cons.
  assert (length (select ws (np_isin ws u))
          = length (filter (fun k => k ∈ other) ws)) as IH'.
  { apply IH. intros k Hk. apply H. by right. }
  destruct (mem x u) eqn:E.
  - apply mem_elem_of in E. apply (H x) in E; [|left].
    rewrite decide_True by exact E. cbn [length]. by rewrite <- IH'.
  - rewrite decide_False; [exact IH'|].
    intros Hx. apply (H x) in Hx; [|left]. apply mem_elem_of in Hx. congruence.
Qed.

Lemma select_all {A : Type} (a : list A) (ws u : list Z) :
  (forall k, k ∈ ws -> k ∈ u) -> length a = length ws ->
  select a (np_isin ws u) = a.
Proof.
  revert a. induction ws as [|x ws IH]; intros [|y a] H Hl; try discriminate.
  - reflexivity.
  - cbn [np_isin map select].
    assert (mem x u = true) as -> by (apply mem_elem_of, H; left).
    f_equal. apply IH; [|by injection Hl]. intros k Hk. apply H. by right.
Qed.

Section Ratio.

Variable max_alloc : N.
Variables ref_pow_base0 test_pow_base0 ref_pow_con0 test_pow_con0 : list float.
Variables ws_base0 ws_con0 : list Z.

Hypothesis len_ref_base : length ref_pow_base0 = length ws_base0.
Hypothesis len_test_base : length test_pow_base0 = length ws_base0.
Hypothesis len_ref_con : length ref_pow_con0 = length ws_con0.
Hypothesis len_test_con : length test_pow_con0 = length ws_con0.

Local Abbreviation u := (common_buckets ws_base0 ws_con0).
Local Abbreviation wb := (select ws_base0 (np_isin ws_base0 u)).
Local Abbreviation wc := (select ws_con0 (np_isin ws_con0 u)).

(** With consistent lengths only the look-up table can make the weighting
    fail. *)
Lemma energy_ratio_weights_table :
  u <> [] ->
  energy_ratio_weights max_alloc ref_pow_base0 test_pow_base0 ws_base0
                       ref_pow_con0 test_pow_con0 ws_con0 u
  = (let! top := np_max u in
     let! lut_base := np_zeros max_alloc (int64_succ top) in
     let! lut_base :=
       np_put lut_base u
              (map (fun k => fdiv_counts (count k wc) (count k wb + count k wc)) u) in
     let! weight_array_base := np_take lut_base wb in
     let! lut_con := np_zeros max_alloc (int64_succ top) in
     let! lut_con :=
       np_put lut_con u
              (map (fun k => fdiv_counts (count k wb) (count k wb + count k wc)) u) in
     let! weight_array_con := np_take lut_con wc in
     Ok (ErLocals (select ref_pow_base0 (np_isin ws_base0 u))
                  (select test_pow_base0 (np_isin ws_base0 u)) wb
                  (select ref_pow_con0 (np_isin ws_con0 u))
                  (select test_pow_con0 (np_isin ws_con0 u)) wc
                  weight_array_base weight_array_con)).
Proof using All.
  intros Hne. unfold energy_ratio_weights.
  rewrite !bool_index_ok by (rewrite np_isin_length; congruence).
  cbn [bind]. unfold np_unique_counts.
  assert (np_unique wb = u) as ->.
  { apply np_unique_restricted; [apply common_buckets_sorted|].
    intros x Hx. by apply elem_of_common_buckets in Hx as [? ?]. }
  assert (np_unique wc = u) as ->.
  { apply np_unique_restricted; [apply common_buckets_sorted|].
    intros x Hx. by apply elem_of_common_buckets in Hx as [? ?]. }
  rewrite np_zip_with_map. cbn [bind].
  rewrite !np_zip_with_map. cbn [bind]. reflexivity.
Qed.

Lemma shared_count_base :
  Z.of_nat (length (select ref_pow_base0 (np_isin ws_base0 u)))
  = shared_count ws_base0 ws_con0.
Proof using len_ref_base.
  unfold shared_count. f_equal.
  rewrite (select_same_length _ ws_base0) by exact len_ref_base.
  apply select_isin_length. intros k Hk.
  rewrite elem_of_common_buckets. tauto.
Qed.

Lemma shared_count_con :
  Z.of_nat (length (select ref_pow_con0 (np_isin ws_con0 u)))
  = shared_count ws_con0 ws_base0.
Proof using len_ref_con.
  unfold shared_count. f_equal.
  rewrite (select_same_length _ ws_con0) by exact len_ref_con.
  apply select_isin_length. intros k Hk.
  rewrite elem_of_common_buckets. tauto.
Qed.

End Ratio.

Lemma shared_count_pos (ws other : list Z) (k : Z) :
  k ∈ ws -> k ∈ other -> (0 < shared_count ws other)%Z.
Proof.
  intros H1 H2. unfold shared_count.
  assert (k ∈ filter (fun k => k ∈ other) ws) as Hk
    by (apply list_elem_of_filter; auto).
  destruct (filter (fun k => k ∈ other) ws); [by apply elem_of_nil in Hk|].
  cbn [length]. lia.
Qed.

(** X4: on arrays of consistent length whose common buckets are not empty,
    all non-negative and small enough for the look-up table to be made,
    [energy_ratio] raises nothing; the baseline count is the number of
    baseline samples whose bucket occurs among the controlled ones, and
    symmetrically; both counts are positive; [counts_diff] and
    [counts_pchange] are their minimum; [ratio_diff] is
    [ratio_con - ratio_base] and [p_change] is
    [100 * ratio_diff / ratio_base]. *)
Theorem energy_ratio_returns
    (max_alloc : N)
    (ref_pow_base0 test_pow_base0 : list float) (ws_base0 : list Z)
    (ref_pow_con0 test_pow_con0 : list float) (ws_con0 : list Z) :
  length ref_pow_base0 = length ws_base0 ->
  length test_pow_base0 = length ws_base0 ->
  length ref_pow_con0 = length ws_con0 ->
  length test_pow_con0 = length ws_con0 ->
  common_buckets ws_base0 ws_con0 <> [] ->
  (forall k, k ∈ ws_base0 -> k ∈ ws_con0 ->
             (0 <= k)%Z /\ allocatable max_alloc (k + 1)) ->
  exists er,
    energy_ratio max_alloc ref_pow_base0 test_pow_base0 ws_base0
                 ref_pow_con0 test_pow_con0 ws_con0 = Ok er /\
    er_counts_base er = PyInt (shared_count ws_base0 ws_con0) /\
    er_counts_con er = PyInt (shared_count ws_con0 ws_base0) /\
    er_counts_diff er
    = PyInt (Z.min (shared_count ws_base0 ws_con0) (shared_count ws_con0 ws_base0)) /\
    er_counts_pchange er = er_counts_diff er /\
    (0 < shared_count ws_base0 ws_con0)%Z /\
    (0 < shared_count ws_con0 ws_base0)%Z /\
    er_ratio_diff er = (er_ratio_con er - er_ratio_base er)%float /\
    er_p_change er = (100 * er_ratio_diff er / er_ratio_base er)%float.
Proof.
  intros L1 L2 L3 L4 Hne Hfit.
  rewrite energy_ratio_eq by assumption.
  eexists. split; [reflexivity|].
  cbn [er_counts_base er_counts_con er_counts_diff er_counts_pchange
       er_ratio_base er_ratio_con er_ratio_diff er_p_change].
  rewrite (shared_count_base _ _ _ L1), (shared_count_con _ _ _ L3).
  destruct (common_buckets ws_base0 ws_con0) as [|k0 u0] eqn:Eu; [done|].
  assert (k0 ∈ common_buckets ws_base0 ws_con0) as Hk0 by (rewrite Eu; left).
  apply elem_of_common_buckets in Hk0 as [? ?].
  repeat split; try reflexivity; by eapply shared_count_pos.
Qed.

(** The largest int64 bucket makes the table length wrap around to the
    smallest int64, and a bucket of 2^60 - 1 asks for 2^63 bytes: both end
    in [ValueError], whatever the machine grants. *)
Example energy_ratio_huge_bucket (max_alloc : N) :
  energy_ratio max_alloc [100]%float [50]%float [int64_max]
               [100]%float [55]%float [int64_max] = Err ValueError /\
  energy_ratio max_alloc [100]%float [50]%float [2 ^ 60 - 1]%Z
               [100]%float [55]%float [2 ^ 60 - 1]%Z = Err ValueError.
Proof. split; reflexivity. Qed.

(** *** Identical regimes *)

Lemma is_finite_SF (x : float) :
  PrimFloat.is_finite x = true ->
  match Prim2SF x with
  | S754_zero _ | S754_finite _ _ _ => True
  | _ => False
  end.
Proof.
  unfold PrimFloat.is_finite, PrimFloat.is_infinity.
  rewrite is_nan_SF, FloatAxioms.eqb_spec, abs_spec.
  replace (Prim2SF infinity) with (S754_infinity false) by (vm_compute; reflexivity).
  destruct (Prim2SF x) as [s|s| |s m e]; cbn; try done.
Qed.

Lemma is_zero_SF (x : float) :
  PrimFloat.is_zero x = match Prim2SF x with S754_zero _ => true | _ => false end.
Proof.
  unfold PrimFloat.is_zero. rewrite FloatAxioms.eqb_spec.
  replace (Prim2SF zero) with (S754_zero false) by (vm_compute; reflexivity).
  destruct (Prim2SF x) as [s|s| |s m e]; try destruct s; reflexivity.
Qed.

(** A finite double minus itself is [+0]. *)
Lemma sub_diag_finite (x : float) :
  PrimFloat.is_finite x = true -> (x - x)%float = 0%float.
Proof.
  intros Hf. apply is_finite_SF in Hf.
  rewrite <- (SF2Prim_Prim2SF (x - x)). rewrite sub_spec.
  replace 0%float with (SF2Prim (S754_zero false)) by (vm_compute; reflexivity).
  f_equal. unfold SF64sub, SFsub.
  destruct (Prim2SF x) as [s|s| |s m e]; try done.
  - by destruct s.
  - rewrite Z.sub_diag. reflexivity.
Qed.

(** Zero divided by a finite non-zero double is a zero. *)
Lemma div_zero_finite (x : float) :
  PrimFloat.is_finite x = true -> PrimFloat.is_zero x = false ->
  PrimFloat.is_zero (0 / x)%float = true.
Proof.
  intros Hf Hz. apply is_finite_SF in Hf. rewrite is_zero_SF in Hz.
  rewrite is_zero_SF, div_spec.
  replace (Prim2SF 0) with (S754_zero false) by (vm_compute; reflexivity).
  destruct (Prim2SF x) as [s|s| |s m e]; try done.
Qed.

Lemma is_finite_SF_eq (x : float) :
  PrimFloat.is_finite x
  = match Prim2SF x with
    | S754_zero _ | S754_finite _ _ _ => true
    | _ => false
    end.
Proof.
  unfold PrimFloat.is_finite, PrimFloat.is_infinity.
  rewrite is_nan_SF, FloatAxioms.eqb_spec, abs_spec.
  replace (Prim2SF infinity) with (S754_infinity false) by (vm_compute; reflexivity).
  destruct (Prim2SF x) as [s|s| |s m e]; cbn; try done.
Qed.

(** An infinity or a NaN minus itself is NaN. *)
Lemma sub_diag_not_finite (x : float) :
  PrimFloat.is_finite x = false -> PrimFloat.is_nan (x - x)%float = true.
Proof.
  rewrite is_finite_SF_eq, is_nan_SF, sub_spec. unfold SF64sub, SFsub.
  destruct (Prim2SF x) as [s|s| |s m e]; try done.
  by destruct s.
Qed.

(** Zero divided by a zero is NaN. *)
Lemma div_zero_zero (x : float) :
  PrimFloat.is_zero x = true -> PrimFloat.is_nan (0 / x)%float = true.
Proof.
  rewrite is_zero_SF, is_nan_SF, div_spec.
  replace (Prim2SF 0) with (S754_zero false) by (vm_compute; reflexivity).
  destruct (Prim2SF x) as [s|s| |s m e]; done.
Qed.

(** NaN goes through the percent change. *)
Lemma p_change_nan (d x : float) :
  PrimFloat.is_nan d = true -> PrimFloat.is_nan (100 * d / x)%float = true.
Proof.
  rewrite !is_nan_SF, div_spec, mul_spec.
  destruct (Prim2SF d) as [s|s| |s m e]; done.
Qed.

(** X5: when the controlled data are the baseline data, every call that
    returns gives [ratio_con = ratio_base] and four equal counts.  If that
    ratio is finite, [ratio_diff] is exactly 0, and [p_change] is a zero
    when the ratio is not zero and NaN when it is; if the ratio is infinite
    or NaN, [ratio_diff] and [p_change] are NaN. *)
Theorem energy_ratio_identity
    (max_alloc : N)
    (ref_pow test_pow : list float) (ws : list Z) (er : er_out) :
  energy_ratio max_alloc ref_pow test_pow ws ref_pow test_pow ws = Ok er ->
  er_ratio_con er = er_ratio_base er /\
  er_counts_con er = er_counts_base er /\
  er_counts_diff er = er_counts_base er /\
  er_counts_pchange er = er_counts_base er /\
  (PrimFloat.is_finite (er_ratio_base er) = true ->
   er_ratio_diff er = 0%float /\
   (PrimFloat.is_zero (er_ratio_base er) = false ->
    PrimFloat.is_zero (er_p_change er) = true) /\
   (PrimFloat.is_zero (er_ratio_base er) = true ->
    PrimFloat.is_nan (er_p_change er) = true)) /\
  (PrimFloat.is_finite (er_ratio_base er) = false ->
   PrimFloat.is_nan (er_ratio_diff er) = true /\
   PrimFloat.is_nan (er_p_change er) = true).
Proof.
  unfold energy_ratio.
  destruct (length (common_buckets ws ws) =? 0)%nat.
  { intros H. apply Ok_inj in H. subst er. cbn.
    repeat split; try reflexivity; discriminate. }
  unfold energy_ratio_weights.
  destruct (bool_index ref_pow (np_isin ws (common_buckets ws ws))) as [a1|];
    cbn [bind]; [|discriminate].
  destruct (bool_index test_pow (np_isin ws (common_buckets ws ws))) as [a2|];
    cbn [bind]; [|discriminate].
  destruct (bool_index ws (np_isin ws (common_buckets ws ws))) as [a3|];
    cbn [bind]; [|discriminate].
  unfold np_unique_counts.
  destruct (np_zip_with Z.add _ _) as [total|]; cbn [bind]; [|discriminate].
  destruct (np_zip_with fdiv_counts _ total) as [w|]; cbn [bind]; [|discriminate].
  destruct (np_max _) as [top|]; cbn [bind]; [|discriminate].
  destruct (np_zeros max_alloc (int64_succ top)) as [lut0|]; cbn [bind]; [|discriminate].
  destruct (np_put lut0 _ w) as [lut|]; cbn [bind]; [|discriminate].
  destruct (np_take lut a3) as [wa|]; cbn [bind]; [|discriminate].
  cbn [ref_pow_base test_pow_base ref_pow_con test_pow_con
       weight_array_base weight_array_con].
  destruct (np_zip_with PrimFloat.mul a1 wa) as [p1|]; cbn [bind]; [|discriminate].
  destruct (np_zip_with PrimFloat.mul a2 wa) as [p2|]; cbn [bind]; [|discriminate].
  intros H. apply Ok_inj in H. subst er.
  cbn [er_ratio_base er_ratio_con er_ratio_diff er_p_change
       er_counts_base er_counts_con er_counts_diff er_counts_pchange].
  rewrite Z.min_id.
  split; [reflexivity|]. split; [reflexivity|].
  split; [reflexivity|]. split; [reflexivity|].
  split.
  - intros Hf. rewrite (sub_diag_finite _ Hf).
    replace (100 * 0)%float with 0%float by (vm_compute; reflexivity).
    split; [reflexivity|]. split.
    + intros Hz. by apply div_zero_finite.
    + apply div_zero_zero.
  - intros Hf. apply sub_diag_not_finite in Hf.
    split; [exact Hf | by apply p_change_nan].
Qed.

Lemma energy_ratio_identity_witness :
  let er := ErOut 0.46666666666666667 0.46666666666666667 0 0
                  (PyInt 3) (PyInt 3) (PyInt 3) (PyInt 3) in
  er_ratio_con er = er_ratio_base er /\
  er_counts_con er = er_counts_base er /\
  er_counts_diff er = er_counts_base er /\
  er_counts_pchange er = er_counts_base er /\
  (PrimFloat.is_finite (er_ratio_base er) = true ->
   er_ratio_diff er = 0%float /\
   (PrimFloat.is_zero (er_ratio_base er) = false ->
    PrimFloat.is_zero (er_p_change er) = true) /\
   (PrimFloat.is_zero (er_ratio_base er) = true ->
    PrimFloat.is_nan (er_p_change er) = true)) /\
  (PrimFloat.is_finite (er_ratio_base er) = false ->
   PrimFloat.is_nan (er_ratio_diff er) = true /\
   PrimFloat.is_nan (er_p_change er) = true).
Proof.
  apply (energy_ratio_identity Ref.max_alloc
           [100; 100; 100]%float [50; 50; 40]%float [8; 8; 9]%Z).
  vm_compute. reflexivity.
Defined.

(** The three cases on concrete data: a ratio that is finite and not zero,
    a zero ratio (no test power), and a NaN ratio (no power at all). *)
Example energy_ratio_identity_cases :
  energy_ratio Ref.max_alloc [100; 100; 100]%float [50; 50; 40]%float [8; 8; 9]%Z
               [100; 100; 100]%float [50; 50; 40]%float [8; 8; 9]%Z
  = Ok (ErOut 0.46666666666666667 0.46666666666666667 0 0
              (PyInt 3) (PyInt 3) (PyInt 3) (PyInt 3)) /\
  energy_ratio Ref.max_alloc [100; 100]%float [0; 0]%float [8; 8]%Z
               [100; 100]%float [0; 0]%float [8; 8]%Z
  = Ok (ErOut 0 0 0 nan (PyInt 2) (PyInt 2) (PyInt 2) (PyInt 2)) /\
  energy_ratio Ref.max_alloc [0; 0]%float [0; 0]%float [8; 8]%Z
               [0; 0]%float [0; 0]%float [8; 8]%Z
  = Ok (ErOut nan nan nan nan (PyInt 2) (PyInt 2) (PyInt 2) (PyInt 2)).
Proof. repeat split. Qed.

(** *** Negative buckets, unshared buckets, ill-sized arrays *)

Lemma energy_ratio_returns_witness :
  exists er,
    energy_ratio Ref.max_alloc [100; 100; 100; 90]%float [50; 50; 40; 45]%float [8; 8; 9; 7]%Z
                 [100; 100]%float [55; 44]%float [8; 9]%Z = Ok er /\
    er_counts_base er = PyInt (shared_count [8; 8; 9; 7]%Z [8; 9]%Z) /\
    er_counts_con er = PyInt (shared_count [8; 9]%Z [8; 8; 9; 7]%Z) /\
    er_counts_diff er
    = PyInt (Z.min (shared_count [8; 8; 9; 7]%Z [8; 9]%Z)
                   (shared_count [8; 9]%Z [8; 8; 9; 7]%Z)) /\
    er_counts_pchange er = er_counts_diff er /\
    (0 < shared_count [8; 8; 9; 7]%Z [8; 9]%Z)%Z /\
    (0 < shared_count [8; 9]%Z [8; 8; 9; 7]%Z)%Z /\
    er_ratio_diff er = (er_ratio_con er - er_ratio_base er)%float /\
    er_p_change er = (100 * er_ratio_diff er / er_ratio_base er)%float.
Proof.
  apply energy_ratio_returns; try reflexivity.
  - vm_compute. discriminate.
  - intros k Hk _. unfold allocatable.
    elem_cases Hk; vm_compute; intuition discriminate.
Defined.

Lemma py_index_empty (k : Z) : py_index 0 k = Err IndexError.
Proof.
  unfold py_index. change (Z.of_nat 0) with 0%Z. change (- 0)%Z with 0%Z.
  destruct (Z.leb_spec 0 k), (Z.ltb_spec k 0); cbn [andb];
    try reflexivity; lia.
Qed.

(** X6: when the common buckets are not empty and all negative,
    [energy_ratio] raises on arrays of consistent length: an [IndexError]
    from the one-cell-short table when bucket -1 is common (the table has
    length 0), a [ValueError] from [np.zeros] of a negative length
    otherwise. *)
Theorem energy_ratio_negative_buckets_raise
    (max_alloc : N)
    (ref_pow_base0 test_pow_base0 : list float) (ws_base0 : list Z)
    (ref_pow_con0 test_pow_con0 : list float) (ws_con0 : list Z) :
  length ref_pow_base0 = length ws_base0 ->
  length test_pow_base0 = length ws_base0 ->
  length ref_pow_con0 = length ws_con0 ->
  length test_pow_con0 = length ws_con0 ->
  common_buckets ws_base0 ws_con0 <> [] ->
  (forall k, k ∈ ws_base0 -> k ∈ ws_con0 -> (k < 0)%Z) ->
  energy_ratio max_alloc ref_pow_base0 test_pow_base0 ws_base0
               ref_pow_con0 test_pow_con0 ws_con0
  = Err (if mem (-1) (common_buckets ws_base0 ws_con0)
         then IndexError else ValueError).
Proof.
  intros L1 L2 L3 L4 Hne Hneg. unfold energy_ratio.
  destruct (common_buckets ws_base0 ws_con0) as [|k0 u0] eqn:Eu; [done|].
  cbn [length Nat.eqb]. rewrite <- Eu.
  rewrite energy_ratio_weights_table by (rewrite ?Eu; done).
  destruct (np_max_spec (common_buckets ws_base0 ws_con0))
    as (top & -> & Htop & Hmax); [by rewrite Eu|].
  cbn [bind].
  assert (top < 0)%Z as Htop0.
  { apply elem_of_common_buckets in Htop as [? ?]. auto. }
  rewrite int64_succ_small
    by (change int64_max with 9223372036854775807%Z; lia).
  destruct (mem (-1) (common_buckets ws_base0 ws_con0)) eqn:Em.
  - apply mem_elem_of in Em. apply Hmax in Em.
    assert (top = -1)%Z as -> by lia.
    change (-1 + 1)%Z with 0%Z. rewrite np_zeros_0.
    cbn [bind].
    unfold np_put. rewrite length_map, Nat.eqb_refl.
    rewrite Eu. cbn [map combine put_loop length].
    rewrite py_index_empty. reflexivity.
  - assert (top <> -1)%Z as Hne1.
    { intros ->. apply mem_elem_of in Htop. congruence. }
    rewrite np_zeros_negative by lia. reflexivity.
Qed.

Lemma energy_ratio_negative_buckets_raise_witness :
  energy_ratio Ref.max_alloc [100; 100]%float [50; 50]%float [-3; -2]%Z
               [100]%float [55]%float [-3]%Z
  = Err (if mem (-1) (common_buckets [-3; -2]%Z [-3]%Z)
         then IndexError else ValueError) /\
  energy_ratio Ref.max_alloc [100; 100]%float [50; 50]%float [-1; -2]%Z
               [100; 100]%float [55; 55]%float [-2; -1]%Z
  = Err (if mem (-1) (common_buckets [-1; -2]%Z [-2; -1]%Z)
         then IndexError else ValueError).
Proof.
  split; apply energy_ratio_negative_buckets_raise; try reflexivity;
    try (vm_compute; discriminate);
    intros k Hk _; elem_cases Hk; lia.
Defined.

Lemma common_buckets_restricted (wb wc : list Z) :
  common_buckets (select wb (np_isin wb (common_buckets wb wc)))
                 (select wc (np_isin wc (common_buckets wb wc)))
  = common_buckets wb wc.
Proof.
  apply sorted_ext; [apply common_buckets_sorted..|].
  intros x. rewrite elem_of_common_buckets, !elem_of_select_isin.
  rewrite elem_of_common_buckets. tauto.
Qed.

(** X7: samples whose bucket is not shared by the two regimes have no
    effect: on arrays of consistent length, [energy_ratio] gives the same
    result, error included, as on the arrays restricted to the rows of the
    common buckets. *)
Theorem energy_ratio_ignores_unshared
    (max_alloc : N)
    (ref_pow_base0 test_pow_base0 : list float) (ws_base0 : list Z)
    (ref_pow_con0 test_pow_con0 : list float) (ws_con0 : list Z) :
  length ref_pow_base0 = length ws_base0 ->
  length test_pow_base0 = length ws_base0 ->
  length ref_pow_con0 = length ws_con0 ->
  length test_pow_con0 = length ws_con0 ->
  let base_mask := np_isin ws_base0 (common_buckets ws_base0 ws_con0) in
  let con_mask := np_isin ws_con0 (common_buckets ws_base0 ws_con0) in
  energy_ratio max_alloc ref_pow_base0 test_pow_base0 ws_base0
               ref_pow_con0 test_pow_con0 ws_con0
  = energy_ratio max_alloc (select ref_pow_base0 base_mask) (select test_pow_base0 base_mask)
                 (select ws_base0 base_mask)
                 (select ref_pow_con0 con_mask) (select test_pow_con0 con_mask)
                 (select ws_con0 con_mask).
Proof.
  intros L1 L2 L3 L4 base_mask con_mask. unfold energy_ratio.
  unfold base_mask, con_mask. rewrite common_buckets_restricted.
  destruct (length (common_buckets ws_base0 ws_con0) =? 0)%nat; [reflexivity|].
  f_equal. unfold energy_ratio_weights.
  set (u := common_buckets ws_base0 ws_con0).
  assert (forall k, k ∈ select ws_base0 (np_isin ws_base0 u) -> k ∈ u) as Hb
    by (intros k Hk; apply elem_of_select_isin in Hk; tauto).
  assert (forall k, k ∈ select ws_con0 (np_isin ws_con0 u) -> k ∈ u) as Hc
    by (intros k Hk; apply elem_of_select_isin in Hk; tauto).
  rewrite !bool_index_ok by (rewrite np_isin_length; congruence).
  rewrite !bool_index_ok
    by (rewrite np_isin_length; by apply select_same_length).
  rewrite !(select_all (select _ (np_isin ws_base0 u)) (select ws_base0 _) u)
    by (auto using select_same_length).
  rewrite !(select_all (select _ (np_isin ws_con0 u)) (select ws_con0 _) u)
    by (auto using select_same_length).
  reflexivity.
Qed.

Lemma energy_ratio_ignores_unshared_witness :
  let base_mask := np_isin [8; 8; 9; 7]%Z (common_buckets [8; 8; 9; 7]%Z [8; 9; 12]%Z) in
  let con_mask := np_isin [8; 9; 12]%Z (common_buckets [8; 8; 9; 7]%Z [8; 9; 12]%Z) in
  energy_ratio Ref.max_alloc [100; 100; 100; 90]%float [50; 50; 40; 45]%float [8; 8; 9; 7]%Z
               [100; 100; 80]%float [55; 44; 70]%float [8; 9; 12]%Z
  = energy_ratio Ref.max_alloc (select [100; 100; 100; 90]%float base_mask)
                 (select [50; 50; 40; 45]%float base_mask)
                 (select [8; 8; 9; 7]%Z base_mask)
                 (select [100; 100; 80]%float con_mask)
                 (select [55; 44; 70]%float con_mask)
                 (select [8; 9; 12]%Z con_mask).
Proof.
  apply energy_ratio_ignores_unshared; reflexivity.
Defined.

(** X8: when the two regimes share a bucket, a power array whose length
    differs from that of its regime's bucket array makes [energy_ratio]
    raise an [IndexError] (the boolean mask does not fit). *)
Theorem energy_ratio_ill_sized
    (max_alloc : N)
    (ref_pow_base0 test_pow_base0 : list float) (ws_base0 : list Z)
    (ref_pow_con0 test_pow_con0 : list float) (ws_con0 : list Z) :
  common_buckets ws_base0 ws_con0 <> [] ->
  length ref_pow_base0 <> length ws_base0 \/
  length test_pow_base0 <> length ws_base0 \/
  length ref_pow_con0 <> length ws_con0 \/
  length test_pow_con0 <> length ws_con0 ->
  energy_ratio max_alloc ref_pow_base0 test_pow_base0 ws_base0
               ref_pow_con0 test_pow_con0 ws_con0
  = Err IndexError.
Proof.
  intros Hne Hlen. unfold energy_ratio.
  destruct (common_buckets ws_base0 ws_con0) as [|k0 u0] eqn:Eu; [done|].
  cbn [length Nat.eqb]. rewrite <- Eu. unfold energy_ratio_weights.
  set (u := common_buckets ws_base0 ws_con0).
  destruct (bool_index_cases ref_pow_base0 (np_isin ws_base0 u)) as [E1|E1];
    rewrite E1; cbn [bind]; [|reflexivity].
  destruct (bool_index_cases test_pow_base0 (np_isin ws_base0 u)) as [E2|E2];
    rewrite E2; cbn [bind]; [|reflexivity].
  rewrite (bool_index_ok ws_base0) by (by rewrite np_isin_length). cbn [bind].
  destruct (bool_index_cases ref_pow_con0 (np_isin ws_con0 u)) as [E3|E3];
    rewrite E3; cbn [bind]; [|reflexivity].
  destruct (bool_index_cases test_pow_con0 (np_isin ws_con0 u)) as [E4|E4];
    rewrite E4; cbn [bind]; [|reflexivity].
  exfalso.
  apply bool_index_Ok_inv in E1 as [E1 _], E2 as [E2 _], E3 as [E3 _], E4 as [E4 _].
  rewrite np_isin_length in E1, E2, E3, E4. tauto.
Qed.

Lemma energy_ratio_ill_sized_witness :
  energy_ratio Ref.max_alloc [100; 100]%float [50; 50; 40]%float [8; 8; 9]%Z
               [100; 100]%float [55; 44]%float [8; 9]%Z
  = Err IndexError.
Proof.
  apply energy_ratio_ill_sized.
  - vm_compute. discriminate.
  - left. cbn. lia.
Defined.

(** ** The orchestration, continued *)

Lemma nan_array_repeat (n : nat) : nan_array n = repeat nan n.
Proof.
  unfold nan_array. induction n as [|n IH]; [reflexivity|].
  cbn [repeat map]. by rewrite IH.
Qed.

Section LoopMore.

Variable max_alloc : N.
Variable np_log10 : float -> float.
Variable np_percentile : list float -> float -> result float.
Variable raw : nat -> nat -> Z.
Variables x1 x2 x3 x4 x5 x6 x7 x8 : pyobj.
Variable r confidence : float.

Local Abbreviation P := (process_bin max_alloc np_log10 np_percentile raw
                                    x1 x2 x3 x4 x5 x6 x7 x8 r confidence).
Local Abbreviation select_at := (select_bin x1 x2 x3 x4 x5 x6 x7 x8 r).

(** What a bin that is not skipped computes. *)
Lemma process_selected_steps (i : nat) (sel : bin_subset) (st st' : loop_state) :
  process_selected max_alloc np_log10 np_percentile raw confidence i sel st = Ok st' ->
  exists er n bs b_base b_con b_diff b_p,
    energy_ratio max_alloc (reference_power_baseline_wd sel) (test_power_baseline_wd sel)
                 (map astype_int (wind_speed_array_baseline_wd sel))
                 (reference_power_controlled_wd sel) (test_power_controlled_wd sel)
                 (map astype_int (wind_speed_array_controlled_wd sel)) = Ok er /\
    match n_boostrap st with
    | None => _calculate_bootstrap_iterations np_log10
                (Z.of_nat (length (reference_power_baseline_wd sel)))
    | Some n => Ok n
    end = Ok n /\
    bootstrap max_alloc raw n (reference_power_baseline_wd sel) (test_power_baseline_wd sel)
              (map astype_int (wind_speed_array_baseline_wd sel))
              (reference_power_controlled_wd sel) (test_power_controlled_wd sel)
              (map astype_int (wind_speed_array_controlled_wd sel)) (rng_calls st)
    = Ok (bs, (rng_calls st + 2 * Z.to_nat n)%nat) /\
    st' = LoopState (set_bounds (set_point (arrays st) i er) i b_base b_con b_diff b_p)
                    (Some n) (rng_calls st + 2 * Z.to_nat n).
Proof.
  unfold process_selected. intros H.
  bind_inv H. rename v into er, E into Eer.
  bind_inv H. rename v into n, E into En.
  bind_inv H. destruct v as [bs calls]. rename E into Ebs.
  pose proof (bootstrap_calls max_alloc raw _ _ _ _ _ _ _ _ _ Ebs) as Hc.
  cbn [snd] in Hc. subst calls.
  do 4 bind_inv H. apply Ok_inj in H.
  exists er, n, bs. eauto 10.
Qed.

Lemma process_bin_lengths (b : nat * float) (st st' : loop_state) :
  P b st = Ok st' ->
  map length (arrays_of (arrays st')) = map length (arrays_of (arrays st)).
Proof.
  destruct b as [i c]. unfold process_bin. intros H. bind_inv H.
  destruct (skipped v).
  - apply Ok_inj in H. by subst st'.
  - apply process_selected_inv in H
      as (er & n & b1 & b2 & b3 & b4 & _ & ->).
    unfold arrays_of, set_bounds, set_point. cbn.
    by rewrite !length_insert.
Qed.

Lemma run_lengths (l : list (nat * float)) (st st' : loop_state) :
  foldM P l st = Ok st' ->
  map length (arrays_of (arrays st')) = map length (arrays_of (arrays st)).
Proof.
  revert st. induction l as [|b l IH]; intros st H; cbn [foldM] in H.
  - apply Ok_inj in H. by subst st'.
  - bind_inv H. rewrite (IH _ H). by eapply process_bin_lengths.
Qed.

(** The generator moves by two calls per iteration and per bin that is
    not skipped. *)
Lemma run_calls (l : list (nat * float)) (st st' : loop_state) (n : Z) :
  n_boostrap st = Some n -> foldM P l st = Ok st' ->
  rng_calls st'
  = (rng_calls st
     + 2 * Z.to_nat n
       * length (List.filter (bin_runs x1 x2 x3 x4 x5 x6 x7 x8 r) l))%nat /\
  (List.filter (bin_runs x1 x2 x3 x4 x5 x6 x7 x8 r) l <> [] -> (0 <= n)%Z).
Proof.
  revert st. induction l as [|[i c] l IH]; intros st Hn H; cbn [foldM] in H.
  - apply Ok_inj in H. subst st'. cbn. split; [lia | done].
  - bind_inv H. rename v into st1.
    unfold process_bin in E. cbn [List.filter].
    destruct (select_at c) as [sel|e] eqn:Esel; cbn [bind] in E; [|discriminate].
    destruct (skipped sel) eqn:Hsk.
    + assert (bin_runs x1 x2 x3 x4 x5 x6 x7 x8 r (i, c) = false) as ->
        by (unfold bin_runs; cbn [snd]; by rewrite Esel, Hsk).
      apply Ok_inj in E. subst st1. by apply IH.
    + assert (bin_runs x1 x2 x3 x4 x5 x6 x7 x8 r (i, c) = true) as ->
        by (unfold bin_runs; cbn [snd]; by rewrite Esel, Hsk).
      apply process_selected_steps in E
        as (er & n' & bs & b1 & b2 & b3 & b4 & _ & Hn' & Hbs & ->).
      rewrite Hn in Hn'. apply Ok_inj in Hn'. subst n'.
      apply IH in H as [-> _]; [|reflexivity]. cbn [rng_calls length].
      split; [lia|]. intros _.
      unfold bootstrap, np_zeros in Hbs.
      destruct (Z.ltb_spec n 0); [discriminate | assumption].
Qed.

(** The point and count values of a bin whose two regimes share no bucket
    are NaN, and stay so. *)
Lemma process_bin_point_nan (i j : nat) (c : float) (st st' : loop_state) :
  (j = i -> forall sel, select_at c = Ok sel -> skipped sel = false ->
            common_buckets (map astype_int (wind_speed_array_baseline_wd sel))
                           (map astype_int (wind_speed_array_controlled_wd sel)) = []) ->
  Forall (fun o => o = Some nan) (point_values_at i (arrays st)) ->
  P (j, c) st = Ok st' ->
  Forall (fun o => o = Some nan) (point_values_at i (arrays st')).
Proof.
  intros Hdis HQ H. unfold process_bin in H. bind_inv H. rename v into sel.
  destruct (skipped sel) eqn:Hsk.
  { apply Ok_inj in H. by subst st'. }
  apply process_selected_steps in H
    as (er & n & bs & b1 & b2 & b3 & b4 & Her & _ & _ & ->).
  unfold point_values_at, set_bounds, set_point in *. cbn in *.
  destruct (decide (j = i)) as [->|Hji].
  - rewrite energy_ratio_no_common in Her by (by apply Hdis).
    apply Ok_inj in Her. subst er. cbn.
    repeat match goal with
           | H : Forall _ (_ :: _) |- _ =>
               apply Forall_cons in H as [? H]
           end.
    repeat constructor;
      (rewrite list_lookup_insert_eq; [reflexivity | by eapply lookup_lt_Some]).
  - by rewrite !list_lookup_insert_ne by done.
Qed.

Lemma run_point_nan (i : nat) (l : list (nat * float)) (st st' : loop_state) :
  (forall b, b ∈ l -> b.1 = i ->
     forall sel, select_at b.2 = Ok sel -> skipped sel = false ->
       common_buckets (map astype_int (wind_speed_array_baseline_wd sel))
                      (map astype_int (wind_speed_array_controlled_wd sel)) = []) ->
  Forall (fun o => o = Some nan) (point_values_at i (arrays st)) ->
  foldM P l st = Ok st' ->
  Forall (fun o => o = Some nan) (point_values_at i (arrays st')).
Proof.
  revert st. induction l as [|[j c] l IH]; intros st Hd HQ H; cbn [foldM] in H.
  - apply Ok_inj in H. by subst st'.
  - bind_inv H. apply (IH v); [| |exact H].
    + intros b Hb. apply Hd. by right.
    + eapply process_bin_point_nan; [|exact HQ|exact E].
      intros Hj. apply (Hd (j, c)); [left | exact Hj].
Qed.

End LoopMore.

Lemma select_bin_ill_sized (rpb tpb wsb wdb rpc tpc wsc wdc : list float) (r c : float) :
  length rpb <> length wdb \/ length tpb <> length wdb \/ length wsb <> length wdb \/
  length rpc <> length wdc \/ length tpc <> length wdc \/ length wsc <> length wdc ->
  select_bin (PyNdarray rpb) (PyNdarray tpb) (PyNdarray wsb) (PyNdarray wdb)
             (PyNdarray rpc) (PyNdarray tpc) (PyNdarray wsc) (PyNdarray wdc) r c
  = Err IndexError.
Proof.
  intros Hlen. unfold select_bin. cbn [as_ndarray bind].
  destruct (bool_index_cases rpb (wind_dir_mask c r wdb)) as [E1|E1];
    rewrite E1; cbn [bind]; [|reflexivity].
  destruct (bool_index_cases tpb (wind_dir_mask c r wdb)) as [E2|E2];
    rewrite E2; cbn [bind]; [|reflexivity].
  destruct (bool_index_cases wsb (wind_dir_mask c r wdb)) as [E3|E3];
    rewrite E3; cbn [bind]; [|reflexivity].
  destruct (bool_index_cases rpc (wind_dir_mask c r wdc)) as [E4|E4];
    rewrite E4; cbn [bind]; [|reflexivity].
  destruct (bool_index_cases tpc (wind_dir_mask c r wdc)) as [E5|E5];
    rewrite E5; cbn [bind]; [|reflexivity].
  destruct (bool_index_cases wsc (wind_dir_mask c r wdc)) as [E6|E6];
    rewrite E6; cbn [bind]; [|reflexivity].
  exfalso.
  apply bool_index_Ok_inv in E1 as [E1 _], E2 as [E2 _], E3 as [E3 _],
      E4 as [E4 _], E5 as [E5 _], E6 as [E6 _].
  rewrite wind_dir_mask_length in E1, E2, E3, E4, E5, E6. tauto.
Qed.

Section CallMore.

Variable max_alloc : N.
Variable np_log10 : float -> float.
Variable np_percentile : list float -> float -> result float.
Variable raw : nat -> nat -> Z.

(** X9: every one of the sixteen arrays of a returned report has one entry
    per bin center. *)
Theorem report_shape
    (a1 a2 a3 a4 a5 a6 a7 a8 : pyobj) (wind_direction_bins : list float)
    (confidence : float) (n_boostrap0 : option Z)
    (wind_direction_bin_p_overlap : option float) (rng : nat)
    (rep : report) (rng' : nat) :
  calculate_balanced_energy_ratio max_alloc np_log10 np_percentile raw
      a1 a2 a3 a4 a5 a6 a7 a8 wind_direction_bins confidence n_boostrap0
      wind_direction_bin_p_overlap rng = Ok (rep, rng') ->
  Forall (fun a : list float => length a = length wind_direction_bins)
         (arrays_of rep).
Proof.
  unfold calculate_balanced_energy_ratio. intros H.
  bind_inv H. bind_inv H. rename v0 into st. apply Ok_inj in H.
  assert (rep = arrays st) as -> by congruence.
  unfold run_bins in E0. apply run_lengths in E0. cbn [arrays] in E0.
  assert (Forall (fun k => k = length wind_direction_bins)
                 (map length (arrays_of (arrays st)))) as HF.
  { rewrite E0. unfold arrays_of, initial_report. cbn.
    rewrite nan_array_repeat, repeat_length. repeat constructor. }
  apply Forall_fmap in HF. exact HF.
Qed.

(** X10: on arrays of consistent length and with at least two bin centers,
    if no baseline direction, or no controlled direction, lies in the
    interval of any bin (an empty regime, say), the call raises nothing,
    returns sixteen arrays of NaN and draws no random number. *)
Theorem no_sample_in_any_bin
    (rpb tpb wsb wdb rpc tpc wsc wdc : list float)
    (wind_direction_bins : list float)
    (confidence : float) (n_boostrap0 : option Z)
    (wind_direction_bin_p_overlap : option float) (rng : nat) (r : float) :
  length rpb = length wdb -> length tpb = length wdb -> length wsb = length wdb ->
  length rpc = length wdc -> length tpc = length wdc -> length wsc = length wdc ->
  bin_radius wind_direction_bins wind_direction_bin_p_overlap = Ok r ->
  (forall c d, c ∈ wind_direction_bins -> d ∈ wdb -> ~ in_interval c r d) \/
  (forall c d, c ∈ wind_direction_bins -> d ∈ wdc -> ~ in_interval c r d) ->
  exists rep,
    calculate_balanced_energy_ratio max_alloc np_log10 np_percentile raw
        (PyNdarray rpb) (PyNdarray tpb) (PyNdarray wsb) (PyNdarray wdb)
        (PyNdarray rpc) (PyNdarray tpc) (PyNdarray wsc) (PyNdarray wdc)
        wind_direction_bins confidence n_boostrap0
        wind_direction_bin_p_overlap rng = Ok (rep, rng) /\
    Forall (fun a : list float => a = repeat nan (length wind_direction_bins))
           (arrays_of rep).
Proof.
  intros L1 L2 L3 L4 L5 L6 Hr Hempty.
  exists (initial_report (length wind_direction_bins)). split.
  - unfold calculate_balanced_energy_ratio. cbn [_convert_to_numpy_array].
    rewrite Hr. cbn [bind]. unfold run_bins. rewrite run_skipped; [reflexivity|].
    intros [i c] Hb. cbn [snd]. apply enumerate_lookup in Hb.
    apply list_elem_of_lookup_2 in Hb.
    rewrite (select_bin_eq rpb tpb wsb wdb rpc tpc wsc wdc L1 L2 L3 L4 L5 L6 r c).
    eexists. split; [reflexivity|].
    unfold skipped. cbn. apply orb_true_iff.
    destruct Hempty as [He|He]; [left | right].
    all: rewrite select_nil; [reflexivity|].
    all: intros j Hj; apply wind_dir_mask_lookup in Hj as (d & Hd & Hin).
    all: apply (He c d); [exact Hb | by eapply list_elem_of_lookup_2 | exact Hin].
  - unfold arrays_of, initial_report. cbn. rewrite nan_array_repeat.
    repeat constructor.
Qed.

(** X11: when all eight inputs are arrays and one of them has not the
    length of its regime's direction array, the call ends in an
    [IndexError], whatever the bins are. *)
Theorem ill_sized_input
    (rpb tpb wsb wdb rpc tpc wsc wdc : list float)
    (wind_direction_bins : list float)
    (confidence : float) (n_boostrap0 : option Z)
    (wind_direction_bin_p_overlap : option float) (rng : nat) :
  length rpb <> length wdb \/ length tpb <> length wdb \/ length wsb <> length wdb \/
  length rpc <> length wdc \/ length tpc <> length wdc \/ length wsc <> length wdc ->
  calculate_balanced_energy_ratio max_alloc np_log10 np_percentile raw
      (PyNdarray rpb) (PyNdarray tpb) (PyNdarray wsb) (PyNdarray wdb)
      (PyNdarray rpc) (PyNdarray tpc) (PyNdarray wsc) (PyNdarray wdc)
      wind_direction_bins confidence n_boostrap0
      wind_direction_bin_p_overlap rng = Err IndexError.
Proof.
  intros Hlen. unfold calculate_balanced_energy_ratio.
  cbn [_convert_to_numpy_array].
  destruct wind_direction_bins as [|b0 [|b1 rest]].
  1,2: destruct wind_direction_bin_p_overlap; reflexivity.
  assert (exists r, bin_radius (b0 :: b1 :: rest) wind_direction_bin_p_overlap = Ok r)
    as [r ->] by (destruct wind_direction_bin_p_overlap; cbn; eauto).
  cbn [bind]. unfold run_bins, enumerate. cbn [length seq combine foldM].
  unfold process_bin at 1. by rewrite select_bin_ill_sized.
Qed.

(** X12: when the caller gives [n_boostrap], a returned call has made
    [2 * n_boostrap] calls to [randint] for every bin that is not skipped
    and none for the others; and if any bin is not skipped, [n_boostrap]
    is not negative. *)
Theorem random_calls_with_given_count
    (a1 a2 a3 a4 a5 a6 a7 a8 : pyobj) (wind_direction_bins : list float)
    (confidence : float) (n : Z)
    (wind_direction_bin_p_overlap : option float) (rng : nat)
    (r : float) (rep : report) (rng' : nat) :
  bin_radius wind_direction_bins wind_direction_bin_p_overlap = Ok r ->
  calculate_balanced_energy_ratio max_alloc np_log10 np_percentile raw
      a1 a2 a3 a4 a5 a6 a7 a8 wind_direction_bins confidence (Some n)
      wind_direction_bin_p_overlap rng = Ok (rep, rng') ->
  let running :=
    List.filter (bin_runs (_convert_to_numpy_array a1) (_convert_to_numpy_array a2)
                          (_convert_to_numpy_array a3) (_convert_to_numpy_array a4)
                          (_convert_to_numpy_array a5) (_convert_to_numpy_array a6)
                          (_convert_to_numpy_array a7) (_convert_to_numpy_array a8) r)
                (enumerate wind_direction_bins) in
  rng' = (rng + 2 * Z.to_nat n * length running)%nat /\
  (running <> [] -> (0 <= n)%Z).
Proof.
  intros Hr H running. unfold calculate_balanced_energy_ratio in H.
  rewrite Hr in H. cbn [bind] in H. bind_inv H. rename v into st.
  apply Ok_inj in H. assert (rng' = rng_calls st) as -> by congruence.
  unfold run_bins in E. apply run_calls with (n := n) in E; [|reflexivity].
  exact E.
Qed.

(** X13: the turn of one bin writes at that bin's index only: at every
    other index all sixteen arrays keep their value, and every array keeps
    its length. *)
Theorem bin_writes_only_its_index
    (x1 x2 x3 x4 x5 x6 x7 x8 : pyobj) (r confidence : float)
    (i j : nat) (c : float) (st st' : loop_state) :
  process_bin max_alloc np_log10 np_percentile raw x1 x2 x3 x4 x5 x6 x7 x8 r confidence
              (j, c) st = Ok st' ->
  i <> j ->
  values_at i (arrays st') = values_at i (arrays st) /\
  map length (arrays_of (arrays st')) = map length (arrays_of (arrays st)).
Proof.
  intros H Hij. split.
  - by eapply process_bin_values.
  - by eapply process_bin_lengths.
Qed.

(** X14: if, in the bin of index [i], the rows selected in the two regimes
    share no integer speed bucket, then in a returned report the two ratios,
    the difference, the percent change and the four counts are NaN at
    index [i]. *)
Theorem disjoint_buckets_in_bin
    (a1 a2 a3 a4 a5 a6 a7 a8 : pyobj) (wind_direction_bins : list float)
    (confidence : float) (n_boostrap0 : option Z)
    (wind_direction_bin_p_overlap : option float) (rng : nat)
    (r : float) (i : nat) (c : float) (sel : bin_subset)
    (rep : report) (rng' : nat) :
  bin_radius wind_direction_bins wind_direction_bin_p_overlap = Ok r ->
  wind_direction_bins !! i = Some c ->
  select_bin (_convert_to_numpy_array a1) (_convert_to_numpy_array a2)
             (_convert_to_numpy_array a3) (_convert_to_numpy_array a4)
             (_convert_to_numpy_array a5) (_convert_to_numpy_array a6)
             (_convert_to_numpy_array a7) (_convert_to_numpy_array a8) r c = Ok sel ->
  (forall k, k ∈ map astype_int (wind_speed_array_baseline_wd sel) ->
             k ∈ map astype_int (wind_speed_array_controlled_wd sel) -> False) ->
  calculate_balanced_energy_ratio max_alloc np_log10 np_percentile raw
      a1 a2 a3 a4 a5 a6 a7 a8 wind_direction_bins confidence n_boostrap0
      wind_direction_bin_p_overlap rng = Ok (rep, rng') ->
  Forall (fun o => o = Some nan) (point_values_at i rep).
Proof.
  intros Hr Hi Hsel Hdis H. unfold calculate_balanced_energy_ratio in H.
  rewrite Hr in H. cbn [bind] in H. bind_inv H. rename v into st.
  apply Ok_inj in H. assert (rep = arrays st) as -> by congruence.
  unfold run_bins in E. eapply run_point_nan with (i := i) in E; [exact E| |].
  - intros [j c'] Hb Hj sel' Hsel' _. cbn in Hj. subst j. cbn [snd] in Hsel'.
    apply enumerate_lookup in Hb. rewrite Hi in Hb.
    assert (c' = c) as -> by congruence.
    rewrite Hsel in Hsel'. apply Ok_inj in Hsel'. subst sel'.
    destruct (common_buckets _ _) as [|k u] eqn:Eu; [reflexivity|]. exfalso.
    assert (k ∈ k :: u) as Hk by left. rewrite <- Eu in Hk.
    apply elem_of_common_buckets in Hk as [? ?]. eauto.
  - cbn [arrays]. apply lookup_lt_Some in Hi.
    unfold point_values_at, initial_report. cbn.
    rewrite nan_array_repeat, repeat_replicate, lookup_replicate_2 by exact Hi.
    repeat constructor.
Qed.

End CallMore.

(** ** The bootstrap, continued *)

Section BootstrapMore.

Variable max_alloc : N.
Variable raw : nat -> nat -> Z.

Lemma bootstrap_iteration_lengths
    (a1 a2 : list float) (a3 : list Z) (a4 a5 : list float) (a6 : list Z)
    (i_bs : nat) (s s' : bs_arrays * nat) :
  bootstrap_iteration max_alloc raw a1 a2 a3 a4 a5 a6 i_bs s = Ok s' ->
  bs_lengths s'.1 = bs_lengths s.1.
Proof.
  destruct s as [bs calls]. unfold bootstrap_iteration. intros H.
  do 7 bind_inv H. apply Ok_inj in H. subst s'.
  unfold bs_lengths. cbn. by rewrite !length_insert.
Qed.

Lemma bootstrap_loop_lengths
    (a1 a2 : list float) (a3 : list Z) (a4 a5 : list float) (a6 : list Z)
    (l : list nat) (s s' : bs_arrays * nat) :
  foldM (bootstrap_iteration max_alloc raw a1 a2 a3 a4 a5 a6) l s = Ok s' ->
  bs_lengths s'.1 = bs_lengths s.1.
Proof.
  revert s. induction l as [|i l IH]; intros s H; cbn [foldM] in H.
  - apply Ok_inj in H. by subst s'.
  - bind_inv H. rewrite (IH _ H). by eapply bootstrap_iteration_lengths.
Qed.

(** X15: when the bootstrap of a bin returns, the iteration count is not
    negative (a negative one makes [np.zeros] raise), each of the four
    bootstrap arrays has one entry per iteration, and [randint] has been
    called twice per iteration. *)
Theorem bootstrap_shape
    (n : Z) (a1 a2 : list float) (a3 : list Z) (a4 a5 : list float) (a6 : list Z)
    (calls : nat) (bs : bs_arrays) (calls' : nat) :
  bootstrap max_alloc raw n a1 a2 a3 a4 a5 a6 calls = Ok (bs, calls') ->
  (0 <= n)%Z /\
  length (ratio_base_bs bs) = Z.to_nat n /\
  length (ratio_con_bs bs) = Z.to_nat n /\
  length (diff_bs bs) = Z.to_nat n /\
  length (p_change_bs bs) = Z.to_nat n /\
  calls' = (calls + 2 * Z.to_nat n)%nat.
Proof.
  intros H. pose proof (bootstrap_calls max_alloc raw _ _ _ _ _ _ _ _ _ H) as Hc.
  cbn [snd] in Hc. unfold bootstrap in H.
  destruct (np_zeros_cases max_alloc n) as [[E Hn]|[e E]];
    rewrite E in H; [|discriminate].
  cbn [bind] in H. apply bootstrap_loop_lengths in H.
  unfold bs_lengths in H. cbn in H. rewrite !repeat_length in H.
  split; [exact Hn|].
  assert (length (ratio_base_bs bs) = Z.to_nat n) by congruence.
  assert (length (ratio_con_bs bs) = Z.to_nat n) by congruence.
  assert (length (diff_bs bs) = Z.to_nat n) by congruence.
  assert (length (p_change_bs bs) = Z.to_nat n) by congruence.
  auto.
Qed.

Lemma np_take_rows {A : Type} (d : A) (a : list A) (idx : list Z) :
  (forall i, i ∈ idx -> 0 <= i < Z.of_nat (length a))%Z ->
  np_take a idx = Ok (rows d a (map Z.to_nat idx)).
Proof.
  intros Hr. unfold np_take, rows. rewrite map_map.
  apply mapM_Ok. intros i Hi. specialize (Hr i Hi).
  rewrite py_index_nonneg by exact Hr. cbn [bind].
  destruct (lookup_lt_is_Some_2 a (Z.to_nat i)) as [x Hx]; [lia|].
  rewrite Hx. f_equal. symmetry. by apply nth_lookup_Some.
Qed.

(** X16: on non-empty subsets whose three arrays have one length per
    regime, a bootstrap pass never fails in the resampling: each regime is
    resampled at positions inside the subset, as many as the subset has
    rows, and the same positions are used for the reference power, the test
    power and the wind speed, so that rows stay together. *)
Theorem resampling_keeps_rows
    (a1 a2 : list float) (a3 : list Z) (a4 a5 : list float) (a6 : list Z)
    (i_bs : nat) (bs : bs_arrays) (calls : nat) :
  length a1 <> 0%nat -> length a2 = length a1 -> length a3 = length a1 ->
  length a4 <> 0%nat -> length a5 = length a4 -> length a6 = length a4 ->
  let ib := map Z.to_nat (randint raw calls (length a1) (length a1)) in
  let ic := map Z.to_nat (randint raw (S calls) (length a4) (length a4)) in
  bootstrap_iteration max_alloc raw a1 a2 a3 a4 a5 a6 i_bs (bs, calls)
  = (let! er := energy_ratio max_alloc
                             (rows 0%float a1 ib) (rows 0%float a2 ib) (rows 0%Z a3 ib)
                             (rows 0%float a4 ic) (rows 0%float a5 ic) (rows 0%Z a6 ic) in
     Ok (BsArrays (<[i_bs := er_ratio_base er]> (ratio_base_bs bs))
                  (<[i_bs := er_ratio_con er]> (ratio_con_bs bs))
                  (<[i_bs := er_ratio_diff er]> (diff_bs bs))
                  (<[i_bs := er_p_change er]> (p_change_bs bs)),
         S (S calls))) /\
  length ib = length a1 /\ Forall (fun i => (i < length a1)%nat) ib /\
  length ic = length a4 /\ Forall (fun i => (i < length a4)%nat) ic.
Proof.
  intros N1 L2 L3 N4 L5 L6 ib ic.
  assert (forall (c high : nat) (i : Z),
            high <> 0%nat -> i ∈ randint raw c high high ->
            (0 <= i < Z.of_nat high)%Z) as Hrange.
  { intros c high i Hh Hi. eapply randint_range; [lia | exact Hi]. }
  split; [|repeat split].
  - unfold bootstrap_iteration.
    rewrite (np_take_rows 0%float a1) by (intros i Hi; by eapply Hrange).
    rewrite (np_take_rows 0%float a2)
      by (intros i Hi; rewrite L2; by eapply Hrange).
    rewrite (np_take_rows 0%Z a3)
      by (intros i Hi; rewrite L3; by eapply Hrange).
    rewrite (np_take_rows 0%float a4) by (intros i Hi; by eapply Hrange).
    rewrite (np_take_rows 0%float a5)
      by (intros i Hi; rewrite L5; by eapply Hrange).
    rewrite (np_take_rows 0%Z a6)
      by (intros i Hi; rewrite L6; by eapply Hrange).
    reflexivity.
  - unfold ib. by rewrite length_map, randint_length.
  - unfold ib. apply Forall_forall. intros j Hj.
    apply list_elem_of_fmap in Hj as (i & -> & Hi).
    apply Hrange in Hi; [lia | exact N1].
  - unfold ic. by rewrite length_map, randint_length.
  - unfold ic. apply Forall_forall. intros j Hj.
    apply list_elem_of_fmap in Hj as (i & -> & Hi).
    apply Hrange in Hi; [lia | exact N4].
Qed.

End BootstrapMore.

(** ** Directions that are not numbers *)

Lemma SFleb_nan_r (f : spec_float) : SFleb f S754_nan = false.
Proof. by destruct f. Qed.

Lemma SFleb_nan_l (f : spec_float) : SFleb S754_nan f = false.
Proof. by destruct f. Qed.

Lemma is_nan_Prim2SF (x : float) :
  PrimFloat.is_nan x = true -> Prim2SF x = S754_nan.
Proof. rewrite is_nan_SF. by destruct (Prim2SF x). Qed.

Lemma sub_nan_l (c r : float) :
  PrimFloat.is_nan c = true -> Prim2SF (c - r) = S754_nan.
Proof.
  intros H. rewrite sub_spec, (is_nan_Prim2SF c H). unfold SF64sub, SFsub.
  by destruct (Prim2SF r).
Qed.

Lemma sub_nan_r (c r : float) :
  PrimFloat.is_nan r = true -> Prim2SF (c - r) = S754_nan.
Proof.
  intros H. rewrite sub_spec, (is_nan_Prim2SF r H). unfold SF64sub, SFsub.
  by destruct (Prim2SF c).
Qed.

(** X17: a sample whose direction is NaN belongs to no bin, and a bin whose
    center or radius is NaN holds no sample: the direction test is false as
    soon as one of the three numbers is NaN. *)
Theorem nan_is_in_no_bin (c r d : float) :
  PrimFloat.is_nan c = true \/ PrimFloat.is_nan r = true \/
  PrimFloat.is_nan d = true ->
  in_bin c r d = false.
Proof.
  intros H. unfold in_bin. apply andb_false_iff. left.
  rewrite leb_spec.
  destruct H as [H|[H|H]].
  - rewrite (sub_nan_l c r H). apply SFleb_nan_l.
  - rewrite (sub_nan_r c r H). apply SFleb_nan_l.
  - rewrite (is_nan_Prim2SF d H). apply SFleb_nan_r.
Qed.

Lemma nan_is_in_no_bin_witness :
  in_bin 270 1 nan = false /\ in_bin nan 1 270 = false /\ in_bin 270 nan 270 = false.
Proof.
  split; [|split]; apply nan_is_in_no_bin; vm_compute; auto.
Defined.

(** ** The further properties on concrete calls *)

Lemma report_shape_witness :
  exists rep rng',
    calculate_balanced_energy_ratio Ref.max_alloc Ref.np_log10 Ref.np_percentile Ref.raw
        (PyNdarray [100; 100; 100]%float) (PyNdarray [50; 50; 40]%float)
        (PyNdarray [8.2; 8.9; 9.5]%float) (PyNdarray [270; 271; 269]%float)
        (PyNdarray [100; 100]%float) (PySeries [55; 44]%float)
        (PyNdarray [8.5; 9.1]%float) (PyNdarray [270; 270.5]%float)
        [270; 272; 400]%float 95%float (Some 5%Z) None 0%nat = Ok (rep, rng') /\
    Forall (fun a : list float => length a = length [270; 272; 400]%float)
           (arrays_of rep).
Proof.
  eexists _, _. split; [vm_compute; reflexivity|].
  eapply (report_shape Ref.max_alloc Ref.np_log10 Ref.np_percentile Ref.raw
            (PyNdarray [100; 100; 100]%float) (PyNdarray [50; 50; 40]%float)
            (PyNdarray [8.2; 8.9; 9.5]%float) (PyNdarray [270; 271; 269]%float)
            (PyNdarray [100; 100]%float) (PySeries [55; 44]%float)
            (PyNdarray [8.5; 9.1]%float) (PyNdarray [270; 270.5]%float)
            [270; 272; 400]%float 95%float (Some 5%Z) None 0%nat).
  vm_compute. reflexivity.
Defined.

Lemma no_sample_in_any_bin_witness :
  exists rep,
    calculate_balanced_energy_ratio Ref.max_alloc Ref.np_log10 Ref.np_percentile Ref.raw
        (PyNdarray []) (PyNdarray []) (PyNdarray []) (PyNdarray [])
        (PyNdarray [100; 100]%float) (PyNdarray [55; 44]%float)
        (PyNdarray [8.5; 9.1]%float) (PyNdarray [270; 270.5]%float)
        [270; 272]%float 95%float None None 7%nat = Ok (rep, 7%nat) /\
    Forall (fun a : list float => a = repeat nan (length [270; 272]%float))
           (arrays_of rep).
Proof.
  apply (no_sample_in_any_bin Ref.max_alloc Ref.np_log10 Ref.np_percentile Ref.raw
           [] [] [] [] [100; 100]%float [55; 44]%float [8.5; 9.1]%float
           [270; 270.5]%float [270; 272]%float 95%float None None 7%nat 1%float);
    try reflexivity.
  left. intros c d _ Hd. by apply elem_of_nil in Hd.
Defined.

Lemma ill_sized_input_witness :
  calculate_balanced_energy_ratio Ref.max_alloc Ref.np_log10 Ref.np_percentile Ref.raw
      (PyNdarray [100; 100; 100]%float) (PyNdarray [50; 50]%float)
      (PyNdarray [8.2; 8.9; 9.5]%float) (PyNdarray [270; 271; 269]%float)
      (PyNdarray [100; 100]%float) (PyNdarray [55; 44]%float)
      (PyNdarray [8.5; 9.1]%float) (PyNdarray [270; 270.5]%float)
      [270; 272]%float 95%float None None 0%nat = Err IndexError.
Proof.
  apply ill_sized_input. right. left. cbn. lia.
Defined.

Lemma random_calls_with_given_count_witness :
  exists rep rng',
    calculate_balanced_energy_ratio Ref.max_alloc Ref.np_log10 Ref.np_percentile Ref.raw
        (PyNdarray [100; 100; 100; 100]%float) (PyNdarray [50; 50; 40; 45]%float)
        (PyNdarray [8.2; 8.9; 9.5; 8.1]%float) (PyNdarray [270; 271; 269; 280]%float)
        (PyNdarray [100; 100; 100]%float) (PyNdarray [55; 44; 50]%float)
        (PyNdarray [8.5; 9.1; 8.4]%float) (PyNdarray [270; 270.5; 281]%float)
        [270; 280; 290]%float 95%float (Some 5%Z) None 3%nat = Ok (rep, rng') /\
    let running :=
      List.filter
        (bin_runs (_convert_to_numpy_array (PyNdarray [100; 100; 100; 100]%float))
                  (_convert_to_numpy_array (PyNdarray [50; 50; 40; 45]%float))
                  (_convert_to_numpy_array (PyNdarray [8.2; 8.9; 9.5; 8.1]%float))
                  (_convert_to_numpy_array (PyNdarray [270; 271; 269; 280]%float))
                  (_convert_to_numpy_array (PyNdarray [100; 100; 100]%float))
                  (_convert_to_numpy_array (PyNdarray [55; 44; 50]%float))
                  (_convert_to_numpy_array (PyNdarray [8.5; 9.1; 8.4]%float))
                  (_convert_to_numpy_array (PyNdarray [270; 270.5; 281]%float)) 5)
        (enumerate [270; 280; 290]%float) in
    rng' = (3 + 2 * Z.to_nat 5 * length running)%nat /\
    (running <> [] -> (0 <= 5)%Z).
Proof.
  eexists _, _. split; [vm_compute; reflexivity|].
  eapply (random_calls_with_given_count Ref.max_alloc Ref.np_log10 Ref.np_percentile Ref.raw
            (PyNdarray [100; 100; 100; 100]%float) (PyNdarray [50; 50; 40; 45]%float)
            (PyNdarray [8.2; 8.9; 9.5; 8.1]%float)
            (PyNdarray [270; 271; 269; 280]%float)
            (PyNdarray [100; 100; 100]%float) (PyNdarray [55; 44; 50]%float)
            (PyNdarray [8.5; 9.1; 8.4]%float) (PyNdarray [270; 270.5; 281]%float)
            [270; 280; 290]%float 95%float 5%Z None 3%nat 5%float).
  - reflexivity.
  - vm_compute. reflexivity.
Defined.

Lemma bin_writes_only_its_index_witness :
  let st := LoopState (initial_report 3) (Some 5%Z) 0%nat in
  exists st',
    process_bin Ref.max_alloc Ref.np_log10 Ref.np_percentile Ref.raw
        (PyNdarray [100; 100; 100]%float) (PyNdarray [50; 50; 40]%float)
        (PyNdarray [8.2; 8.9; 9.5]%float) (PyNdarray [270; 271; 269]%float)
        (PyNdarray [100; 100]%float) (PyNdarray [55; 44]%float)
        (PyNdarray [8.5; 9.1]%float) (PyNdarray [270; 270.5]%float)
        1 95 (0%nat, 270%float) st = Ok st' /\
    values_at 1 (arrays st') = values_at 1 (arrays st) /\
    map length (arrays_of (arrays st')) = map length (arrays_of (arrays st)).
Proof.
  intros st. eexists. split; [vm_compute; reflexivity|].
  eapply (bin_writes_only_its_index Ref.max_alloc Ref.np_log10 Ref.np_percentile Ref.raw
            (PyNdarray [100; 100; 100]%float) (PyNdarray [50; 50; 40]%float)
            (PyNdarray [8.2; 8.9; 9.5]%float) (PyNdarray [270; 271; 269]%float)
            (PyNdarray [100; 100]%float) (PyNdarray [55; 44]%float)
            (PyNdarray [8.5; 9.1]%float) (PyNdarray [270; 270.5]%float)
            1%float 95%float 1%nat 0%nat 270%float st).
  - vm_compute. reflexivity.
  - discriminate.
Defined.

Lemma disjoint_buckets_in_bin_witness :
  exists rep rng',
    calculate_balanced_energy_ratio Ref.max_alloc Ref.np_log10 Ref.np_percentile Ref.raw
        (PyNdarray [100; 100]%float) (PyNdarray [50; 40]%float)
        (PyNdarray [8.2; 8.9]%float) (PyNdarray [270; 270.5]%float)
        (PyNdarray [100; 100]%float) (PyNdarray [55; 44]%float)
        (PyNdarray [9.5; 9.1]%float) (PyNdarray [270; 270.5]%float)
        [270; 272]%float 95%float (Some 3%Z) None 0%nat = Ok (rep, rng') /\
    Forall (fun o => o = Some nan) (point_values_at 0 rep).
Proof.
  eexists _, _. split; [vm_compute; reflexivity|].
  eapply (disjoint_buckets_in_bin Ref.max_alloc Ref.np_log10 Ref.np_percentile Ref.raw
            (PyNdarray [100; 100]%float) (PyNdarray [50; 40]%float)
            (PyNdarray [8.2; 8.9]%float) (PyNdarray [270; 270.5]%float)
            (PyNdarray [100; 100]%float) (PyNdarray [55; 44]%float)
            (PyNdarray [9.5; 9.1]%float) (PyNdarray [270; 270.5]%float)
            [270; 272]%float 95%float (Some 3%Z) None 0%nat 1%float 0%nat 270%float
            (BinSubset [100; 100]%float [50; 40]%float [8.2; 8.9]%float
                       [100; 100]%float [55; 44]%float [9.5; 9.1]%float)).
  - reflexivity.
  - reflexivity.
  - vm_compute. reflexivity.
  - intros k H1 H2. vm_compute in H1, H2. elem_cases H1; elem_cases H2; lia.
  - vm_compute. reflexivity.
Defined.

Lemma bootstrap_shape_witness :
  exists bs calls',
    bootstrap Ref.max_alloc Ref.raw 4 [100; 100; 100]%float [50; 50; 40]%float [8; 8; 9]%Z
              [100; 100]%float [55; 44]%float [8; 9]%Z 0 = Ok (bs, calls') /\
    (0 <= 4)%Z /\
    length (ratio_base_bs bs) = Z.to_nat 4 /\
    length (ratio_con_bs bs) = Z.to_nat 4 /\
    length (diff_bs bs) = Z.to_nat 4 /\
    length (p_change_bs bs) = Z.to_nat 4 /\
    calls' = (0 + 2 * Z.to_nat 4)%nat.
Proof.
  eexists _, _. split; [vm_compute; reflexivity|].
  eapply (bootstrap_shape Ref.max_alloc Ref.raw 4 [100; 100; 100]%float [50; 50; 40]%float
            [8; 8; 9]%Z [100; 100]%float [55; 44]%float [8; 9]%Z 0%nat).
  vm_compute. reflexivity.
Defined.

Lemma resampling_keeps_rows_witness :
  let a1 := [100; 110; 120]%float in
  let a4 := [100; 90]%float in
  let bs := BsArrays [0; 0]%float [0; 0]%float [0; 0]%float [0; 0]%float in
  let ib := map Z.to_nat (randint Ref.raw 0 (length a1) (length a1)) in
  let ic := map Z.to_nat (randint Ref.raw 1 (length a4) (length a4)) in
  bootstrap_iteration Ref.max_alloc Ref.raw a1 [50; 50; 40]%float [8; 8; 9]%Z
                      a4 [55; 44]%float [8; 9]%Z 0 (bs, 0%nat)
  = (let! er := energy_ratio Ref.max_alloc
                             (rows 0%float a1 ib) (rows 0%float [50; 50; 40]%float ib)
                             (rows 0%Z [8; 8; 9]%Z ib)
                             (rows 0%float a4 ic) (rows 0%float [55; 44]%float ic)
                             (rows 0%Z [8; 9]%Z ic) in
     Ok (BsArrays (<[0%nat := er_ratio_base er]> (ratio_base_bs bs))
                  (<[0%nat := er_ratio_con er]> (ratio_con_bs bs))
                  (<[0%nat := er_ratio_diff er]> (diff_bs bs))
                  (<[0%nat := er_p_change er]> (p_change_bs bs)),
         2%nat)) /\
  length ib = length a1 /\ Forall (fun i => (i < length a1)%nat) ib /\
  length ic = length a4 /\ Forall (fun i => (i < length a4)%nat) ic.
Proof.
  apply (resampling_keeps_rows Ref.max_alloc Ref.raw [100; 110; 120]%float [50; 50; 40]%float
           [8; 8; 9]%Z [100; 90]%float [55; 44]%float [8; 9]%Z 0%nat
           (BsArrays [0; 0]%float [0; 0]%float [0; 0]%float [0; 0]%float) 0%nat);
    (reflexivity || discriminate).
Defined.
